(** * Smart-Attendance: the semester-promotion workflow

    A shallow embedding of [routes/teacherRoutes.js] (the roster store's
    naming, the student record, the [POST /simple-promotion/:stream]
    handler) and of the second [getCollectionName] that the reports routes
    carry, followed by the properties of the promotion run.

    Conventions.
    - JavaScript numbers that hold semesters, generations and timestamps are
      integers here ([Z]); lengths and counts are [nat].
    - A field that a document may lack is an [option]: [None] is a path
      that the record lacks (for a string or an array also one that holds
      [null]; a number or a boolean that holds [null] is not in the
      model).  [isActive] and [languageGroup], where a missing path and
      [null] are read apart, have their own types.
    - Strings are ASCII text: case folding, trimming and the classes of
      regular expressions are embedded for ASCII characters, and the
      properties that depend on them are stated for ASCII text.
    - The MongoDB database is a finite map from collection names to the list
      of documents of the collection; a collection that was never written is
      read as empty (collections are created on first use).
    - Every call on a collection may fail.  Which call fails, and with which
      error, is decided by a fault plan, a parameter of the run: the unique
      index on [studentID], schema validation and the network are all causes
      the plan stands for.  A request makes each call (method and
      collection) at most once, so a plan can fail any of them on its own.
      A failing call changes nothing.
    - [insertMany] stores the objects as the handler built them (the casts
      and setters of the schema are the identity on records that came out
      of the same schema).
    - [find] without [lean] returns documents: where a stored record lacks
      a path, the document has the default of the schema.  The promotion
      handler reads documents ([Document.ofRecord]), the attendance route
      reads the subject as a document ([Subject.document]), and the
      absence routes read lean records.
    - [console.log]/[console.error] lines of the handler are kept as a list
      of console lines, and the calls made on the store as a list of events;
      the lines that [getStudentModel] and [getCollectionName] print are
      left out.
    - [session.withTransaction] runs its callback once; [startSession] and
      [endSession] do not fail.
    - Object lookups see the own keys of the object only. *)

From stdpp Require Import gmap strings list fin_maps pretty.
From Stdlib Require Import ZArith Lia Ascii.

Open Scope Z_scope.

(** ** Results of code that may throw *)

Inductive error : Type :=
| MissingRequired (stream : string) (semester : Z) (type : string)
| InvalidStream (stream : string)
| InvalidSemester (semester : Z)
| ModelArgumentsRequired
| StoreError (message : string).

Inductive result (A : Type) : Type :=
| Ok (a : A)
| Throw (e : error).

Arguments Ok {A} a.
Arguments Throw {A} e.

(** ** JavaScript idioms used by the handler *)

Module Js.

(** [x || d] for a numeric field: [undefined], [null] and [0] are falsy. *)
Definition orNum (x : option Z) (d : Z) : Z :=
  match x with
  | Some v => if v =? 0 then d else v
  | None => d
  end.

(** [x || []] for an array field (an array, even empty, is truthy). *)
Definition orArray {A : Type} (x : option (list A)) : list A :=
  match x with
  | Some l => l
  | None => []
  end.

(** The ASCII part of the regular expression class [\s]. *)
Definition isSpace (c : ascii) : bool :=
  let n := Ascii.N_of_ascii c in
  ((n =? 32) || ((9 <=? n) && (n <=? 13)))%N.

(** [s.replace(/\s+/g, '_')]: every maximal run of white space becomes
    one underscore. *)
Fixpoint replaceSpaceRuns (inRun : bool) (s : string) : string :=
  match s with
  | EmptyString => EmptyString
  | String c r =>
      if isSpace c
      then (if inRun then replaceSpaceRuns true r
            else String "_" (replaceSpaceRuns true r))
      else String c (replaceSpaceRuns false r)
  end.

(** [toLowerCase] on ASCII letters. *)
Definition lowerAscii (c : ascii) : ascii :=
  let n := Ascii.N_of_ascii c in
  if ((65 <=? n) && (n <=? 90))%N then Ascii.ascii_of_N (n + 32) else c.

Fixpoint toLowerCase (s : string) : string :=
  match s with
  | EmptyString => EmptyString
  | String c r => String (lowerAscii c) (toLowerCase r)
  end.

(** [s.replace(/[\s&-]/g, "_")]: each matching character is replaced. *)
Fixpoint replaceSeparators (s : string) : string :=
  match s with
  | EmptyString => EmptyString
  | String c r =>
      let c' := if isSpace c || Ascii.eqb c "&" || Ascii.eqb c "-"
                then "_"%char else c in
      String c' (replaceSeparators r)
  end.

(** [Array.prototype.includes] on strings. *)
Definition includes (l : list string) (s : string) : bool :=
  existsb (String.eqb s) l.

End Js.

(** ** Collection names *)

(** [STREAM_MAPPINGS] of [routes/teacherRoutes.js], in key order. *)
Definition STREAM_MAPPINGS : list (string * string) :=
  [ ("BCA", "bca");
    ("BBA", "bba");
    ("BCom", "bcom");
    ("BCom Section B", "bcomsectionb");
    ("BCom-BDA", "bcom-bda");
    ("BCom A and F", "bcom_a_and_f") ].

(** Own-property lookup [mapping[key]]. *)
Fixpoint lookupMapping (mapping : list (string * string)) (key : string)
  : option string :=
  match mapping with
  | [] => None
  | (k, v) :: rest => if String.eqb k key then Some v else lookupMapping rest key
  end.

(** [getCollectionName] of [routes/teacherRoutes.js]. *)
Definition getCollectionName (stream : string) (semester : Z) (type : string)
  : result string :=
  if String.eqb stream "" || (semester =? 0) || String.eqb type ""
  then Throw (MissingRequired stream semester type)
  else
    match lookupMapping STREAM_MAPPINGS stream with
    | None => Throw (InvalidStream stream)
    | Some streamCode =>
        if String.eqb streamCode "" then Throw (InvalidStream stream)
        else if (semester <? 1) || (semester >? 8)
        then Throw (InvalidSemester semester)
        else Ok (streamCode +:+ "_sem" +:+ pretty semester +:+ "_" +:+ type)
    end.

(** The reports routes define their own [getCollectionName], with a table
    of their own and a fallback for streams the table lacks. *)
Module Reports.

Definition streamMappings : list (string * string) :=
  [ ("BCA", "bca");
    ("BBA", "bba");
    ("BCom", "bcom");
    ("BCom Section B", "bcomsectionb");
    ("BCom-BDA", "bcom_bda");
    ("BCom A and F", "bcom_a_and_f") ].

Definition getCollectionName (stream : string) (semester : Z) (type : string)
  : string :=
  let streamCode :=
    match lookupMapping streamMappings stream with
    | Some code =>
        if String.eqb code ""
        then Js.replaceSeparators (Js.toLowerCase stream)
        else code
    | None => Js.replaceSeparators (Js.toLowerCase stream)
    end in
  streamCode +:+ "_sem" +:+ pretty semester +:+ "_" +:+ type.

End Reports.

(** The model handle of a bucket is the name of its collection: the model
    cache and [mongoose.models] return the one model registered under the
    name. *)
Definition getStudentModel (stream : string) (sem : Z) : result string :=
  if String.eqb stream "" || (sem =? 0) then Throw ModelArgumentsRequired
  else getCollectionName stream sem "students".

Definition getSubjectModel (stream : string) (sem : Z) : result string :=
  if String.eqb stream "" || (sem =? 0) then Throw ModelArgumentsRequired
  else getCollectionName stream sem "subjects".

(** ** The student record *)

(** One entry of [migrationHistory]. *)
Module Hop.
Record t : Type := mk {
  fromSemester : Z;
  toSemester : Z;
  migratedDate : Z;
  migrationBatch : string;
  generation : Z
}.
End Hop.

(** [isActive] as a query sees it: the field may be missing, [null], or a
    boolean. *)
Inductive activeFlag : Type :=
| Absent
| Null
| Flag (b : bool).

(** [languageGroup] as a record of the store has it: the path may be
    missing, hold [null], or hold a string. *)
Inductive groupField : Type :=
| GroupMissing
| GroupNull
| Group (languageGroup : string).

Module Student.
Record t : Type := mk {
  studentID : string;
  name : string;
  stream : string;
  semester : Z;
  parentPhone : option string;
  languageSubject : option string;
  languageGroup : groupField;
  isActive : activeFlag;
  migrationGeneration : option Z;
  originalSemester : option Z;
  addedToSemesterDate : option Z;
  lastMigrationDate : option Z;
  migrationBatch : option string;
  migrationHistory : option (list Hop.t);
  academicYear : option string
}.
End Student.

(** ** The roster store *)

(** The two filters the handler passes: [{}] and [getActiveStudentQuery()]. *)
Inductive query : Type :=
| AllDocuments
| ActiveStudentQuery.

(** [$or: [{isActive: true}, {isActive: {$exists: false}}, {isActive: null}]] *)
Definition matches (q : query) (s : Student.t) : bool :=
  match q with
  | AllDocuments => true
  | ActiveStudentQuery =>
      match Student.isActive s with
      | Flag true => true
      | Absent => true
      | Null => true
      | Flag false => false
      end
  end.

Inductive method : Type :=
| CountDocuments
| Find
| InsertMany
| DeleteMany.

(** A call made on the store, and the error it raised if it failed. *)
Record event : Type := mkEvent {
  calledMethod : method;
  onCollection : string;
  raised : option error
}.

(** Which calls fail, and how. *)
Definition faultPlan : Type := method -> string -> option error.

Definition noFaults : faultPlan := fun _ _ => None.

Abbreviation database := (gmap string (list Student.t)).

Definition documents (d : database) (collection : string) : list Student.t :=
  default [] (d !! collection).

(** ** The handler's variables and its console *)

(** An entry of [promotionDetails]; [students] are [{id, name}] pairs. *)
Inductive detail : Type :=
| GraduationDetail (semester : Z) (count : nat) (students : list (string * string))
| PromotionDetail (fromSemester toSemester : Z) (count : nat)
    (students : list (string * string)).

Inductive consoleLine : Type :=
| LogStarting (stream : string)
| LogLimitedRange
| LogFullRange
| LogGraduated (count : nat)
| ErrGraduation (e : error)
| LogPromoting (stream : string) (fromSem toSem : Z) (count : nat)
| ErrPromoting (fromSem toSem : Z) (e : error)
| LogCompleted (promoted graduated : nat).

Record state : Type := mkState {
  db : database;
  events : list event;
  console : list consoleLine;
  totalPromoted : nat;
  totalGraduated : nat;
  promotionDetails : list detail
}.

Definition setDb (d : database) (s : state) : state :=
  mkState d (events s) (console s) (totalPromoted s) (totalGraduated s)
    (promotionDetails s).

Definition addEvent (ev : event) (s : state) : state :=
  mkState (db s) (events s ++ [ev]) (console s) (totalPromoted s)
    (totalGraduated s) (promotionDetails s).

Definition addLine (l : consoleLine) (s : state) : state :=
  mkState (db s) (events s) (console s ++ [l]) (totalPromoted s)
    (totalGraduated s) (promotionDetails s).

Definition setTotalPromoted (n : nat) (s : state) : state :=
  mkState (db s) (events s) (console s) n (totalGraduated s)
    (promotionDetails s).

Definition setTotalGraduated (n : nat) (s : state) : state :=
  mkState (db s) (events s) (console s) (totalPromoted s) n
    (promotionDetails s).

Definition pushDetail (x : detail) (s : state) : state :=
  mkState (db s) (events s) (console s) (totalPromoted s) (totalGraduated s)
    (promotionDetails s ++ [x]).

(** ** Code that reads and writes the state and may throw *)

Definition M (A : Type) : Type := state -> result A * state.

Definition ret {A : Type} (a : A) : M A := fun s => (Ok a, s).

Definition bind {A B : Type} (m : M A) (k : A -> M B) : M B :=
  fun s =>
    match m s with
    | (Ok a, s') => k a s'
    | (Throw e, s') => (Throw e, s')
    end.

Definition throw {A : Type} (e : error) : M A := fun s => (Throw e, s).

Definition lift {A : Type} (r : result A) : M A := fun s => (r, s).

Definition modify (f : state -> state) : M unit := fun s => (Ok tt, f s).

(** [try { m } catch (error) { handler error }]: what [m] did before it threw
    stays done. *)
Definition tryCatch {A : Type} (m : M A) (handler : error -> M A) : M A :=
  fun s =>
    match m s with
    | (Throw e, s') => handler e s'
    | (Ok a, s') => (Ok a, s')
    end.

Declare Scope js_scope.
Delimit Scope js_scope with js.
Notation "'let*' x := m 'in' k" := (bind m (fun x => k))
  (at level 10, x name, m at level 100, k at level 200) : js_scope.
Notation "m ;; k" := (bind m (fun _ => k))
  (at level 100, k at level 200, right associativity) : js_scope.

(** [for (const x of l) body]. *)
Fixpoint forOf {A : Type} (l : list A) (body : A -> M unit) : M unit :=
  match l with
  | [] => ret tt
  | x :: rest => bind (body x) (fun _ => forOf rest body)
  end.

Section Store.

Variable plan : faultPlan.

(** A call on a collection: the plan decides whether it fails; a failing
    call leaves the database as it is. *)
Definition call {A : Type} (m : method) (collection : string)
    (run : database -> A * database) : M A :=
  fun s =>
    match plan m collection with
    | Some e => (Throw e, addEvent (mkEvent m collection (Some e)) s)
    | None =>
        let (a, d') := run (db s) in
        (Ok a, addEvent (mkEvent m collection None) (setDb d' s))
    end.

Definition countDocuments (collection : string) : M nat :=
  call CountDocuments collection
    (fun d => (length (documents d collection), d)).

Definition find (collection : string) (q : query) : M (list Student.t) :=
  call Find collection
    (fun d => (List.filter (matches q) (documents d collection), d)).

Definition insertMany (collection : string) (docs : list Student.t) : M unit :=
  call InsertMany collection
    (fun d => (tt, <[collection := documents d collection ++ docs]> d)).

Definition deleteMany (collection : string) (q : query) : M unit :=
  call DeleteMany collection
    (fun d =>
       (tt, <[collection :=
                List.filter (fun s => negb (matches q s)) (documents d collection)]> d)).

End Store.

(** [session.withTransaction(callback)]: when the callback throws, the
    transaction is aborted, the database is what it was when the
    transaction started, and the error is thrown on.  The handler's own
    variables and the console are not part of the transaction. *)
Definition withTransaction {A : Type} (callback : M A) : M A :=
  fun s =>
    match callback s with
    | (Throw e, s') => (Throw e, setDb (db s) s')
    | (Ok a, s') => (Ok a, s')
    end.

(** ** [POST /simple-promotion/:stream] *)

(** What the handler reads from the clock: [new Date()], [Date.now()] and
    the year of [new Date().getFullYear()]. *)
Record clock : Type := mkClock {
  promotionDate : Z;
  dateNow : Z;
  fullYear : Z
}.

Record promotionPair : Type := mkPair {
  fromSem : Z;
  toSem : Z
}.

Definition validStreams : list string :=
  ["BCA"; "BBA"; "BCom"; "BCom Section B"; "BCom-BDA"; "BCom A and F"].

Definition promotionBatch (stream : string) (c : clock) : string :=
  "simple_promotion_" +:+ Js.replaceSpaceRuns false stream +:+ "_"
    +:+ pretty (dateNow c).

Definition semesterRange (stream : string) : list Z :=
  if String.eqb stream "BCom Section B" then [5; 6] else [1; 2; 3; 4; 5; 6].

(** [for (let fromSem = n; fromSem >= 1; fromSem--) push {fromSem, fromSem + 1}] *)
Fixpoint pairsDownFrom (n : nat) : list promotionPair :=
  match n with
  | O => []
  | S m => mkPair (Z.of_nat n) (Z.of_nat n + 1) :: pairsDownFrom m
  end.

Definition promotionPairs (stream : string) : list promotionPair :=
  if String.eqb stream "BCom Section B" then [mkPair 5 6] else pairsDownFrom 5.

(** The document that [find] makes of a stored student: a path that the
    record lacks has the default of [studentSchema].  The paths that the
    handler does not read from the document (the dates, the batch, the
    academic year) are left as stored. *)
Module Document.

(** [toUpperCase] on ASCII letters, the setter of a path declared with
    [uppercase: true]; it is run on a default as on a value that is set. *)
Definition upperAscii (c : ascii) : ascii :=
  let n := Ascii.N_of_ascii c in
  if ((97 <=? n) && (n <=? 122))%N then Ascii.ascii_of_N (n - 32) else c.

Fixpoint toUpperCase (s : string) : string :=
  match s with
  | EmptyString => EmptyString
  | String c r => String (upperAscii c) (toUpperCase r)
  end.

(** The default of [languageGroup]:
    [`${this.stream}_SEM${this.semester}_${this.languageSubject}`] for a
    truthy [languageSubject], else [null]. *)
Definition languageGroupDefault (student : Student.t) : groupField :=
  match Student.languageSubject student with
  | Some languageSubject =>
      if String.eqb languageSubject "" then GroupNull
      else Group (toUpperCase
                    (Student.stream student +:+ "_SEM"
                     +:+ pretty (Student.semester student) +:+ "_"
                     +:+ languageSubject))
  | None => GroupNull
  end.

Definition ofRecord (student : Student.t) : Student.t :=
  {| Student.studentID := Student.studentID student;
     Student.name := Student.name student;
     Student.stream := Student.stream student;
     Student.semester := Student.semester student;
     Student.parentPhone := Student.parentPhone student;
     Student.languageSubject := Student.languageSubject student;
     Student.languageGroup :=
       match Student.languageGroup student with
       | GroupMissing => languageGroupDefault student
       | stored => stored
       end;
     Student.isActive :=
       match Student.isActive student with
       | Absent => Flag true
       | flag => flag
       end;
     Student.migrationGeneration :=
       Some (default 0 (Student.migrationGeneration student));
     (* [default: function() { return this.semester; }] *)
     Student.originalSemester :=
       Some (default (Student.semester student)
               (Student.originalSemester student));
     Student.addedToSemesterDate := Student.addedToSemesterDate student;
     Student.lastMigrationDate := Student.lastMigrationDate student;
     Student.migrationBatch := Student.migrationBatch student;
     Student.migrationHistory :=
       Some (default [] (Student.migrationHistory student));
     Student.academicYear := Student.academicYear student |}.

End Document.

(** The record built for one student of [studentsToPromote] (the function
    mapped over the array to make [promotedStudents]); [stored] is the
    record of the store and [student] the document made of it. *)
Definition promotedStudent (c : clock) (batch : string) (fromSem toSem : Z)
    (stored : Student.t) : Student.t :=
  let student := Document.ofRecord stored in
  let generation := Js.orNum (Student.migrationGeneration student) 0 + 1 in
  {| Student.studentID := Student.studentID student;
     Student.name := Student.name student;
     Student.stream := Student.stream student;
     Student.semester := toSem;
     Student.parentPhone := Student.parentPhone student;
     Student.languageSubject := Student.languageSubject student;
     Student.languageGroup := Student.languageGroup student;
     Student.isActive := Flag true;
     Student.migrationGeneration := Some generation;
     Student.originalSemester :=
       Some (Js.orNum (Student.originalSemester student) fromSem);
     Student.addedToSemesterDate := Some (promotionDate c);
     Student.lastMigrationDate := Some (promotionDate c);
     Student.migrationBatch := Some batch;
     Student.migrationHistory :=
       Some (Js.orArray (Student.migrationHistory student)
               ++ [ {| Hop.fromSemester := fromSem;
                       Hop.toSemester := toSem;
                       Hop.migratedDate := promotionDate c;
                       Hop.migrationBatch := batch;
                       Hop.generation := generation |} ]);
     Student.academicYear := Some (pretty (fullYear c)) |}.

(** [s => ({ id: s.studentID, name: s.name })] *)
Definition idAndName (s : Student.t) : string * string :=
  (Student.studentID s, Student.name s).

Module Report.
(** The JSON body of the success response (its fixed texts left out). *)
Record t : Type := mk {
  success : bool;
  promotionDate : Z;
  promotionBatch : string;
  totalPromoted : nat;
  totalGraduated : nat;
  promotionFlow : list string;
  promotionDetails : list detail
}.
End Report.

(** How a request ends: status 400, the report, or a rejected promise whose
    error [asyncHandler] hands to [next]. *)
Inductive response : Type :=
| BadRequest (valid : list string)
| Success (report : Report.t)
| Failed (e : error).

Section Handler.

Variable plan : faultPlan.
Variable now : clock.

Local Open Scope js_scope.

(** Step 1 of the transaction: the students of semester 6 graduate. *)
Definition graduationStep (stream : string) : M unit :=
  tryCatch
    (let* Semester6Students := lift (getStudentModel stream 6) in
     let* semester6Count := countDocuments plan Semester6Students in
     if (0 <? semester6Count)%nat
     then
       let* graduatingStudents := find plan Semester6Students AllDocuments in
       deleteMany plan Semester6Students AllDocuments ;;
       modify (setTotalGraduated semester6Count) ;;
       modify (addLine (LogGraduated semester6Count)) ;;
       modify (pushDetail
                 (GraduationDetail 6 semester6Count
                    (map idAndName graduatingStudents)))
     else ret tt)
    (fun error => modify (addLine (ErrGraduation error))).

(** The body of the loop over [promotionPairs]. *)
Definition promotePair (stream : string) (p : promotionPair) : M unit :=
  tryCatch
    (let* SourceStudent := lift (getStudentModel stream (fromSem p)) in
     let* TargetStudent := lift (getStudentModel stream (toSem p)) in
     let* studentsToPromote := find plan SourceStudent ActiveStudentQuery in
     modify (addLine (LogPromoting stream (fromSem p) (toSem p)
                        (length studentsToPromote))) ;;
     if (0 <? length studentsToPromote)%nat
     then
       let promotedStudents :=
         map (promotedStudent now (promotionBatch stream now)
                (fromSem p) (toSem p)) studentsToPromote in
       insertMany plan TargetStudent promotedStudents ;;
       deleteMany plan SourceStudent AllDocuments ;;
       (fun s => modify (setTotalPromoted
                           (totalPromoted s + length studentsToPromote)) s) ;;
       modify (pushDetail
                 (PromotionDetail (fromSem p) (toSem p)
                    (length studentsToPromote)
                    (map idAndName studentsToPromote)))
     else ret tt)
    (fun error =>
       modify (addLine (ErrPromoting (fromSem p) (toSem p) error)) ;;
       throw error).

(** The callback given to [session.withTransaction]. *)
Definition transactionBody (stream : string) : M unit :=
  (if existsb (Z.eqb 6) (semesterRange stream)
   then graduationStep stream else ret tt) ;;
  forOf (promotionPairs stream) (promotePair stream).

Definition promotionFlow (stream : string) (graduated : nat) : list string :=
  let last :=
    "Semester 6 → Graduated (" +:+ pretty graduated +:+ " students removed)" in
  if String.eqb stream "BCom Section B"
  then ["Semester 5 → Semester 6"; last]
  else ["Semester 1 → Semester 2"; "Semester 2 → Semester 3";
        "Semester 3 → Semester 4"; "Semester 4 → Semester 5";
        "Semester 5 → Semester 6"; last].

Definition initialState (d : database) : state :=
  mkState d [] [] 0 0 [].

(** The state in which the transaction starts. *)
Definition startState (stream : string) (d : database) : state :=
  addLine (if String.eqb stream "BCom Section B"
           then LogLimitedRange else LogFullRange)
    (addLine (LogStarting stream) (initialState d)).

(** The handler: the response and the state it leaves ([db] is the database
    after the request). *)
Definition simplePromotion (stream : string) (d : database)
  : response * state :=
  if String.eqb stream "" || negb (Js.includes validStreams stream)
  then (BadRequest validStreams, initialState d)
  else
    match withTransaction (transactionBody stream) (startState stream d) with
    | (Throw e, s2) => (Failed e, s2)
    | (Ok _, s2) =>
        (Success
           {| Report.success := true;
              Report.promotionDate := promotionDate now;
              Report.promotionBatch := promotionBatch stream now;
              Report.totalPromoted := totalPromoted s2;
              Report.totalGraduated := totalGraduated s2;
              Report.promotionFlow := promotionFlow stream (totalGraduated s2);
              Report.promotionDetails := promotionDetails s2 |},
         addLine (LogCompleted (totalPromoted s2) (totalGraduated s2)) s2)
    end.

End Handler.

(** The bucket of a stream and semester: the documents of the collection
    that [getStudentModel] resolves to. *)
Definition bucket (d : database) (stream : string) (sem : Z) : list Student.t :=
  match getStudentModel stream sem with
  | Ok collection => documents d collection
  | Throw _ => []
  end.

(** ** Vocabulary of the properties *)

(** The collection of a stream's students of a semester (the empty name
    where [getStudentModel] throws). *)
Definition collectionOf (stream : string) (sem : Z) : string :=
  match getStudentModel stream sem with
  | Ok collection => collection
  | Throw _ => ""
  end.

(** The students of a bucket that [getActiveStudentQuery] selects. *)
Definition actives (d : database) (stream : string) (sem : Z) : list Student.t :=
  List.filter (matches ActiveStudentQuery) (bucket d stream sem).

(** The records of a bucket that no query for active students selects. *)
Definition inactives (d : database) (stream : string) (sem : Z) : list Student.t :=
  List.filter (fun s => negb (matches ActiveStudentQuery s)) (bucket d stream sem).

(** What a source bucket keeps when its pair has run: nothing once a
    student was promoted out of it, everything otherwise. *)
Definition stayers (d : database) (stream : string) (sem : Z) : list Student.t :=
  match actives d stream sem with
  | [] => bucket d stream sem
  | _ :: _ => []
  end.

(** The records that the pair into [sem] inserts. *)
Definition arrivals (now : clock) (d : database) (stream : string) (sem : Z)
  : list Student.t :=
  map (promotedStudent now (promotionBatch stream now) (sem - 1) sem)
    (actives d stream (sem - 1)).

Definition isSource (stream : string) (sem : Z) : bool :=
  existsb (fun p => fromSem p =? sem) (promotionPairs stream).

Definition isTarget (stream : string) (sem : Z) : bool :=
  existsb (fun p => toSem p =? sem) (promotionPairs stream).

(** The bucket of [sem] after all pairs ran on database [d]. *)
Definition promotedBucket (now : clock) (d : database) (stream : string) (sem : Z)
  : list Student.t :=
  (if isSource stream sem then stayers d stream sem else bucket d stream sem)
    ++ (if isTarget stream sem then arrivals now d stream sem else []).

(** Whether the graduation step deletes semester 6: the bucket is not empty
    and none of the three calls fails. *)
Definition graduates (plan : faultPlan) (d : database) (stream : string) : bool :=
  let c := collectionOf stream 6 in
  match plan CountDocuments c, plan Find c, plan DeleteMany c with
  | None, None, None => (0 <? length (bucket d stream 6))%nat
  | _, _, _ => false
  end.

Definition afterGraduation (plan : faultPlan) (d : database) (stream : string)
  : database :=
  if graduates plan d stream then <[collectionOf stream 6 := []]> d else d.

(** The error of the first call of the graduation step that fails, if one
    does. *)
Definition graduationFault (plan : faultPlan) (d : database) (stream : string)
  : option error :=
  let c := collectionOf stream 6 in
  match plan CountDocuments c with
  | Some e => Some e
  | None =>
      if (0 <? length (bucket d stream 6))%nat
      then match plan Find c with
           | Some e => Some e
           | None => plan DeleteMany c
           end
      else None
  end.

(** [migrationGeneration] counts the entries of [migrationHistory]. *)
Definition generationCountsHistory (s : Student.t) : Prop :=
  Js.orNum (Student.migrationGeneration s) 0
  = Z.of_nat (length (Js.orArray (Student.migrationHistory s))).

Definition semesters : list Z := [1; 2; 3; 4; 5; 6].







(** The database after the pair [k -> k+1] ran without a failing call. *)
Definition afterPair (now : clock) (d : database) (stream : string) (k : Z)
  : database :=
  match actives d stream k with
  | [] => d
  | (_ :: _) as found =>
      <[collectionOf stream k := []]>
        (<[collectionOf stream (k + 1) :=
             bucket d stream (k + 1)
               ++ map (promotedStudent now (promotionBatch stream now) k (k + 1))
                    found]> d)
  end.

(** The entry that the pair [k -> k+1] pushes on [promotionDetails]. *)
Definition pairDetails (d : database) (stream : string) (k : Z) : list detail :=
  match actives d stream k with
  | [] => []
  | (_ :: _) as found =>
      [PromotionDetail k (k + 1) (length found) (map idAndName found)]
  end.

Definition succeeded (ev : event) : Prop := raised ev = None.

(** The calls of the pair [k -> k+1] when none of them fails. *)
Definition pairEvents (d : database) (stream : string) (k : Z) : list event :=
  match actives d stream k with
  | [] => [mkEvent Find (collectionOf stream k) None]
  | _ :: _ =>
      [mkEvent Find (collectionOf stream k) None;
       mkEvent InsertMany (collectionOf stream (k + 1)) None;
       mkEvent DeleteMany (collectionOf stream k) None]
  end.

(** The active students of the source buckets of a list of pairs. *)
Definition promotedCount (d : database) (stream : string)
    (pairs : list promotionPair) : nat :=
  fold_right Nat.add 0%nat
    (map (fun p => length (actives d stream (fromSem p))) pairs).

Definition pairsDetails (d : database) (stream : string)
    (pairs : list promotionPair) : list detail :=
  flat_map (fun p => pairDetails d stream (fromSem p)) pairs.

(** The shape of the pairs of the loop: one semester up, from a semester
    between 1 and 5. *)
Definition oneSemesterUp (p : promotionPair) : Prop :=
  1 <= fromSem p <= 5 /\ toSem p = fromSem p + 1.

(** A call of the pair [p] that failed with [e]: its read, its insert or
    its delete. *)
Definition failedCallOf (stream : string) (p : promotionPair) (e : error)
    (ev : event) : Prop :=
  ev = mkEvent Find (collectionOf stream (fromSem p)) (Some e)
  \/ ev = mkEvent InsertMany (collectionOf stream (toSem p)) (Some e)
  \/ ev = mkEvent DeleteMany (collectionOf stream (fromSem p)) (Some e).

(** A call of the graduation step: on the collection of semester 6, and not
    an insert. *)
Definition graduationCall (stream : string) (ev : event) : Prop :=
  onCollection ev = collectionOf stream 6 /\ calledMethod ev <> InsertMany.

(** The run committed: the caller got the report. *)
Definition committed (r : response) : Prop :=
  match r with
  | Success _ => True
  | _ => False
  end.

(** The graduated count of the report (0 when there is no report). *)
Definition graduatedCount (r : response) : nat :=
  match r with
  | Success report => Report.totalGraduated report
  | _ => 0%nat
  end.

Definition reportedDetails (r : response) : list detail :=
  match r with
  | Success report => Report.promotionDetails report
  | _ => []
  end.

(** The database that a request leaves. *)
Definition databaseAfter (plan : faultPlan) (now : clock) (stream : string)
    (d : database) : database :=
  db (snd (simplePromotion plan now stream d)).

(** One hop: [r] is what the pair into semester [k] builds from [s]. *)
Definition promotedInto (now : clock) (stream : string) (k : Z)
    (s r : Student.t) : Prop :=
  r = promotedStudent now (promotionBatch stream now) (k - 1) k s.

(** The entry that a hop appends to the history of [student]. *)
Definition hopEntry (now : clock) (stream : string) (fromSem toSem : Z)
    (student : Student.t) : Hop.t :=
  {| Hop.fromSemester := fromSem;
     Hop.toSemester := toSem;
     Hop.migratedDate := promotionDate now;
     Hop.migrationBatch := promotionBatch stream now;
     Hop.generation := default 0 (Student.migrationGeneration student) + 1 |}.

(** ** Sample data *)

Module Sample.

Definition clk : clock := mkClock 1762041600000 1762041600123 2026.

(** A student as enrolment stores it. *)
Definition enrolled (id name stream : string) (sem : Z) (active : activeFlag)
  : Student.t :=
  {| Student.studentID := id;
     Student.name := name;
     Student.stream := stream;
     Student.semester := sem;
     Student.parentPhone := Some "919876543210";
     Student.languageSubject := None;
     Student.languageGroup := GroupNull;
     Student.isActive := active;
     Student.migrationGeneration := Some 0;
     Student.originalSemester := Some sem;
     Student.addedToSemesterDate := Some 1730000000000;
     Student.lastMigrationDate := None;
     Student.migrationBatch := None;
     Student.migrationHistory := Some [];
     Student.academicYear := Some "2025" |}.

Definition asha : Student.t := enrolled "BCA001" "ASHA" "BCA" 6 (Flag true).
Definition bala : Student.t := enrolled "BCA002" "BALA" "BCA" 6 Absent.
Definition chitra : Student.t := enrolled "BCA003" "CHITRA" "BCA" 5 (Flag true).
Definition deepa : Student.t := enrolled "BCA004" "DEEPA" "BCA" 4 Null.
Definition esha : Student.t := enrolled "BCA005" "ESHA" "BCA" 3 (Flag true).
Definition farid : Student.t := enrolled "BCA006" "FARID" "BCA" 3 (Flag false).
Definition gita : Student.t := enrolled "BCA007" "GITA" "BCA" 2 (Flag true).

(** A BCA roster with students in semesters 2 to 6. *)
Definition bca : database :=
  <["bca_sem6_students" := [asha; bala]]>
    (<["bca_sem5_students" := [chitra]]>
       (<["bca_sem4_students" := [deepa]]>
          (<["bca_sem3_students" := [esha; farid]]>
             (<["bca_sem2_students" := [gita]]> ∅)))).

(** A BCA roster whose only record is an inactive student of semester 3. *)
Definition bcaDormant : database :=
  <["bca_sem3_students" := [farid]]> ∅.

Definition hari : Student.t :=
  enrolled "BCB001" "HARI" "BCOM SECTION B" 5 (Flag false).
Definition indu : Student.t :=
  enrolled "BCB002" "INDU" "BCOM SECTION B" 3 (Flag true).

(** Section B with an inactive record in semester 5 and a student in
    semester 3. *)
Definition sectionB : database :=
  <["bcomsectionb_sem5_students" := [hari]]>
    (<["bcomsectionb_sem3_students" := [indu]]> ∅).



(** A student of semester 3 whose [originalSemester] is stored as 0. *)
Definition priya : Student.t :=
  {| Student.studentID := "BCA009";
     Student.name := "PRIYA";
     Student.stream := "BCA";
     Student.semester := 3;
     Student.parentPhone := Some "919876543210";
     Student.languageSubject := None;
     Student.languageGroup := GroupNull;
     Student.isActive := Flag true;
     Student.migrationGeneration := Some 0;
     Student.originalSemester := Some 0;
     Student.addedToSemesterDate := Some 1730000000000;
     Student.lastMigrationDate := None;
     Student.migrationBatch := None;
     Student.migrationHistory := Some [];
     Student.academicYear := Some "2025" |}.

Definition bcaFromZero : database :=
  <["bca_sem3_students" := [priya]]> ∅.

Definition writeConflict : error := StoreError "WriteConflict".

(** The insert into a given collection fails. *)
Definition insertFails (collection : string) : faultPlan :=
  fun m c =>
    match m with
    | InsertMany => if String.eqb c collection then Some writeConflict else None
    | _ => None
    end.

(** The delete on a given collection fails. *)
Definition deleteFails (collection : string) : faultPlan :=
  fun m c =>
    match m with
    | DeleteMany => if String.eqb c collection then Some writeConflict else None
    | _ => None
    end.

End Sample.

(** * The routes around the promotion

    The rest of this part embeds what the other routes of
    [routes/teacherRoutes.js] compute: the phone of the parents from the
    schema to the WhatsApp service ([utils/sendWhatsAppMessage.js]), the
    absences of a day and the messages about them, the names of the
    attendance collections, also those of the reports routes, the marking
    of the attendance, and the queue of a teacher ([routes/teacher.js]).

    Conventions.
    - Strings are ASCII: [toLowerCase], [trim] and the classes [\s] and
      [\d] are their ASCII parts.
    - A handler is a function of what it read from the store; the reads
      themselves are not modelled here.
    - Counts that a response carries are integers ([Z]).
    - Times, percentages and costs, which the handlers format as text,
      are left out of the records. *)

(** ** Text helpers *)

Module Text.

(** [\d] *)
Definition isDigit (c : ascii) : bool :=
  let n := Ascii.N_of_ascii c in ((48 <=? n) && (n <=? 57))%N.

(** [s.replace(/[class]/g, '')] keeps the characters outside the class. *)
Fixpoint keep (p : ascii -> bool) (s : string) : string :=
  match s with
  | EmptyString => EmptyString
  | String c r => if p c then String c (keep p r) else keep p r
  end.

(** Every character of [s] satisfies [p]. *)
Fixpoint all (p : ascii -> bool) (s : string) : bool :=
  match s with
  | EmptyString => true
  | String c r => p c && all p r
  end.

(** A character of ASCII, and a text of such characters. *)
Definition isAscii (c : ascii) : bool := (Ascii.N_of_ascii c <? 128)%N.

Definition isAsciiText (s : string) : bool := all isAscii s.

(** [s.substring(n)] *)
Fixpoint dropChars (n : nat) (s : string) : string :=
  match n, s with
  | O, _ => s
  | S m, EmptyString => EmptyString
  | S m, String _ r => dropChars m r
  end.

(** [/^[class]/.test(s)] *)
Definition firstIs (p : ascii -> bool) (s : string) : bool :=
  match s with
  | EmptyString => false
  | String c _ => p c
  end.

(** Truthiness of a value that is a string or is missing: [undefined],
    [null] and the empty string are falsy. *)
Definition truthy (v : option string) : bool :=
  match v with
  | None => false
  | Some s => negb (String.eqb s "")
  end.

End Text.

(** ** Parent phone numbers *)

Module Phone.

(** The class [[\s\-\(\)\+]] of the schema of [parentPhone]. *)
Definition isSeparator (c : ascii) : bool :=
  Js.isSpace c || Ascii.eqb c "-" || Ascii.eqb c "(" || Ascii.eqb c ")"
  || Ascii.eqb c "+".

(** [v.replace(/[\s\-\(\)\+]/g, '')] *)
Definition cleaned (v : string) : string :=
  Text.keep (fun c => negb (isSeparator c)) v.

(** [[6-9]] *)
Definition is6to9 (c : ascii) : bool :=
  let n := Ascii.N_of_ascii c in ((54 <=? n) && (n <=? 57))%N.

(** [/^[6-9]\d{9}$/] *)
Definition isMobile (s : string) : bool :=
  (String.length s =? 10)%nat && Text.firstIs is6to9 s && Text.all Text.isDigit s.

(** [/^(91)?[6-9]\d{9}$/] *)
Definition isIndianNumber (s : string) : bool :=
  isMobile s || (String.prefix "91" s && isMobile (Text.dropChars 2 s)).

(** The validator of [parentPhone]. *)
Definition validator (v : string) : bool := isIndianNumber (cleaned v).

(** The setter of [parentPhone]. *)
Definition setter (v : string) : string :=
  let cleaned := cleaned v in
  if (String.length cleaned =? 10)%nat && negb (String.prefix "91" cleaned)
  then "91" +:+ cleaned
  else cleaned.

(** [WhatsAppService.formatPhoneNumber]; [None] is [null], and a missing
    phone is [None]. *)
Definition formatPhoneNumber (phone : option string) : option string :=
  if negb (Text.truthy phone) then None
  else
    let cleanPhone := Text.keep Text.isDigit (default "" phone) in
    if String.prefix "91" cleanPhone && (String.length cleanPhone =? 12)%nat
    then Some cleanPhone
    else if (String.length cleanPhone =? 10)%nat && Text.firstIs is6to9 cleanPhone
    then Some ("91" +:+ cleanPhone)
    else if String.prefix "0" cleanPhone && (String.length cleanPhone =? 11)%nat
    then Some ("91" +:+ Text.dropChars 1 cleanPhone)
    else if String.prefix "+91" cleanPhone && (String.length cleanPhone =? 13)%nat
    then Some (Text.dropChars 1 cleanPhone)
    else Some cleanPhone.

(** What [axios.post] to the messages endpoint does: it answers, with the
    ids of the message when the answer has them, or it throws, with the
    code and the message of the API error when the response has one. *)
Inductive apiOutcome : Type :=
| Accepted (id wamid : option string)
| Refused (message : string) (apiError : option (Z * option string)).

(** The fields of the result of [sendTextMessage] that its callers read
    (the timestamp, the provider and the raw response are left out). *)
Record sendResult : Type := mkSendResult {
  success : bool;
  error : option string;
  recipientPhone : option string;
  messageId : option string;
  whatsappId : option string;
  apiErrorCode : option Z;
  userFriendlyError : option string
}.

(** The [switch] on the code of the API error. *)
Definition friendlyError (code : Z) (message : option string) : string :=
  if code =? 190 then "Access token expired - Please update token"
  else if code =? 131056 then "Phone number not registered on WhatsApp"
  else if code =? 131051 then "Invalid phone number format"
  else if code =? 100 then "Invalid access token or permissions"
  else if code =? 80007 then "Message could not be delivered"
  else if code =? 133010 then "Account not registered - Use /register API first"
  else if Text.truthy message then default "" message
  else "Unknown WhatsApp API error".

(** A request to the messages endpoint: the recipient and the body. *)
Definition request : Type := string * string.

(** [messages?.[0]?.id || null] *)
Definition orNull (v : option string) : option string :=
  if Text.truthy v then v else None.

(** [WhatsAppService.sendTextMessage]: the result and the requests made so
    far.  The answer of the API may depend on the requests made before. *)
Definition sendTextMessage (api : list request -> request -> apiOutcome)
    (sent : list request) (phone : option string) (message : string)
  : sendResult * list request :=
  let formattedPhone := formatPhoneNumber phone in
  if negb (Text.truthy formattedPhone)
  then (mkSendResult false (Some "Invalid phone number format") phone
          None None None None, sent)
  else
    let payload := (default "" formattedPhone, message) in
    (match api sent payload with
     | Accepted id wamid =>
         mkSendResult true None formattedPhone (orNull id) (orNull wamid)
           None None
     | Refused errorMessage None =>
         mkSendResult false (Some errorMessage) formattedPhone
           None None None None
     | Refused errorMessage (Some (code, apiMessage)) =>
         mkSendResult false (Some errorMessage) formattedPhone
           None None (Some code) (Some (friendlyError code apiMessage))
     end,
     sent ++ [payload]).

End Phone.

(** ** Absences of a day

    [POST /send-absence-messages/:stream/sem:sem/:date] and
    [GET /daily-absence-summary/:stream/sem:sem/:date], from the students
    and the subjects they read to the messages they send and the counts
    they report.  The text of a message is a parameter; percentages,
    costs and times, which are floating-point numbers shown as text, are
    left out. *)

Module Subject.
Record t : Type := mk {
  subjectName : string;
  subjectType : option string;
  isLanguageSubject : option bool;
  languageType : option string
}.

(** The document that [findOne] makes of a stored subject: [subjectType]
    defaults to ['CORE'], [isLanguageSubject] to
    [this.subjectType === 'LANGUAGE'] and [languageType] to [null]. *)
Definition document (subject : t) : t :=
  let subjectType := default "CORE" (subjectType subject) in
  {| subjectName := subjectName subject;
     subjectType := Some subjectType;
     isLanguageSubject :=
       Some (default (String.eqb subjectType "LANGUAGE")
               (isLanguageSubject subject));
     languageType := languageType subject |}.
End Subject.

Module Attendance.
(** The object the routes build for a subject (its [error] text is left
    out: nothing reads it). *)
Record t : Type := mk {
  subject : string;
  studentsPresent : list string;
  hasAttendance : bool;
  isLanguageSubject : bool;
  languageType : option string
}.
End Attendance.

Module Absence.

(** What [getAttendanceModel] and [findOne] give for a subject and a day:
    the present students of the record, no record, or an error. *)
Inductive lookup : Type :=
| RecordFound (studentsPresent : list string)
| NoRecord
| LookupFailed (message : string).

(** The body of [allSubjects.map(async (subject) => ...)]. *)
Definition attendanceRecord (subject : Subject.t) (found : lookup)
  : Attendance.t :=
  let isLanguageSubject := default false (Subject.isLanguageSubject subject) in
  let languageType :=
    if Text.truthy (Subject.languageType subject)
    then Subject.languageType subject else None in
  match found with
  | RecordFound studentsPresent =>
      Attendance.mk (Subject.subjectName subject) studentsPresent true
        isLanguageSubject languageType
  | NoRecord =>
      Attendance.mk (Subject.subjectName subject) [] false
        isLanguageSubject languageType
  | LookupFailed _ =>
      Attendance.mk (Subject.subjectName subject) [] false false None
  end.

(** [new Map(subjectsWithAttendance.map(record => [record.subject,
    new Set(record.studentsPresent)]))]: a later entry replaces an earlier
    one with the same key. *)
Definition attendanceMap (subjectsWithAttendance : list Attendance.t)
  : gmap string (gset string) :=
  foldl (fun m record =>
           <[Attendance.subject record :=
               list_to_set (Attendance.studentsPresent record)]> m)
        ∅ subjectsWithAttendance.

(** [attendanceMap.get(subject).has(studentID)]; the routes look up the
    subjects of the records the map was built from, which are its keys. *)
Definition has (attendanceMap : gmap string (gset string))
    (subject studentID : string) : bool :=
  match attendanceMap !! subject with
  | Some present => bool_decide (studentID ∈ present)
  | None => false
  end.

(** [student.languageSubject === record.languageType], which the code
    evaluates only for a truthy [record.languageType]. *)
Definition sameLanguage (studentLanguage languageType : option string) : bool :=
  match studentLanguage, languageType with
  | Some a, Some b => String.eqb a b
  | _, _ => false
  end.

Definition shouldAttend (student : Student.t) (record : Attendance.t) : bool :=
  negb (Attendance.isLanguageSubject record)
  || negb (Text.truthy (Attendance.languageType record))
  || sameLanguage (Student.languageSubject student)
       (Attendance.languageType record).

Inductive messageType : Type :=
| full_day
| partial_day
| present.

(** *** The route that sends *)

(** The variables of one turn of [allStudents.forEach]. *)
Record tally : Type := mkTally {
  absentSubjects : list string;
  presentSubjectCount : Z;
  applicableSubjectCount : Z
}.

Record notification : Type := mkNotification {
  student : Student.t;
  notifiedSubjects : list string;
  presentSubjects : Z;
  applicableSubjects : Z;
  isFullDayAbsent : bool;
  notificationType : messageType
}.

(** The body of [subjectsWithAttendance.forEach] for one student; the
    second component is [presentStudentsSet]. *)
Definition countRecord (attendanceMap : gmap string (gset string))
    (student : Student.t) (acc : tally * gset string) (record : Attendance.t)
  : tally * gset string :=
  let '(t, presentStudentsSet) := acc in
  if shouldAttend student record then
    if has attendanceMap (Attendance.subject record) (Student.studentID student)
    then (mkTally (absentSubjects t) (presentSubjectCount t + 1)
            (applicableSubjectCount t + 1),
          presentStudentsSet ∪ {[Student.studentID student]})
    else (mkTally (absentSubjects t ++ [Attendance.subject record])
            (presentSubjectCount t) (applicableSubjectCount t + 1),
          presentStudentsSet)
  else acc.

(** The body of [allStudents.forEach]. *)
Definition countStudent (attendanceMap : gmap string (gset string))
    (subjectsWithAttendance : list Attendance.t)
    (acc : list notification * gset string) (student : Student.t)
  : list notification * gset string :=
  let '(studentsToNotify, presentStudentsSet) := acc in
  let '(t, presentStudentsSet) :=
    foldl (countRecord attendanceMap student)
      (mkTally [] 0 0, presentStudentsSet) subjectsWithAttendance in
  if (0 <? Z.of_nat (length (absentSubjects t)))
     && Text.truthy (Student.parentPhone student)
     && (0 <? applicableSubjectCount t)
  then
    let isFullDayAbsent :=
      Z.of_nat (length (absentSubjects t)) =? applicableSubjectCount t in
    (studentsToNotify ++
       [mkNotification student (absentSubjects t) (presentSubjectCount t)
          (applicableSubjectCount t) isFullDayAbsent
          (if isFullDayAbsent then full_day else partial_day)],
     presentStudentsSet)
  else (studentsToNotify, presentStudentsSet).

(** [studentsToNotify] and [presentStudentsSet] after the loop. *)
Definition absences (allStudents : list Student.t)
    (allAttendanceRecords : list Attendance.t)
  : list notification * gset string :=
  let subjectsWithAttendance :=
    List.filter Attendance.hasAttendance allAttendanceRecords in
  foldl (countStudent (attendanceMap subjectsWithAttendance)
           subjectsWithAttendance)
    ([], ∅) allStudents.

Definition studentsToNotify (allStudents : list Student.t)
    (allAttendanceRecords : list Attendance.t) : list notification :=
  (absences allStudents allAttendanceRecords).1.

Definition presentStudentsSet (allStudents : list Student.t)
    (allAttendanceRecords : list Attendance.t) : gset string :=
  (absences allStudents allAttendanceRecords).2.

(** [array.slice(i, j)] for [0 <= i <= j] *)
Definition slice {A : Type} (i j : nat) (l : list A) : list A :=
  take (j - i) (drop i l).

Definition BATCH_SIZE : nat := 3.

(** [for (let i = 0; i < studentsToNotify.length; i += BATCH_SIZE)
    batches.push(studentsToNotify.slice(i, i + BATCH_SIZE))], from [i] on;
    the loop makes at most one turn per element. *)
Fixpoint batchesFrom {A : Type} (turns : nat) (i : nat) (l : list A)
  : list (list A) :=
  match turns with
  | O => []
  | S turns =>
      if (i <? length l)%nat
      then slice i (i + BATCH_SIZE) l :: batchesFrom turns (i + BATCH_SIZE) l
      else []
  end.

Definition batches {A : Type} (l : list A) : list (list A) :=
  batchesFrom (length l) 0 l.

(** An element of [whatsappResults] (without its timestamp). *)
Record whatsappResult : Type := mkResult {
  studentID : string;
  studentName : string;
  parentPhone : option string;
  success : bool;
  messageId : option string;
  whatsappId : option string;
  error : option string;
  apiErrorCode : option Z;
  userFriendlyError : option string;
  resultType : messageType;
  resultSubjects : list string;
  subjectCount : Z;
  languageSubject : option string
}.

(** [array.filter(p).length] *)
Definition count {A : Type} (p : A -> bool) (l : list A) : Z :=
  Z.of_nat (length (List.filter p l)).

Section Send.

Variable api : list Phone.request -> Phone.request -> Phone.apiOutcome.

(** The text of the message of a notification. *)
Variable messageOf : notification -> string.

(** [result.apiError?.code || null] *)
Definition codeOrNull (code : option Z) : option Z :=
  match code with
  | Some c => if c =? 0 then None else Some c
  | None => None
  end.

(** [sendWhatsAppMessage] of the routes: [sendTextMessage] returns a
    result and does not throw, so the [catch] of the wrapper is never
    entered. *)
Definition sendWhatsAppMessage (sent : list Phone.request)
    (phone : option string) (message : string)
  : Phone.sendResult * list Phone.request :=
  Phone.sendTextMessage api sent phone message.

(** The body of [batch.map(async (notificationData) => ...)]; the requests
    of a batch are made in the order of its elements. *)
Definition sendOne (acc : list whatsappResult * list Phone.request)
    (notificationData : notification)
  : list whatsappResult * list Phone.request :=
  let '(results, sent) := acc in
  let student := student notificationData in
  let '(result, sent) :=
    sendWhatsAppMessage sent (Student.parentPhone student)
      (messageOf notificationData) in
  (results ++
     [mkResult (Student.studentID student) (Student.name student)
        (Student.parentPhone student) (Phone.success result)
        (Phone.orNull (Phone.messageId result))
        (Phone.orNull (Phone.whatsappId result))
        (Phone.orNull (Phone.error result))
        (codeOrNull (Phone.apiErrorCode result))
        (Phone.orNull (Phone.userFriendlyError result))
        (if isFullDayAbsent notificationData then full_day else partial_day)
        (notifiedSubjects notificationData)
        (Z.of_nat (length (notifiedSubjects notificationData)))
        (Phone.orNull (Student.languageSubject student))],
   sent).

(** [for (const batch of batches) ...]: [whatsappResults] and the requests
    made. *)
Definition sendBatches (batches : list (list notification))
  : list whatsappResult * list Phone.request :=
  foldl (fun acc batch => foldl sendOne acc batch) ([], []) batches.

Definition isType (t : messageType) (r : whatsappResult) : bool :=
  match t, resultType r with
  | full_day, full_day | partial_day, partial_day | present, present => true
  | _, _ => false
  end.

(** The counts of the message log and of the response. *)
Record counts : Type := mkCounts {
  successCount : Z;
  failureCount : Z;
  fullDayCount : Z;
  partialDayCount : Z;
  totalStudentsNotified : Z
}.

Inductive sendResponse : Type :=
| AlreadySent
| NothingFound (studentsFound subjectsFound : Z)
| NoAttendanceRecords
| NoAbsentees
| MessagesSent (whatsappResults : list whatsappResult) (summary : counts).

(** The handler of [POST /send-absence-messages], from what it read: the
    [messagesSent] of the log of the day when there is one, the active
    students, the subjects, and per subject what [getAttendanceModel] and
    [findOne] gave.  The second component holds the requests made. *)
Definition sendAbsenceMessages (forceResend : bool) (existingLog : option Z)
    (allStudents : list Student.t) (allSubjects : list Subject.t)
    (found : Subject.t -> lookup)
  : sendResponse * list Phone.request :=
  if negb forceResend
     && match existingLog with
        | Some messagesSent => 0 <? messagesSent
        | None => false
        end
  then (AlreadySent, [])
  else if (Z.of_nat (length allStudents) =? 0)
          || (Z.of_nat (length allSubjects) =? 0)
  then (NothingFound (Z.of_nat (length allStudents))
          (Z.of_nat (length allSubjects)), [])
  else
    let allAttendanceRecords :=
      map (fun subject => attendanceRecord subject (found subject)) allSubjects in
    let subjectsWithAttendance :=
      List.filter Attendance.hasAttendance allAttendanceRecords in
    if Z.of_nat (length subjectsWithAttendance) =? 0
    then (NoAttendanceRecords, [])
    else
      let studentsToNotify := studentsToNotify allStudents allAttendanceRecords in
      if Z.of_nat (length studentsToNotify) =? 0
      then (NoAbsentees, [])
      else
        let '(whatsappResults, sent) := sendBatches (batches studentsToNotify) in
        let successCount := count success whatsappResults in
        (MessagesSent whatsappResults
           (mkCounts successCount
              (Z.of_nat (length whatsappResults) - successCount)
              (count (fun r => isType full_day r && success r) whatsappResults)
              (count (fun r => isType partial_day r && success r)
                 whatsappResults)
              (Z.of_nat (length studentsToNotify))),
         sent).

End Send.

(** *** The route that summarises *)

Record summaryEntry : Type := mkEntry {
  entryStudentID : string;
  entryStudentName : string;
  entryParentPhone : option string;
  entryLanguageSubject : option string;
  entryAbsentSubjects : list string;
  entryPresentSubjects : list string;
  absentSubjectCount : Z;
  entryPresentSubjectCount : Z;
  entryApplicableSubjectCount : Z;
  totalSubjectsWithAttendance : Z;
  entryIsFullDayAbsent : bool;
  isFullyPresent : bool;
  entryMessageType : messageType;
  willReceiveMessage : bool;
  hasValidPhone : bool
}.

(** The variables of one turn of [allStudents.map]. *)
Record lists : Type := mkLists {
  absent : list string;
  attended : list string;
  applicable : Z
}.

Definition listRecord (attendanceMap : gmap string (gset string))
    (student : Student.t) (acc : lists) (record : Attendance.t) : lists :=
  if shouldAttend student record then
    if has attendanceMap (Attendance.subject record) (Student.studentID student)
    then mkLists (absent acc) (attended acc ++ [Attendance.subject record])
           (applicable acc + 1)
    else mkLists (absent acc ++ [Attendance.subject record]) (attended acc)
           (applicable acc + 1)
  else acc.

(** The body of [allStudents.map]; [willReceiveMessage] is kept as the
    truth value the filter reads. *)
Definition summarise (attendanceMap : gmap string (gset string))
    (subjectsWithAttendance : list Attendance.t) (student : Student.t)
  : summaryEntry :=
  let l := foldl (listRecord attendanceMap student) (mkLists [] [] 0)
             subjectsWithAttendance in
  let absentLength := Z.of_nat (length (absent l)) in
  let isFullDayAbsent := (absentLength =? applicable l) && (0 <? applicable l) in
  mkEntry (Student.studentID student) (Student.name student)
    (Student.parentPhone student)
    (Phone.orNull (Student.languageSubject student))
    (absent l) (attended l) absentLength
    (Z.of_nat (length (attended l))) (applicable l)
    (Z.of_nat (length subjectsWithAttendance))
    isFullDayAbsent
    ((absentLength =? 0) && (0 <? applicable l))
    (if isFullDayAbsent then full_day
     else if 0 <? absentLength then partial_day else present)
    ((0 <? absentLength) && Text.truthy (Student.parentPhone student)
     && (0 <? applicable l))
    (Text.truthy (Student.parentPhone student)).

Definition absenceSummary (allStudents : list Student.t)
    (allAttendanceRecords : list Attendance.t) : list summaryEntry :=
  let subjectsWithAttendance :=
    List.filter Attendance.hasAttendance allAttendanceRecords in
  map (summarise (attendanceMap subjectsWithAttendance) subjectsWithAttendance)
    allStudents.

(** The counts of [response.summary]. *)
Record summary : Type := mkSummary {
  totalStudents : Z;
  summaryStudentsToNotify : Z;
  fullDayAbsent : Z;
  partialDayAbsent : Z;
  studentsPresent : Z
}.

Inductive summaryResponse : Type :=
| SummaryNotFound (studentsFound subjectsFound : Z)
| Summary (absenceSummary : list summaryEntry) (summary : summary).

(** The handler of [GET /daily-absence-summary], from what it read. *)
Definition dailyAbsenceSummary (allStudents : list Student.t)
    (allSubjects : list Subject.t)
    (found : Subject.t -> lookup) : summaryResponse :=
  if (Z.of_nat (length allStudents) =? 0)
     || (Z.of_nat (length allSubjects) =? 0)
  then SummaryNotFound (Z.of_nat (length allStudents))
         (Z.of_nat (length allSubjects))
  else
    let allAttendanceRecords :=
      map (fun subject => attendanceRecord subject (found subject)) allSubjects in
    let absenceSummary := absenceSummary allStudents allAttendanceRecords in
    Summary absenceSummary
      (mkSummary (Z.of_nat (length allStudents))
         (count willReceiveMessage absenceSummary)
         (count entryIsFullDayAbsent absenceSummary)
         (count (fun s => (0 <? absentSubjectCount s)
                          && negb (entryIsFullDayAbsent s)) absenceSummary)
         (count isFullyPresent absenceSummary)).

End Absence.

(** ** Attendance collections *)

Module Slug.

(** [[a-z]] *)
Definition isLower (c : ascii) : bool :=
  let n := Ascii.N_of_ascii c in ((97 <=? n) && (n <=? 122))%N.

Definition isUnderscore (c : ascii) : bool := Ascii.eqb c "_".

(** The characters outside the class [[^a-z0-9_]]. *)
Definition isSlugChar (c : ascii) : bool :=
  isLower c || Text.isDigit c || isUnderscore c.

(** [s.trim()], on ASCII white space. *)
Fixpoint trimStart (s : string) : string :=
  match s with
  | EmptyString => EmptyString
  | String c r => if Js.isSpace c then trimStart r else s
  end.

Fixpoint trimEnd (s : string) : string :=
  match s with
  | EmptyString => EmptyString
  | String c r =>
      let r' := trimEnd r in
      if Js.isSpace c && String.eqb r' "" then EmptyString else String c r'
  end.

Definition trim (s : string) : string := trimEnd (trimStart s).

(** [s.replace(/_{2,}/g, '_')]: every run of underscores becomes one. *)
Fixpoint collapseUnderscores (inRun : bool) (s : string) : string :=
  match s with
  | EmptyString => EmptyString
  | String c r =>
      if isUnderscore c
      then (if inRun then collapseUnderscores true r
            else String c (collapseUnderscores true r))
      else String c (collapseUnderscores false r)
  end.

(** [s.replace(/^_|_$/g, '')]: an underscore at the start goes, and then
    an underscore at the end of what is left. *)
Definition stripLeading (s : string) : string :=
  match s with
  | String c r => if isUnderscore c then r else s
  | EmptyString => EmptyString
  end.

Fixpoint stripTrailing (s : string) : string :=
  match s with
  | EmptyString => EmptyString
  | String c r =>
      if isUnderscore c && String.eqb r "" then EmptyString
      else String c (stripTrailing r)
  end.

Definition stripEdges (s : string) : string := stripTrailing (stripLeading s).

End Slug.

(** [cleanSubject] of [getAttendanceModel], for a subject in ASCII. *)
Definition cleanSubject (subject : string) : string :=
  Slug.stripEdges
    (Slug.collapseUnderscores false
       (Text.keep Slug.isSlugChar
          (Js.replaceSpaceRuns false
             (Slug.trim (Js.toLowerCase subject))))).

Inductive attendanceModelError : Type :=
| AttendanceArgumentsRequired
| AttendanceInvalidStream (stream : string)
| InvalidSubjectName (subject : string).

(** [getAttendanceModel] of [routes/teacherRoutes.js], for a numeric
    semester; the model is the name of its collection. *)
Definition getAttendanceModel (stream : string) (sem : Z) (subject : string)
  : attendanceModelError + string :=
  if String.eqb stream "" || (sem =? 0) || String.eqb subject ""
  then inl AttendanceArgumentsRequired
  else
    match lookupMapping STREAM_MAPPINGS stream with
    | None => inl (AttendanceInvalidStream stream)
    | Some streamCode =>
        if String.eqb streamCode "" then inl (AttendanceInvalidStream stream)
        else
          let cleanSubject := cleanSubject subject in
          if String.eqb cleanSubject "" then inl (InvalidSubjectName subject)
          else inr (streamCode +:+ "_sem" +:+ pretty sem +:+ "_"
                    +:+ cleanSubject +:+ "_attendance")
    end.

(** ** Attendance collections of the reports *)

Module ReportsAttendance.

(** [s.replace(pattern, "")] for a string pattern: the first occurrence
    goes. *)
Fixpoint removeFirst (pattern s : string) : string :=
  if String.prefix pattern s
  then Text.dropChars (String.length pattern) s
  else
    match s with
    | EmptyString => EmptyString
    | String c r => String c (removeFirst pattern r)
    end.

(** [subject.toLowerCase().replace(/\s+/g, "_").replace(/[^a-z0-9_]/g, "")] *)
Definition cleanSubject (subject : string) : string :=
  Text.keep Slug.isSlugChar
    (Js.replaceSpaceRuns false (Js.toLowerCase subject)).

(** [getAttendanceModel] of the reports routes; the model is the name of
    its collection. *)
Definition getAttendanceModel (stream : string) (sem : Z) (subject : string)
  : string :=
  let streamCode :=
    removeFirst ("_sem" +:+ pretty sem +:+ "_")
      (Reports.getCollectionName stream sem "") in
  streamCode +:+ "_sem" +:+ pretty sem +:+ "_" +:+ cleanSubject subject
    +:+ "_attendance".

End ReportsAttendance.

(** ** Marking the attendance

    [POST /attendance/:stream/sem:sem/:subject], from what it read, once
    its models were found. *)

Module Marking.

(** The students of the subject: [activeStudents] are those
    [getActiveStudentQuery] selects, and the query of a language subject
    adds [languageSubject: subjectDoc.languageType].  [found] is the
    stored subject and [subjectDoc] the document that [findOne] makes of
    it. *)
Definition relevantStudents (found : Subject.t)
    (activeStudents : list Student.t) : list Student.t :=
  let subjectDoc := Subject.document found in
  if default false (Subject.isLanguageSubject subjectDoc)
     && Text.truthy (Subject.languageType subjectDoc)
  then List.filter
         (fun s => Absence.sameLanguage (Student.languageSubject s)
                     (Subject.languageType subjectDoc))
         activeStudents
  else activeStudents.

(** An element of [absentStudentsList]. *)
Record absentee : Type := mkAbsentee {
  absenteeID : string;
  absenteeName : string;
  hasPhone : bool;
  absenteeLanguage : option string
}.

(** The counts of the response (without the percentage). *)
Record summary : Type := mkSummary {
  totalRelevantStudents : Z;
  presentStudents : Z;
  absentStudents : Z;
  absentWithPhone : Z;
  absentWithoutPhone : Z;
  absentStudentsList : list absentee
}.

Inductive response : Type :=
| MissingFields
| SubjectNotFound
| NoStudents
| AlreadyTaken (existingStudentsPresent : list string)
| InvalidStudents (invalidStudents : list string)
| Marked (isOverwrite : bool) (stored : list string) (summary : summary).

(** The handler: [studentsPresent] is [None] when the body holds no array,
    [subjectDoc] is the subject that [findOne] found, as stored, and
    [existingRecord] the students of the record of the day. *)
Definition markAttendance (subject : string) (date : option string)
    (studentsPresent : option (list string)) (forceOverwrite : bool)
    (subjectDoc : option Subject.t) (activeStudents : list Student.t)
    (existingRecord : option (list string)) : response :=
  match studentsPresent with
  | None => MissingFields
  | Some studentsPresent =>
      if negb (Text.truthy date) || String.eqb subject "" then MissingFields
      else
        match subjectDoc with
        | None => SubjectNotFound
        | Some subjectDoc =>
            let relevantStudents := relevantStudents subjectDoc activeStudents in
            let totalRelevantStudents := Z.of_nat (length relevantStudents) in
            if totalRelevantStudents =? 0 then NoStudents
            else
              match (if forceOverwrite then None else existingRecord) with
              | Some existing => AlreadyTaken existing
              | None =>
                  let relevantStudentIDs :=
                    map Student.studentID relevantStudents in
                  let invalidStudents :=
                    List.filter
                      (fun id => negb (Js.includes relevantStudentIDs id))
                      studentsPresent in
                  if 0 <? Z.of_nat (length invalidStudents)
                  then InvalidStudents invalidStudents
                  else
                    let absentStudents :=
                      List.filter
                        (fun s => negb (Js.includes studentsPresent
                                          (Student.studentID s)))
                        relevantStudents in
                    Marked
                      (match existingRecord with Some _ => true | None => false end)
                      studentsPresent
                      (mkSummary totalRelevantStudents
                         (Z.of_nat (length studentsPresent))
                         (Z.of_nat (length absentStudents))
                         (Absence.count
                            (fun s => Text.truthy (Student.parentPhone s))
                            absentStudents)
                         (Absence.count
                            (fun s => negb (Text.truthy (Student.parentPhone s)))
                            absentStudents)
                         (map (fun s =>
                                 mkAbsentee (Student.studentID s)
                                   (Student.name s)
                                   (Text.truthy (Student.parentPhone s))
                                   (Phone.orNull (Student.languageSubject s)))
                            absentStudents))
              end
        end
  end.

End Marking.

(** ** The queue of a teacher

    The methods of [TeacherSchema] in [routes/teacher.js], on the two
    arrays of a teacher.  The time of a call is a parameter. *)

Module Teacher.

(** An element of [attendanceQueue] or [completedToday] (without its
    [createdAt]). *)
Record class : Type := mkClass {
  id : string;
  stream : string;
  semester : string;
  subject : string;
  timeAdded : string;
  dateAdded : string;
  completedTime : option string;
  completedDate : option string
}.

Record classData : Type := mkData {
  givenStream : string;
  givenSemester : string;
  givenSubject : string
}.

Record t : Type := mk {
  attendanceQueue : list class;
  completedToday : list class
}.

(** [Date.now()], [toLocaleTimeString()] and [toDateString()] at a call. *)
Record time : Type := mkTime {
  now : Z;
  localeTime : string;
  dateString : string
}.

Inductive queueError : Type :=
| AlreadyInQueue
| ClassNotFound.

Definition addToQueue (when : time) (classData : classData) (teacher : t)
  : queueError + (class * t) :=
  let isDuplicate :=
    existsb (fun cls =>
               String.eqb (stream cls) (givenStream classData)
               && String.eqb (semester cls) (givenSemester classData)
               && String.eqb (subject cls) (givenSubject classData))
      (attendanceQueue teacher) in
  if isDuplicate then inl AlreadyInQueue
  else
    let newClass :=
      mkClass (pretty (now when)) (Slug.trim (givenStream classData))
        (Slug.trim (givenSemester classData))
        (Slug.trim (givenSubject classData))
        (localeTime when) (dateString when) None None in
    inr (newClass,
         mk (attendanceQueue teacher ++ [newClass]) (completedToday teacher)).

(** [array.findIndex(p)]; [None] is [-1]. *)
Fixpoint findIndex {A : Type} (p : A -> bool) (l : list A) : option nat :=
  match l with
  | [] => None
  | x :: r => if p x then Some O else option_map S (findIndex p r)
  end.

Definition completeClass (when : time) (classId : string) (teacher : t)
  : queueError + (class * t) :=
  match findIndex (fun cls => String.eqb (id cls) classId)
          (attendanceQueue teacher) with
  | None => inl ClassNotFound
  | Some classIndex =>
      match attendanceQueue teacher !! classIndex with
      | None => inl ClassNotFound
      | Some classToComplete =>
          let completedClass :=
            mkClass (id classToComplete) (stream classToComplete)
              (semester classToComplete) (subject classToComplete)
              (timeAdded classToComplete) (dateAdded classToComplete)
              (Some (localeTime when)) (Some (dateString when)) in
          inr (completedClass,
               mk (delete classIndex (attendanceQueue teacher))
                  (completedToday teacher ++ [completedClass]))
      end
  end.

Definition removeClass (classId : string) (teacher : t) : queueError + t :=
  let initialLength := length (attendanceQueue teacher) in
  let attendanceQueue :=
    List.filter (fun cls => negb (String.eqb (id cls) classId))
      (attendanceQueue teacher) in
  if (length attendanceQueue =? initialLength)%nat then inl ClassNotFound
  else inr (mk attendanceQueue (completedToday teacher)).

End Teacher.

(** ** Vocabulary of the absences *)

Module Day.

(** The records the loops go through. *)
Definition subjectsWithAttendance (allAttendanceRecords : list Attendance.t)
  : list Attendance.t :=
  List.filter Attendance.hasAttendance allAttendanceRecords.

Section OfStudent.

Variable attendanceMap : gmap string (gset string).
Variable student : Student.t.

(** The map says the student was present at the subject of the record. *)
Definition isPresent (record : Attendance.t) : bool :=
  Absence.has attendanceMap (Attendance.subject record)
    (Student.studentID student).

Definition applicableRecords (records : list Attendance.t) : list Attendance.t :=
  List.filter (Absence.shouldAttend student) records.

Definition missedRecords (records : list Attendance.t) : list Attendance.t :=
  List.filter (fun r => Absence.shouldAttend student r && negb (isPresent r))
    records.

Definition attendedRecords (records : list Attendance.t) : list Attendance.t :=
  List.filter (fun r => Absence.shouldAttend student r && isPresent r) records.

(** The student has a phone and missed a subject they should attend. *)
Definition isNotified (records : list Attendance.t) : bool :=
  Text.truthy (Student.parentPhone student)
  && existsb (fun r => Absence.shouldAttend student r && negb (isPresent r))
       records.

(** The notification of the student. *)
Definition notificationOf (records : list Attendance.t) : Absence.notification :=
  let absentSubjects := map Attendance.subject (missedRecords records) in
  let applicable := Z.of_nat (length (applicableRecords records)) in
  let isFullDayAbsent := Z.of_nat (length absentSubjects) =? applicable in
  Absence.mkNotification student absentSubjects
    (Z.of_nat (length (attendedRecords records))) applicable isFullDayAbsent
    (if isFullDayAbsent then Absence.full_day else Absence.partial_day).

End OfStudent.

(** The recipient of the request for a phone: what [formatPhoneNumber]
    returns, when it is not empty. *)
Definition recipient (phone : option string) : option string :=
  match Phone.formatPhoneNumber phone with
  | Some formattedPhone =>
      if String.eqb formattedPhone "" then None else Some formattedPhone
  | None => None
  end.

(** The request a notification leads to, when its phone has a recipient. *)
Definition requestOf (messageOf : Absence.notification -> string)
    (n : Absence.notification) : option Phone.request :=
  match recipient (Student.parentPhone (Absence.student n)) with
  | Some to => Some (to, messageOf n)
  | None => None
  end.

(** What identifies a result: the student, the subjects and the type. *)
Definition resultKey (r : Absence.whatsappResult)
  : string * list string * Absence.messageType :=
  (Absence.studentID r, Absence.resultSubjects r, Absence.resultType r).

Definition notificationKey (n : Absence.notification)
  : string * list string * Absence.messageType :=
  (Student.studentID (Absence.student n), Absence.notifiedSubjects n,
   Absence.notificationType n).

(** A result belongs to a notification. *)
Definition resultOf (messageOf : Absence.notification -> string)
    (r : Absence.whatsappResult) (n : Absence.notification) : Prop :=
  resultKey r = notificationKey n
  /\ Absence.subjectCount r = Z.of_nat (length (Absence.notifiedSubjects n))
  /\ (Absence.success r = true -> requestOf messageOf n <> None).

Definition entryKey (e : Absence.summaryEntry)
  : string * list string * Absence.messageType :=
  (Absence.entryStudentID e, Absence.entryAbsentSubjects e,
   Absence.entryMessageType e).

End Day.

(** ** Vocabulary of the attendance collections *)

Module Clean.

(** An ASCII letter or digit. *)
Definition isAlnum (c : ascii) : bool :=
  Slug.isLower (Js.lowerAscii c) || Text.isDigit c.

(** No two underscores in a row; [previous] tells whether the character
    before the string is an underscore. *)
Fixpoint noDoubleUnderscore (previous : bool) (s : string) : bool :=
  match s with
  | EmptyString => true
  | String c r =>
      if Slug.isUnderscore c
      then negb previous && noDoubleUnderscore true r
      else noDoubleUnderscore false r
  end.

(** [/[class]$/.test(s)] *)
Fixpoint lastIs (p : ascii -> bool) (s : string) : bool :=
  match s with
  | EmptyString => false
  | String c r => if String.eqb r "" then p c else lastIs p r
  end.

(** The shape of a clean subject: lower-case letters, digits and single
    underscores, with no underscore at either end. *)
Definition isClean (s : string) : bool :=
  Text.all Slug.isSlugChar s
  && noDoubleUnderscore false s
  && negb (Text.firstIs Slug.isUnderscore s)
  && negb (lastIs Slug.isUnderscore s).

End Clean.

(** ** A class and a day *)

Module Classroom.

(** A third-semester BCA student with a language and a phone. *)
Definition pupil (id name : string) (language phone : option string)
  : Student.t :=
  {| Student.studentID := id;
     Student.name := name;
     Student.stream := "BCA";
     Student.semester := 3;
     Student.parentPhone := phone;
     Student.languageSubject := language;
     Student.languageGroup := GroupNull;
     Student.isActive := Flag true;
     Student.migrationGeneration := Some 0;
     Student.originalSemester := Some 3;
     Student.addedToSemesterDate := Some 1730000000000;
     Student.lastMigrationDate := None;
     Student.migrationBatch := None;
     Student.migrationHistory := Some [];
     Student.academicYear := Some "2025" |}.

Definition jaya : Student.t :=
  pupil "BCA101" "JAYA" (Some "KANNADA") (Some "919876543210").
Definition kiran : Student.t :=
  pupil "BCA102" "KIRAN" (Some "HINDI") (Some "9876543211").
Definition lata : Student.t :=
  pupil "BCA103" "LATA" (Some "HINDI") (Some "919876543212").
Definition mohan : Student.t :=
  pupil "BCA104" "MOHAN" None None.
Definition nisha : Student.t :=
  pupil "BCA105" "NISHA" (Some "KANNADA") (Some "not known").

Definition students : list Student.t := [jaya; kiran; lata; mohan; nisha].

Definition maths : Subject.t := Subject.mk "Maths" (Some "CORE") None None.
Definition kannada : Subject.t :=
  Subject.mk "Kannada" (Some "LANGUAGE") (Some true) (Some "KANNADA").
Definition hindi : Subject.t :=
  Subject.mk "Hindi" (Some "LANGUAGE") (Some true) (Some "HINDI").
Definition java : Subject.t := Subject.mk "Java" (Some "CORE") (Some false) None.


Definition subjects : list Subject.t := [maths; kannada; hindi; java].

(** The attendance of the day: taken in Maths, Kannada and Hindi, not in
    Java. *)
Definition found (subject : Subject.t) : Absence.lookup :=
  let name := Subject.subjectName subject in
  if String.eqb name "Maths"
  then Absence.RecordFound ["BCA101"; "BCA102"; "BCA104"]
  else if String.eqb name "Kannada" then Absence.RecordFound ["BCA101"]
  else if String.eqb name "Hindi" then Absence.RecordFound ["BCA103"]
  else Absence.NoRecord.

Definition records : list Attendance.t :=
  map (fun subject => Absence.attendanceRecord subject (found subject)) subjects.

(** The API accepts every message but the second. *)
Definition api (sent : list Phone.request) (r : Phone.request)
  : Phone.apiOutcome :=
  if (length sent =? 1)%nat
  then Phone.Refused "Request failed with status code 400"
         (Some (131056, Some "Recipient is not a WhatsApp user"))
  else Phone.Accepted (Some ("wamid." +:+ r.1)) None.

Definition messageOf (n : Absence.notification) : string :=
  "Absent: " +:+ Student.name (Absence.student n).

(** What the route answers for the class, and the requests it makes. *)
Definition whatsappResults : list Absence.whatsappResult := Eval vm_compute in
    match (Absence.sendAbsenceMessages api messageOf false None students
             subjects found).1 with
    | Absence.MessagesSent whatsappResults _ => whatsappResults
    | _ => []
    end.

Definition requests : list Phone.request :=
  [("919876543211", "Absent: KIRAN"); ("919876543212", "Absent: LATA")].

(** The entries of the summary of the class. *)
Definition absenceSummary : list Absence.summaryEntry := Eval vm_compute in
    Absence.absenceSummary students records.

End Classroom.

(** * Properties *)

(** ** Collection names *)

Lemma lookupMapping_STREAM_MAPPINGS stream code :
  lookupMapping STREAM_MAPPINGS stream = Some code ->
  In (stream, code) STREAM_MAPPINGS.
Proof.
  unfold STREAM_MAPPINGS. cbn [lookupMapping In].
  repeat match goal with
         | |- context [String.eqb ?k stream] =>
             destruct (String.eqb_spec k stream) as [<- | _];
             [ intros [= ?]; subst; auto 10 | ]
         end.
  intros H; discriminate H.
Qed.

Lemma getCollectionName_Ok stream semester type n :
  getCollectionName stream semester type = Ok n ->
  exists code,
    In (stream, code) STREAM_MAPPINGS /\ 1 <= semester <= 8 /\
    n = code +:+ "_sem" +:+ pretty semester +:+ "_" +:+ type.
Proof.
  unfold getCollectionName.
  destruct (_ || _ || _); [discriminate |].
  destruct (lookupMapping _ _) as [code |] eqn:Hc; [| discriminate].
  destruct (String.eqb code ""); [discriminate |].
  destruct ((semester <? 1) || (semester >? 8)) eqn:Hs; [discriminate |].
  intros [= <-]. exists code. split; [by apply lookupMapping_STREAM_MAPPINGS |].
  split; [| done].
  apply orb_false_iff in Hs as [H1 H2]. lia.
Qed.

Lemma semester_cases k :
  1 <= k <= 8 ->
  k = 1 \/ k = 2 \/ k = 3 \/ k = 4 \/ k = 5 \/ k = 6 \/ k = 7 \/ k = 8.
Proof. lia. Qed.

Lemma stream_code_inj s1 c1 s2 c2 r1 r2 :
  In (s1, c1) STREAM_MAPPINGS -> In (s2, c2) STREAM_MAPPINGS ->
  c1 +:+ "_sem" +:+ r1 = c2 +:+ "_sem" +:+ r2 -> s1 = s2 /\ r1 = r2.
Proof.
  unfold STREAM_MAPPINGS. simpl.
  intros H1 H2.
  repeat (destruct H1 as [[= <- <-] | H1]); try contradiction;
  repeat (destruct H2 as [[= <- <-] | H2]); try contradiction;
  simpl; intros H; first [ by injection H | discriminate H ].
Qed.

Lemma semester_text_inj k1 k2 (t1 t2 : string) :
  1 <= k1 <= 8 -> 1 <= k2 <= 8 ->
  pretty k1 +:+ "_" +:+ t1 = pretty k2 +:+ "_" +:+ t2 -> k1 = k2 /\ t1 = t2.
Proof.
  intros H1 H2.
  destruct (semester_cases _ H1) as [-> | [-> | [-> | [-> | [-> | [-> | [-> | ->]]]]]]];
  destruct (semester_cases _ H2) as [-> | [-> | [-> | [-> | [-> | [-> | [-> | ->]]]]]]];
  vm_compute; intros H; first [ by injection H | discriminate H ].
Qed.

(** The name determines the stream, the semester and the type. *)
Lemma getCollectionName_inj s1 k1 t1 s2 k2 t2 n :
  getCollectionName s1 k1 t1 = Ok n ->
  getCollectionName s2 k2 t2 = Ok n ->
  s1 = s2 /\ k1 = k2 /\ t1 = t2.
Proof.
  intros H1 H2.
  apply getCollectionName_Ok in H1 as (c1 & Hc1 & Hk1 & ->).
  apply getCollectionName_Ok in H2 as (c2 & Hc2 & Hk2 & Heq).
  destruct (stream_code_inj _ _ _ _ _ _ Hc1 Hc2 Heq) as [-> Hrest].
  destruct (semester_text_inj _ _ _ _ Hk1 Hk2 Hrest) as [-> ->]. done.
Qed.

Lemma validStreams_mapped stream :
  In stream validStreams ->
  exists code,
    lookupMapping STREAM_MAPPINGS stream = Some code /\ code <> "" /\ stream <> "".
Proof.
  unfold validStreams. simpl.
  intros H.
  repeat (destruct H as [<- | H]; [ eexists; split; [reflexivity | done] | ]).
  contradiction.
Qed.

(** For a recognised stream and a semester from 1 to 8, [getStudentModel]
    returns the model of [collectionOf]. *)
Lemma getStudentModel_valid stream k :
  In stream validStreams -> 1 <= k <= 8 ->
  getStudentModel stream k = Ok (collectionOf stream k).
Proof.
  intros Hs Hk. unfold collectionOf.
  destruct (validStreams_mapped _ Hs) as (code & Hcode & Hne & Hsne).
  unfold getStudentModel, getCollectionName. rewrite Hcode.
  apply String.eqb_neq in Hne, Hsne. rewrite Hne, Hsne.
  replace (k =? 0) with false by lia.
  replace ((k <? 1) || (k >? 8)) with false by lia.
  reflexivity.
Qed.

Lemma collectionOf_inj stream k1 k2 :
  In stream validStreams -> 1 <= k1 <= 8 -> 1 <= k2 <= 8 ->
  collectionOf stream k1 = collectionOf stream k2 -> k1 = k2.
Proof.
  intros Hs H1 H2 Heq.
  pose proof (getStudentModel_valid _ _ Hs H1) as E1.
  pose proof (getStudentModel_valid _ _ Hs H2) as E2.
  rewrite <- Heq in E2. unfold getStudentModel in E1, E2.
  destruct (String.eqb stream "" || (k1 =? 0)); [discriminate |].
  destruct (String.eqb stream "" || (k2 =? 0)); [discriminate |].
  by destruct (getCollectionName_inj _ _ _ _ _ _ _ E1 E2) as (_ & ? & _).
Qed.

Lemma bucket_valid d stream k :
  In stream validStreams -> 1 <= k <= 8 ->
  bucket d stream k = documents d (collectionOf stream k).
Proof.
  intros Hs Hk. unfold bucket. by rewrite getStudentModel_valid.
Qed.

(** No bucket outside the semesters 1 to 8. *)
Lemma bucket_out_of_range d stream k :
  ~ 1 <= k <= 8 -> bucket d stream k = [].
Proof.
  intros Hk. unfold bucket.
  destruct (getStudentModel stream k) as [n |] eqn:E; [| done].
  unfold getStudentModel in E.
  destruct (String.eqb stream "" || (k =? 0)); [discriminate |].
  apply getCollectionName_Ok in E as (? & _ & ? & _). lia.
Qed.

(** ** The store *)

Lemma documents_insert_eq (d : database) c l :
  documents (<[c := l]> d) c = l.
Proof. unfold documents. by rewrite lookup_insert_eq. Qed.

Lemma documents_insert_ne (d : database) c c' l :
  c <> c' -> documents (<[c := l]> d) c' = documents d c'.
Proof. intros H. unfold documents. by rewrite lookup_insert_ne. Qed.

Lemma documents_lookup (d d' : database) c :
  d' !! c = d !! c -> documents d' c = documents d c.
Proof. unfold documents. by intros ->. Qed.

Lemma filter_out_all (l : list Student.t) :
  List.filter (fun s => negb (matches AllDocuments s)) l = [].
Proof. induction l as [| x l IH]; [done | apply IH]. Qed.

Lemma filter_all (l : list Student.t) :
  List.filter (matches AllDocuments) l = l.
Proof. induction l as [| x l IH]; [done | simpl; by rewrite IH]. Qed.

Lemma pairEvents_succeeded d stream k : Forall succeeded (pairEvents d stream k).
Proof. unfold pairEvents. destruct (actives d stream k); by repeat constructor. Qed.

(** ** One promotion pair *)

Section Pair.

Variable plan : faultPlan.
Variable now : clock.
Variable stream : string.
Hypothesis stream_valid : In stream validStreams.

Let col := collectionOf stream.

Ltac run_pair k :=
  unfold promotePair, tryCatch, bind, lift, find, insertMany, deleteMany,
    call, modify, ret, throw;
  cbn [fromSem toSem];
  rewrite (getStudentModel_valid stream k stream_valid) by lia;
  rewrite (getStudentModel_valid stream (k + 1) stream_valid) by lia;
  unfold afterPair, pairDetails, pairEvents, actives;
  rewrite ?bucket_valid by (done || lia);
  fold (col k); fold (col (k + 1)).

(** A pair that returns has promoted the active students of its source, or
    found none and changed nothing; none of its calls failed. *)
Lemma promotePair_returns k s u s' :
  1 <= k <= 7 ->
  promotePair plan now stream (mkPair k (k + 1)) s = (Ok u, s') ->
  db s' = afterPair now (db s) stream k
  /\ totalPromoted s' = (totalPromoted s + length (actives (db s) stream k))%nat
  /\ totalGraduated s' = totalGraduated s
  /\ promotionDetails s' = promotionDetails s ++ pairDetails (db s) stream k
  /\ console s'
     = console s
         ++ [LogPromoting stream k (k + 1) (length (actives (db s) stream k))]
  /\ events s' = events s ++ pairEvents (db s) stream k.
Proof.
  intros Hk. run_pair k.
  destruct (plan Find (col k)) as [e |]; [discriminate |].
  cbn [db setDb addEvent addLine].
  destruct (List.filter _ (documents (db s) (col k))) as [| x found] eqn:Hf.
  - intros [= _ <-]. cbn. by rewrite Nat.add_0_r, app_nil_r.
  - cbn [length Nat.ltb Nat.leb].
    destruct (plan InsertMany (col (k + 1))) as [e |]; [discriminate |].
    cbn [db setDb addEvent addLine].
    destruct (plan DeleteMany (col k)) as [e |]; [discriminate |].
    intros [= _ <-]. cbn. rewrite filter_out_all, <- !app_assoc.
    by repeat split.
Qed.

(** A pair that throws has logged its semesters with the error and throws
    the error of the call that failed, which is its last call. *)
Lemma promotePair_throws k s e s' :
  1 <= k <= 7 ->
  promotePair plan now stream (mkPair k (k + 1)) s = (Throw e, s') ->
  exists evs ev,
    events s' = events s ++ evs ++ [ev]
    /\ Forall succeeded evs
    /\ (ev = mkEvent Find (col k) (Some e)
        \/ ev = mkEvent InsertMany (col (k + 1)) (Some e)
        \/ ev = mkEvent DeleteMany (col k) (Some e))
    /\ last (console s') = Some (ErrPromoting k (k + 1) e)
    /\ (exists lines, console s' = console s ++ lines)
    /\ totalGraduated s' = totalGraduated s.
Proof.
  intros Hk. run_pair k.
  destruct (plan Find (col k)) as [e1 |].
  { intros [= <- <-]. cbn. exists [], (mkEvent Find (col k) (Some e1)).
    rewrite last_snoc. repeat split; eauto. }
  cbn [db setDb addEvent addLine].
  destruct (List.filter _ (documents (db s) (col k))) as [| x found] eqn:Hf;
    [discriminate |].
  cbn [length Nat.ltb Nat.leb].
  destruct (plan InsertMany (col (k + 1))) as [e2 |].
  { intros [= <- <-]. cbn.
    exists [mkEvent Find (col k) None], (mkEvent InsertMany (col (k + 1)) (Some e2)).
    rewrite last_snoc, <- !app_assoc.
    repeat split; eauto. by repeat constructor. }
  cbn [db setDb addEvent addLine].
  destruct (plan DeleteMany (col k)) as [e3 |]; [| discriminate].
  intros [= <- <-]. cbn.
  exists [mkEvent Find (col k) None; mkEvent InsertMany (col (k + 1)) None],
    (mkEvent DeleteMany (col k) (Some e3)).
  rewrite last_snoc, <- !app_assoc.
  repeat split; eauto. by repeat constructor.
Qed.

(** Which of the two happens is decided by the plan and the source bucket. *)
Lemma promotePair_outcome k s :
  1 <= k <= 7 ->
  fst (promotePair plan now stream (mkPair k (k + 1)) s)
  = match plan Find (col k) with
    | Some e => Throw e
    | None =>
        match actives (db s) stream k with
        | [] => Ok tt
        | _ :: _ =>
            match plan InsertMany (col (k + 1)) with
            | Some e => Throw e
            | None =>
                match plan DeleteMany (col k) with
                | Some e => Throw e
                | None => Ok tt
                end
            end
        end
    end.
Proof.
  intros Hk. run_pair k.
  destruct (plan Find (col k)) as [e1 |]; [done |].
  cbn [db setDb addEvent addLine].
  destruct (List.filter _ (documents (db s) (col k))) as [| x found]; [done |].
  cbn [length Nat.ltb Nat.leb].
  destruct (plan InsertMany (col (k + 1))) as [e2 |]; [done |].
  cbn [db setDb addEvent addLine].
  by destruct (plan DeleteMany (col k)) as [e3 |].
Qed.

(** Whatever the outcome, the pair started with its read. *)
Lemma promotePair_reads k s :
  1 <= k <= 7 ->
  exists evs,
    events (snd (promotePair plan now stream (mkPair k (k + 1)) s))
    = events s ++ mkEvent Find (col k) (plan Find (col k)) :: evs.
Proof.
  intros Hk. run_pair k.
  destruct (plan Find (col k)) as [e1 |]; [by exists [] |].
  cbn [db setDb addEvent addLine].
  destruct (List.filter _ (documents (db s) (col k))) as [| x found];
    [by exists [] |].
  cbn [length Nat.ltb Nat.leb].
  destruct (plan InsertMany (col (k + 1))) as [e2 |].
  { eexists. cbn. by rewrite <- app_assoc. }
  cbn [db setDb addEvent addLine].
  destruct (plan DeleteMany (col k)) as [e3 |];
    eexists; cbn; by rewrite <- !app_assoc.
Qed.

(** The buckets after a pair. *)
Lemma afterPair_source d k :
  1 <= k <= 7 -> bucket (afterPair now d stream k) stream k = stayers d stream k.
Proof.
  intros Hk. unfold afterPair, stayers.
  destruct (actives d stream k); [done |].
  rewrite bucket_valid by (done || lia). apply documents_insert_eq.
Qed.

Lemma afterPair_target d k :
  1 <= k <= 7 ->
  bucket (afterPair now d stream k) stream (k + 1)
  = bucket d stream (k + 1) ++ arrivals now d stream (k + 1).
Proof.
  intros Hk. unfold afterPair, arrivals.
  replace (k + 1 - 1) with k by lia.
  destruct (actives d stream k) eqn:E; [by rewrite app_nil_r |].
  rewrite (bucket_valid _ _ (k + 1)) by (done || lia).
  rewrite documents_insert_ne, documents_insert_eq; [done |].
  intros H. apply collectionOf_inj in H; (done || lia).
Qed.

Lemma afterPair_lookup d k c :
  c <> col k -> c <> col (k + 1) -> afterPair now d stream k !! c = d !! c.
Proof.
  intros H1 H2. unfold afterPair.
  destruct (actives d stream k); [done |].
  by rewrite !lookup_insert_ne.
Qed.

Lemma afterPair_other d k j :
  1 <= k <= 7 -> j <> k -> j <> k + 1 ->
  bucket (afterPair now d stream k) stream j = bucket d stream j.
Proof.
  intros Hk H1 H2.
  destruct (decide (1 <= j <= 8)) as [Hj | Hj].
  - rewrite !bucket_valid by done. apply documents_lookup, afterPair_lookup.
    + intros H. apply collectionOf_inj in H; (done || lia).
    + intros H. apply collectionOf_inj in H; (done || lia).
  - by rewrite !bucket_out_of_range.
Qed.

End Pair.

(** ** The graduation step *)

Section Graduation.

Variable plan : faultPlan.
Variable stream : string.
Hypothesis stream_valid : In stream validStreams.

Let col := collectionOf stream.

(** The step always returns: its failures are caught. *)
Lemma graduationStep_run s :
  exists s1,
    graduationStep plan stream s = (Ok tt, s1)
    /\ db s1 = afterGraduation plan (db s) stream
    /\ totalGraduated s1
       = (if graduates plan (db s) stream
          then length (bucket (db s) stream 6) else totalGraduated s)
    /\ totalPromoted s1 = totalPromoted s
    /\ console s1
       = console s
           ++ match graduationFault plan (db s) stream with
              | Some e => [ErrGraduation e]
              | None =>
                  if graduates plan (db s) stream
                  then [LogGraduated (length (bucket (db s) stream 6))]
                  else []
              end
    /\ promotionDetails s1
       = promotionDetails s
           ++ (if graduates plan (db s) stream
               then [GraduationDetail 6 (length (bucket (db s) stream 6))
                       (map idAndName (bucket (db s) stream 6))]
               else [])
    /\ exists evs,
         events s1 = events s ++ evs
         /\ Forall (fun ev => onCollection ev = col 6
                              /\ calledMethod ev <> InsertMany
                              /\ (raised ev <> None ->
                                  raised ev = graduationFault plan (db s) stream))
              evs
         /\ (graduationFault plan (db s) stream <> None ->
             exists ev, In ev evs
                        /\ raised ev = graduationFault plan (db s) stream).
Proof.
  unfold graduationStep, tryCatch, bind, lift, countDocuments, find,
    deleteMany, call, modify, ret.
  rewrite (getStudentModel_valid stream 6 stream_valid) by lia.
  unfold afterGraduation, graduates, graduationFault.
  rewrite !bucket_valid by (done || lia). fold (col 6).
  destruct (plan CountDocuments (col 6)) as [e1 |].
  { eexists. split; [reflexivity |]. cbn. rewrite ?app_nil_r.
    repeat split; try done. eexists. split; [done |].
    split; [| intros _; eexists; split; [by left | done]].
    repeat constructor; done. }
  cbn [db setDb addEvent addLine].
  destruct (0 <? length (documents (db s) (col 6)))%nat eqn:Hn.
  2:{ eexists. split; [reflexivity |].
      destruct (plan Find (col 6)), (plan DeleteMany (col 6));
        cbn; rewrite ?app_nil_r;
        (repeat split; try done; eexists; split; [done |];
         split; [by repeat constructor | done]). }
  destruct (plan Find (col 6)) as [e2 |].
  { eexists. split; [reflexivity |]. cbn. rewrite ?app_nil_r, <- !app_assoc.
    repeat split; try done. eexists. split; [done |].
    split; [| intros _; eexists; split; [right; by left | done]].
    repeat constructor; done. }
  cbn [db setDb addEvent addLine].
  destruct (plan DeleteMany (col 6)) as [e3 |].
  { eexists. split; [reflexivity |]. cbn. rewrite ?app_nil_r, <- !app_assoc.
    repeat split; try done. eexists. split; [done |].
    split; [| intros _; eexists; split; [right; right; by left | done]].
    repeat constructor; done. }
  eexists. split; [reflexivity |]. cbn.
  rewrite filter_out_all, filter_all, <- !app_assoc.
  repeat split; try done. eexists. split; [done |].
  split; [by repeat constructor | done].
Qed.

End Graduation.

(** ** The loop over the pairs *)

Lemma pairsDownFrom_In n p :
  In p (pairsDownFrom n) ->
  1 <= fromSem p <= Z.of_nat n /\ toSem p = fromSem p + 1.
Proof.
  induction n as [| n IH]; [done |].
  cbn [pairsDownFrom In]. intros [<- | H]; [cbn; lia |].
  apply IH in H. lia.
Qed.

Lemma actives_ext d d' stream k :
  bucket d' stream k = bucket d stream k ->
  actives d' stream k = actives d stream k.
Proof. unfold actives. by intros ->. Qed.

Lemma stayers_ext d d' stream k :
  bucket d' stream k = bucket d stream k ->
  stayers d' stream k = stayers d stream k.
Proof. intros H. unfold stayers. by rewrite (actives_ext _ _ _ _ H), H. Qed.

Lemma arrivals_ext now d d' stream k :
  bucket d' stream (k - 1) = bucket d stream (k - 1) ->
  arrivals now d' stream k = arrivals now d stream k.
Proof. intros H. unfold arrivals. by rewrite (actives_ext _ _ _ _ H). Qed.

Lemma pairDetails_ext d d' stream k :
  bucket d' stream k = bucket d stream k ->
  pairDetails d' stream k = pairDetails d stream k.
Proof. intros H. unfold pairDetails. by rewrite (actives_ext _ _ _ _ H). Qed.

Lemma promotedCount_ext d d' stream pairs :
  (forall p, In p pairs ->
             bucket d' stream (fromSem p) = bucket d stream (fromSem p)) ->
  promotedCount d' stream pairs = promotedCount d stream pairs.
Proof.
  unfold promotedCount. induction pairs as [| p pairs IH]; [done |].
  intros H. cbn [map fold_right].
  rewrite (actives_ext d d') by (apply H; by left).
  rewrite IH; [done |]. intros q Hq. apply H. by right.
Qed.

Lemma pairsDetails_ext d d' stream pairs :
  (forall p, In p pairs ->
             bucket d' stream (fromSem p) = bucket d stream (fromSem p)) ->
  pairsDetails d' stream pairs = pairsDetails d stream pairs.
Proof.
  unfold pairsDetails. induction pairs as [| p pairs IH]; [done |].
  intros H. cbn [flat_map].
  rewrite (pairDetails_ext d d') by (apply H; by left).
  rewrite IH; [done |]. intros q Hq. apply H. by right.
Qed.

(** No pair promotes into semester 1. *)
Lemma arrivals_first now d stream : arrivals now d stream 1 = [].
Proof.
  unfold arrivals, actives. by rewrite bucket_out_of_range by lia.
Qed.

Section Loop.

Variable plan : faultPlan.
Variable now : clock.
Variable stream : string.
Hypothesis stream_valid : In stream validStreams.

Let col := collectionOf stream.
Let body := promotePair plan now stream.

(** The loop from source semester [n] down to 1.  Each pair reads a bucket
    that no earlier pair of the loop wrote: when the loop returns, bucket
    [k] holds what stayed in it and what the pair from [k - 1] inserted. *)
Lemma pairsDownFrom_returns n :
  (n <= 7)%nat ->
  forall s u s',
    forOf (pairsDownFrom n) body s = (Ok u, s') ->
    (forall c, (forall k, 1 <= k <= Z.of_nat n + 1 -> c <> col k) ->
               db s' !! c = db s !! c)
    /\ (forall k, 1 <= k <= Z.of_nat n ->
                  bucket (db s') stream k
                  = stayers (db s) stream k ++ arrivals now (db s) stream k)
    /\ bucket (db s') stream (Z.of_nat n + 1)
       = bucket (db s) stream (Z.of_nat n + 1)
           ++ arrivals now (db s) stream (Z.of_nat n + 1)
    /\ totalPromoted s'
       = (totalPromoted s + promotedCount (db s) stream (pairsDownFrom n))%nat
    /\ totalGraduated s' = totalGraduated s
    /\ promotionDetails s'
       = promotionDetails s ++ pairsDetails (db s) stream (pairsDownFrom n)
    /\ exists evs, events s' = events s ++ evs /\ Forall succeeded evs.
Proof.
  induction n as [| n IH]; intros Hn s u s'.
  { cbn. intros [= _ <-]. rewrite arrivals_first, !app_nil_r, Nat.add_0_r.
    repeat split; try done; [lia |].
    exists []. by rewrite app_nil_r. }
  cbn [pairsDownFrom forOf]. unfold bind at 1.
  set (m := Z.of_nat (S n)).
  assert (Hm : Z.of_nat n = m - 1) by lia.
  destruct (body (mkPair m (m + 1)) s) as [[u1 | e1] s1] eqn:E1; [| discriminate].
  intros Hloop.
  apply promotePair_returns in E1 as (Hdb & Htp & Htg & Hdet & _ & Hev);
    [| done | lia].
  apply IH in Hloop as (Fr & Bk & Btop & Ltp & Ltg & Ldet & (evs & Lev & Hok));
    [| lia].
  rewrite Hm in *. replace (m - 1 + 1) with m in * by lia.
  assert (Same : forall j, j <> m -> j <> m + 1 ->
                           bucket (db s1) stream j = bucket (db s) stream j).
  { intros j H1 H2. rewrite Hdb. apply afterPair_other; (done || lia). }
  assert (SameP : forall p, In p (pairsDownFrom n) ->
            bucket (db s1) stream (fromSem p) = bucket (db s) stream (fromSem p)).
  { intros p Hp. apply pairsDownFrom_In in Hp. apply Same; lia. }
  repeat split.
  - intros c Hc. rewrite Fr by (intros k Hk; apply Hc; lia).
    rewrite Hdb. apply afterPair_lookup; apply Hc; lia.
  - intros k Hk. destruct (decide (k = m)) as [-> | Hne].
    + rewrite Btop, Hdb, afterPair_source by (done || lia).
      f_equal. rewrite <- Hdb. apply arrivals_ext, Same; lia.
    + rewrite Bk by lia. f_equal.
      * apply stayers_ext, Same; lia.
      * apply arrivals_ext, Same; lia.
  - rewrite <- (afterPair_target now stream stream_valid) by lia.
    rewrite <- Hdb, !bucket_valid by (done || lia).
    apply documents_lookup, Fr. intros k Hk H.
    apply collectionOf_inj in H; (done || lia).
  - rewrite Ltp, Htp, (promotedCount_ext _ _ _ _ SameP).
    unfold promotedCount. cbn [map fold_right fromSem]. lia.
  - congruence.
  - rewrite Ldet, Hdet, (pairsDetails_ext _ _ _ _ SameP), <- app_assoc.
    reflexivity.
  - exists (pairEvents (db s) stream m ++ evs).
    rewrite Lev, Hev, <- app_assoc. split; [done |].
    apply Forall_app. split; [apply pairEvents_succeeded | done].
Qed.

End Loop.

Lemma promotionPairs_shape stream p :
  In p (promotionPairs stream) -> oneSemesterUp p.
Proof.
  unfold promotionPairs, oneSemesterUp.
  destruct (String.eqb stream "BCom Section B").
  - intros [<- | []]. cbn. lia.
  - intros H. apply pairsDownFrom_In in H. lia.
Qed.

Section Run.

Variable plan : faultPlan.
Variable now : clock.
Variable stream : string.
Hypothesis stream_valid : In stream validStreams.

Let col := collectionOf stream.
Let body := promotePair plan now stream.

(** A loop that throws stops at the pair whose call failed. *)
Lemma forOf_throws pairs :
  Forall oneSemesterUp pairs ->
  forall s e s',
    forOf pairs body s = (Throw e, s') ->
    exists p evs ev,
      In p pairs
      /\ events s' = events s ++ evs ++ [ev]
      /\ Forall succeeded evs
      /\ failedCallOf stream p e ev
      /\ last (console s') = Some (ErrPromoting (fromSem p) (toSem p) e)
      /\ totalGraduated s' = totalGraduated s.
Proof.
  induction pairs as [| p pairs IH]; intros Hall s e s'; [discriminate |].
  apply Forall_cons in Hall as [[Hp Hto] Hall].
  destruct p as [k k']. cbn in Hp, Hto. subst k'.
  cbn [forOf]. unfold bind at 1.
  destruct (body (mkPair k (k + 1)) s) as [[u1 | e1] s1] eqn:E1.
  - intros Hrest.
    apply promotePair_returns in E1 as (_ & _ & Htg & _ & _ & Hev);
      [| done | lia].
    destruct (IH Hall _ _ _ Hrest) as (p & evs & ev & Hin & Hevs & Hok & Hf & Hl & Hg).
    exists p, (pairEvents (db s) stream k ++ evs), ev.
    rewrite Hevs, Hev, <- !app_assoc.
    repeat split; try done; [by right | | congruence].
    apply Forall_app. split; [apply pairEvents_succeeded | done].
  - intros [= <- <-].
    apply promotePair_throws in E1
      as (evs & ev & Hevs & Hok & Hf & Hl & _ & Hg); [| done | lia].
    exists (mkPair k (k + 1)), evs, ev.
    split; [by left |]. repeat split; done || exact Hf.
Qed.

(** The loop over the stream's pairs, when it returns. *)
Lemma promotionLoop_returns s u s' :
  forOf (promotionPairs stream) body s = (Ok u, s') ->
  (forall c, (forall k, 1 <= k <= 6 -> c <> col k) -> db s' !! c = db s !! c)
  /\ (forall k, bucket (db s') stream k = promotedBucket now (db s) stream k)
  /\ totalPromoted s'
     = (totalPromoted s + promotedCount (db s) stream (promotionPairs stream))%nat
  /\ totalGraduated s' = totalGraduated s
  /\ promotionDetails s'
     = promotionDetails s ++ pairsDetails (db s) stream (promotionPairs stream)
  /\ exists evs, events s' = events s ++ evs /\ Forall succeeded evs.
Proof.
  unfold promotedBucket, isSource, isTarget, promotionPairs.
  destruct (String.eqb stream "BCom Section B").
  - cbn [forOf]. unfold bind, ret.
    destruct (body (mkPair 5 6) s) as [[u1 | e1] s1] eqn:E1; [| discriminate].
    intros [= _ <-].
    apply (promotePair_returns plan now stream stream_valid 5) in E1
      as (Hdb & Htp & Htg & Hdet & _ & Hev); [| lia].
    repeat split.
    + intros c Hc. rewrite Hdb. apply afterPair_lookup; apply Hc; lia.
    + intros k. cbn [existsb fromSem toSem]. rewrite !orb_false_r, Hdb.
      destruct (Z.eqb_spec 5 k) as [<- | H5].
      * rewrite afterPair_source by (done || lia).
        change (6 =? 5) with false. by rewrite app_nil_r.
      * destruct (Z.eqb_spec 6 k) as [<- | H6].
        -- apply (afterPair_target now stream stream_valid _ 5). lia.
        -- rewrite app_nil_r. apply afterPair_other; (done || lia).
    + rewrite Htp. unfold promotedCount. cbn. lia.
    + done.
    + rewrite Hdet. unfold pairsDetails. cbn. by rewrite app_nil_r.
    + eexists. split; [done |]. apply pairEvents_succeeded.
  - intros Hloop.
    apply (pairsDownFrom_returns plan now stream stream_valid 5) in Hloop
      as (Fr & Bk & Btop & Ltp & Ltg & Ldet & Lev); [| lia].
    repeat split; try done.
    intros k. cbn [pairsDownFrom existsb fromSem toSem].
    change (Z.of_nat 5) with 5 in *. change (Z.of_nat 4) with 4.
    change (Z.of_nat 3) with 3. change (Z.of_nat 2) with 2.
    change (Z.of_nat 1) with 1.
    change (5 + 1) with 6 in *. change (4 + 1) with 5. change (3 + 1) with 4.
    change (2 + 1) with 3. change (1 + 1) with 2.
    destruct (decide (1 <= k <= 5)) as [Hk | Hk].
    + rewrite Bk by done.
      replace ((5 =? k) || ((4 =? k) || ((3 =? k) || ((2 =? k) || ((1 =? k) || false)))))
        with true by lia.
      destruct (decide (k = 1)) as [-> | H1].
      * by rewrite arrivals_first.
      * by replace ((6 =? k) || ((5 =? k) || ((4 =? k) || ((3 =? k) || ((2 =? k) || false)))))
          with true by lia.
    + replace ((5 =? k) || ((4 =? k) || ((3 =? k) || ((2 =? k) || ((1 =? k) || false)))))
        with false by lia.
      destruct (decide (k = 6)) as [-> | H6]; [done |].
      replace ((6 =? k) || ((5 =? k) || ((4 =? k) || ((3 =? k) || ((2 =? k) || false)))))
        with false by lia.
      rewrite app_nil_r.
      destruct (decide (1 <= k <= 8)) as [Hr | Hr].
      * rewrite !bucket_valid by done. apply documents_lookup, Fr.
        intros j Hj H. apply collectionOf_inj in H; (done || lia).
      * by rewrite !bucket_out_of_range.
Qed.

End Run.

(** ** The transaction and the handler *)

Lemma semesterRange_includes_6 stream :
  existsb (Z.eqb 6) (semesterRange stream) = true.
Proof. unfold semesterRange. by destruct (String.eqb stream "BCom Section B"). Qed.

Lemma validStreams_accepted stream :
  In stream validStreams ->
  String.eqb stream "" || negb (Js.includes validStreams stream) = false.
Proof.
  unfold validStreams. simpl.
  intros H. repeat (destruct H as [<- | H]; [reflexivity |]). contradiction.
Qed.

Lemma promotionPairs_Forall stream : Forall oneSemesterUp (promotionPairs stream).
Proof.
  apply Forall_forall. intros p Hp. apply list_elem_of_In in Hp.
  by apply promotionPairs_shape in Hp.
Qed.

Section Console.

Variable plan : faultPlan.
Variable now : clock.
Variable stream : string.
Hypothesis stream_valid : In stream validStreams.

(** The loop only adds lines to the console. *)
Lemma forOf_console pairs :
  Forall oneSemesterUp pairs ->
  forall s res s',
    forOf pairs (promotePair plan now stream) s = (res, s') ->
    exists lines, console s' = console s ++ lines.
Proof.
  induction pairs as [| p pairs IH]; intros Hall s res s'.
  { intros [= _ <-]. exists []. by rewrite app_nil_r. }
  apply Forall_cons in Hall as [[Hp Hto] Hall].
  destruct p as [k k']. cbn in Hp, Hto. subst k'.
  cbn [forOf]. unfold bind at 1.
  destruct (promotePair plan now stream (mkPair k (k + 1)) s)
    as [[u1 | e1] s1] eqn:E1.
  - intros Hrest.
    apply promotePair_returns in E1 as (_ & _ & _ & _ & Hc & _); [| done | lia].
    destruct (IH Hall _ _ _ Hrest) as [lines Hl].
    eexists. by rewrite Hl, Hc, <- app_assoc.
  - intros [= <- <-].
    by apply promotePair_throws in E1 as (_ & _ & _ & _ & _ & _ & Hc & _);
      [| done | lia].
Qed.

End Console.

Section Request.

Variable plan : faultPlan.
Variable now : clock.
Variable stream : string.
Hypothesis stream_valid : In stream validStreams.

Let col := collectionOf stream.
Let body := promotePair plan now stream.

(** Graduation touches the collection of semester 6 only. *)
Lemma afterGraduation_lookup d c :
  c <> col 6 -> afterGraduation plan d stream !! c = d !! c.
Proof.
  intros H. unfold afterGraduation.
  destruct (graduates plan d stream); [| done]. by rewrite lookup_insert_ne.
Qed.

Lemma afterGraduation_other d k :
  k <> 6 -> bucket (afterGraduation plan d stream) stream k = bucket d stream k.
Proof.
  intros Hk. destruct (decide (1 <= k <= 8)) as [Hr | Hr].
  - rewrite !bucket_valid by done. apply documents_lookup, afterGraduation_lookup.
    intros H. apply collectionOf_inj in H; (done || lia).
  - by rewrite !bucket_out_of_range.
Qed.

Lemma afterGraduation_six d :
  bucket (afterGraduation plan d stream) stream 6
  = if graduates plan d stream then [] else bucket d stream 6.
Proof.
  unfold afterGraduation. destruct (graduates plan d stream); [| done].
  rewrite bucket_valid by (done || lia). apply documents_insert_eq.
Qed.

(** The response of a request for a recognised stream, from the graduation
    step and the loop. *)
Lemma simplePromotion_run d :
  exists s1 res s2,
    graduationStep plan stream (startState stream d) = (Ok tt, s1)
    /\ forOf (promotionPairs stream) body s1 = (res, s2)
    /\ simplePromotion plan now stream d
       = match res with
         | Ok _ =>
             (Success
                {| Report.success := true;
                   Report.promotionDate := promotionDate now;
                   Report.promotionBatch := promotionBatch stream now;
                   Report.totalPromoted := totalPromoted s2;
                   Report.totalGraduated := totalGraduated s2;
                   Report.promotionFlow :=
                     promotionFlow stream (totalGraduated s2);
                   Report.promotionDetails := promotionDetails s2 |},
              addLine (LogCompleted (totalPromoted s2) (totalGraduated s2)) s2)
         | Throw e => (Failed e, setDb d s2)
         end.
Proof.
  destruct (graduationStep_run plan stream stream_valid (startState stream d))
    as (s1 & Hg & _).
  destruct (forOf (promotionPairs stream) body s1) as [res s2] eqn:Hl.
  exists s1, res, s2. split; [done |]. split; [done |].
  unfold simplePromotion. rewrite validStreams_accepted by done.
  unfold withTransaction, transactionBody.
  rewrite semesterRange_includes_6. unfold bind at 1. rewrite Hg.
  fold body. rewrite Hl. by destruct res.
Qed.

(** A recognised stream is not rejected. *)
Lemma simplePromotion_not_rejected d valid :
  fst (simplePromotion plan now stream d) <> BadRequest valid.
Proof.
  destruct (simplePromotion_run d) as (s1 & res & s2 & _ & _ & ->).
  by destruct res.
Qed.

(** A run that commits. *)
Lemma simplePromotion_commits d report s' :
  simplePromotion plan now stream d = (Success report, s') ->
  (forall k, bucket (db s') stream k
             = promotedBucket now (afterGraduation plan d stream) stream k)
  /\ (forall c, (forall k, 1 <= k <= 6 -> c <> col k) -> db s' !! c = d !! c)
  /\ Report.totalGraduated report
     = (if graduates plan d stream then length (bucket d stream 6) else 0%nat)
  /\ Report.totalPromoted report
     = promotedCount d stream (promotionPairs stream)
  /\ Report.promotionDetails report
     = (if graduates plan d stream
        then [GraduationDetail 6 (length (bucket d stream 6))
                (map idAndName (bucket d stream 6))]
        else [])
         ++ pairsDetails d stream (promotionPairs stream)
  /\ (exists gevs pevs,
        events s' = gevs ++ pevs
        /\ Forall (fun ev => graduationCall stream ev
                             /\ (raised ev <> None ->
                                 raised ev = graduationFault plan d stream)) gevs
        /\ Forall succeeded pevs)
  /\ (forall e, graduationFault plan d stream = Some e ->
                In (ErrGraduation e) (console s')).
Proof.
  destruct (simplePromotion_run d) as (s1 & res & s2 & Hg & Hl & ->).
  destruct res as [u | e]; [| discriminate]. intros [= <- <-].
  destruct (graduationStep_run plan stream stream_valid (startState stream d))
    as (s1' & Hg' & Gdb & Gtg & Gtp & Gcon & Gdet & gevs & Gev & Gall & _).
  rewrite Hg in Hg'. injection Hg' as <-.
  pose proof (forOf_console plan now stream stream_valid _
                (promotionPairs_Forall stream) _ _ _ Hl) as [lines Hlines].
  apply (promotionLoop_returns plan now stream stream_valid) in Hl
    as (Fr & Bk & Ltp & Ltg & Ldet & pevs & Lev & Lok).
  cbn [db addLine events console Report.totalGraduated Report.totalPromoted
         Report.promotionDetails].
  change (db (startState stream d)) with d in *.
  assert (SameP : forall p, In p (promotionPairs stream) ->
            bucket (db s1) stream (fromSem p) = bucket d stream (fromSem p)).
  { intros p Hp. apply promotionPairs_shape in Hp as [Hp _].
    rewrite Gdb. apply afterGraduation_other. lia. }
  repeat split.
  - intros k. by rewrite Bk, Gdb.
  - intros c Hc. rewrite Fr, Gdb by done. apply afterGraduation_lookup, Hc. lia.
  - rewrite Ltg, Gtg. by destruct (graduates plan d stream).
  - rewrite Ltp, Gtp. by rewrite (promotedCount_ext _ _ _ _ SameP).
  - rewrite Ldet, Gdet. by rewrite (pairsDetails_ext _ _ _ _ SameP).
  - exists gevs, pevs. rewrite Lev, Gev. split; [done |]. split; [| done].
    eapply Forall_impl; [exact Gall |]. intros ev (? & ? & ?). by repeat split.
  - intros e He.
    assert (Hin : In (ErrGraduation e) (console s1)).
    { rewrite Gcon, He. apply in_or_app. right. by left. }
    rewrite Hlines. apply in_or_app. left. apply in_or_app. by left.
Qed.

(** A run that fails: the database is the one before the request, and the
    error is the one of the failed call of some pair. *)
Lemma simplePromotion_aborts d e s' :
  simplePromotion plan now stream d = (Failed e, s') ->
  db s' = d
  /\ exists p gevs evs ev,
       In p (promotionPairs stream)
       /\ events s' = gevs ++ evs ++ [ev]
       /\ Forall (fun ev => graduationCall stream ev
                            /\ (raised ev <> None ->
                                raised ev = graduationFault plan d stream)) gevs
       /\ Forall succeeded evs
       /\ failedCallOf stream p e ev
       /\ last (console s') = Some (ErrPromoting (fromSem p) (toSem p) e).
Proof.
  destruct (simplePromotion_run d) as (s1 & res & s2 & Hg & Hl & ->).
  destruct res as [u | e']; [discriminate |]. intros [= <- <-].
  split; [done |].
  destruct (graduationStep_run plan stream stream_valid (startState stream d))
    as (s1' & Hg' & _ & _ & _ & _ & _ & gevs & Gev & Gall & _).
  rewrite Hg in Hg'. injection Hg' as <-.
  apply (forOf_throws plan now stream stream_valid _ (promotionPairs_Forall stream))
    in Hl as (p & evs & ev & Hin & Hev & Hok & Hf & Hlast & _).
  exists p, gevs, evs, ev. cbn [events console setDb].
  rewrite Hev, Gev. repeat split; try done.
  eapply Forall_impl; [exact Gall |]. intros x (? & ? & ?). by repeat split.
Qed.

End Request.

(** Without a failing call the loop returns, and the request commits. *)
Lemma forOf_noFaults now stream pairs :
  In stream validStreams ->
  Forall oneSemesterUp pairs ->
  forall s, fst (forOf pairs (promotePair noFaults now stream) s) = Ok tt.
Proof.
  intros Hs. induction pairs as [| p pairs IH]; intros Hall s; [done |].
  apply Forall_cons in Hall as [[Hp Hto] Hall].
  destruct p as [k k']. cbn in Hp, Hto. subst k'.
  cbn [forOf]. unfold bind at 1.
  pose proof (promotePair_outcome noFaults now stream Hs k s) as Ho.
  destruct (promotePair noFaults now stream (mkPair k (k + 1)) s) as [[[] | e] s1].
  - by apply IH.
  - cbn in Ho. rewrite Ho by lia. by destruct (actives (db s) stream k).
Qed.

Lemma simplePromotion_noFaults now stream d :
  In stream validStreams ->
  committed (fst (simplePromotion noFaults now stream d)).
Proof.
  intros Hs.
  destruct (simplePromotion_run noFaults now stream Hs d)
    as (s1 & res & s2 & _ & Hl & ->).
  pose proof (forOf_noFaults now stream _ Hs (promotionPairs_Forall stream) s1) as H.
  rewrite Hl in H. cbn in H. by subst res.
Qed.

(** ** Calls of the graduation step and calls of the pairs *)

Lemma graduationFault_no_graduation plan d stream e :
  graduationFault plan d stream = Some e -> graduates plan d stream = false.
Proof.
  unfold graduationFault, graduates.
  destruct (plan CountDocuments _); [done |].
  destruct (0 <? length (bucket d stream 6))%nat;
    destruct (plan Find _); try done; by destruct (plan DeleteMany _).
Qed.

Section Calls.

Variable plan : faultPlan.
Variable now : clock.
Variable stream : string.
Hypothesis stream_valid : In stream validStreams.

(** No call of a pair is a call of the graduation step. *)
Lemma failedCallOf_not_graduation p e ev :
  oneSemesterUp p -> failedCallOf stream p e ev -> ~ graduationCall stream ev.
Proof.
  intros [Hk Hto] Hf [Hc Hm].
  destruct Hf as [-> | [-> | ->]]; cbn in Hc, Hm; try done;
    apply collectionOf_inj in Hc; (done || lia).
Qed.

(** The loop only adds events. *)
Lemma forOf_events pairs :
  Forall oneSemesterUp pairs ->
  forall s res s',
    forOf pairs (promotePair plan now stream) s = (res, s') ->
    exists evs, events s' = events s ++ evs.
Proof.
  intros Hall s res s' Hrun. destruct res as [u | e].
  - clear -Hrun Hall stream_valid.
    revert s Hrun. induction pairs as [| p pairs IH]; intros s.
    { intros [= _ <-]. exists []. by rewrite app_nil_r. }
    apply Forall_cons in Hall as [[Hp Hto] Hall].
    destruct p as [k k']. cbn in Hp, Hto. subst k'.
    cbn [forOf]. unfold bind at 1.
    destruct (promotePair plan now stream (mkPair k (k + 1)) s)
      as [[u1 | e1] s1] eqn:E1; [| discriminate].
    intros Hrest.
    apply promotePair_returns in E1 as (_ & _ & _ & _ & _ & Hev); [| done | lia].
    destruct (IH Hall _ Hrest) as [evs Hevs].
    eexists. by rewrite Hevs, Hev, <- app_assoc.
  - apply (forOf_throws plan now stream stream_valid _ Hall) in Hrun
      as (_ & evs & ev & _ & Hev & _).
    by eexists.
Qed.

(** The first pair reads semester 5, whatever the graduation step did. *)
Lemma simplePromotion_reads_semester_5 d :
  In (mkEvent Find (collectionOf stream 5) (plan Find (collectionOf stream 5)))
    (events (snd (simplePromotion plan now stream d))).
Proof.
  destruct (simplePromotion_run plan now stream stream_valid d)
    as (s1 & res & s2 & _ & Hl & ->).
  assert (Hpairs : exists rest, promotionPairs stream = mkPair 5 (5 + 1) :: rest).
  { unfold promotionPairs. destruct (String.eqb stream "BCom Section B");
      by eexists. }
  destruct Hpairs as [rest Hpairs].
  pose proof (promotionPairs_Forall stream) as Hall.
  rewrite Hpairs in Hl, Hall. apply Forall_cons in Hall as [_ Hall].
  cbn [forOf] in Hl. unfold bind at 1 in Hl.
  destruct (promotePair_reads plan now stream stream_valid 5 s1) as [evs Hev];
    [lia |].
  destruct (promotePair plan now stream (mkPair 5 (5 + 1)) s1)
    as [[u1 | e1] s1'] eqn:E1; cbn [snd] in Hev.
  - apply (forOf_events _ Hall) in Hl as [evs' Hev'].
    assert (Hin : In (mkEvent Find (collectionOf stream 5)
                        (plan Find (collectionOf stream 5))) (events s2)).
    { rewrite Hev', Hev. apply in_or_app. left. apply in_or_app. right. by left. }
    by destruct res.
  - injection Hl as <- <-. cbn [snd events setDb]. rewrite Hev.
    apply in_or_app. right. by left.
Qed.

(** The console keeps the line of a failed graduation step. *)
Lemma simplePromotion_logs_graduation_fault d e :
  graduationFault plan d stream = Some e ->
  In (ErrGraduation e) (console (snd (simplePromotion plan now stream d))).
Proof.
  intros He.
  destruct (simplePromotion_run plan now stream stream_valid d)
    as (s1 & res & s2 & Hg & Hl & ->).
  destruct (graduationStep_run plan stream stream_valid (startState stream d))
    as (s1' & Hg' & _ & _ & _ & Gcon & _).
  rewrite Hg in Hg'. injection Hg' as <-.
  change (db (startState stream d)) with d in Gcon. rewrite He in Gcon.
  destruct (forOf_console plan now stream stream_valid _
              (promotionPairs_Forall stream) _ _ _ Hl) as [lines Hlines].
  assert (Hin : In (ErrGraduation e) (console s2)).
  { rewrite Hlines, Gcon. apply in_or_app. left. apply in_or_app. right. by left. }
  destruct res; cbn [snd console addLine setDb]; [| done].
  apply in_or_app. by left.
Qed.

(** The events of a request: those of the graduation step, then those of
    the pairs, of which only the last may have failed. *)
Lemma simplePromotion_events d :
  exists gevs pevs,
    events (snd (simplePromotion plan now stream d)) = gevs ++ pevs
    /\ Forall (fun ev => graduationCall stream ev
                         /\ (raised ev <> None ->
                             raised ev = graduationFault plan d stream)) gevs
    /\ (Forall succeeded pevs
        \/ exists p evs ev e,
             pevs = evs ++ [ev] /\ Forall succeeded evs
             /\ In p (promotionPairs stream) /\ failedCallOf stream p e ev).
Proof.
  destruct (simplePromotion plan now stream d) as [r s'] eqn:Hrun.
  destruct r as [valid | report | e].
  - exfalso. eapply (simplePromotion_not_rejected plan now stream stream_valid d).
    by rewrite Hrun.
  - apply simplePromotion_commits in Hrun
      as (_ & _ & _ & _ & _ & (gevs & pevs & Hev & Hg & Hp) & _); [| done].
    exists gevs, pevs. cbn [snd]. repeat split; try done. by left.
  - apply simplePromotion_aborts in Hrun
      as (_ & p & gevs & evs & ev & Hin & Hev & Hg & Hok & Hf & _); [| done].
    exists gevs, (evs ++ [ev]). cbn [snd]. repeat split; try done.
    right. by exists p, evs, ev, e.
Qed.

(** A failed call of the graduation step is the graduation fault. *)
Lemma graduation_event_fault d ev e :
  In ev (events (snd (simplePromotion plan now stream d))) ->
  graduationCall stream ev -> raised ev = Some e ->
  graduationFault plan d stream = Some e.
Proof.
  intros Hin Hcall Hraised.
  destruct (simplePromotion_events d) as (gevs & pevs & Hev & Hg & Hp).
  rewrite Hev in Hin. apply in_app_or in Hin as [Hin | Hin].
  - rewrite Forall_forall in Hg. apply list_elem_of_In, Hg in Hin as [_ Hr].
    rewrite <- Hr, Hraised; [done |]. by rewrite Hraised.
  - exfalso. destruct Hp as [Hok | (p & evs & ev' & e' & -> & Hok & Hpin & Hf)].
    + rewrite Forall_forall in Hok. apply list_elem_of_In, Hok in Hin.
      unfold succeeded in Hin. congruence.
    + apply in_app_or in Hin as [Hin | [<- | []]].
      * rewrite Forall_forall in Hok. apply list_elem_of_In, Hok in Hin.
        unfold succeeded in Hin. congruence.
      * eapply failedCallOf_not_graduation; [| exact Hf | exact Hcall].
        by apply promotionPairs_shape in Hpin.
Qed.

End Calls.

(** * The claims *)

(** ** Naming across the program *)

(** On the five streams other than BCom-BDA the two naming functions give
    the same name. *)
Lemma naming_functions_agree stream semester type n :
  stream <> "BCom-BDA" ->
  getCollectionName stream semester type = Ok n ->
  Reports.getCollectionName stream semester type = n.
Proof.
  intros Hne H. apply getCollectionName_Ok in H as (code & Hin & _ & ->).
  unfold STREAM_MAPPINGS in Hin. simpl in Hin.
  repeat (destruct Hin as [[= <- <-] | Hin]; [done |]). contradiction.
Qed.

(** C9. The naming is meant to give one name per (stream, semester, type)
    everywhere in the program; within [routes/teacherRoutes.js] distinct
    inputs give distinct names ([getCollectionName_inj]), but for the stream
    BCom-BDA the reports routes compute another name than the roster routes:
    the students stored under [bcom-bda_sem3_students] are looked up under
    [bcom_bda_sem3_students]. *)
Theorem naming_differs_for_bcom_bda :
  getCollectionName "BCom-BDA" 3 "students" = Ok "bcom-bda_sem3_students"
  /\ Reports.getCollectionName "BCom-BDA" 3 "students" = "bcom_bda_sem3_students"
  /\ getCollectionName "BCom-BDA" 3 "students"
     <> Ok (Reports.getCollectionName "BCom-BDA" 3 "students").
Proof. repeat split; [vm_compute; reflexivity .. | vm_compute; discriminate]. Qed.

(** ** The record of a promoted student *)

Lemma orNum_default_0 x : Js.orNum x 0 = default 0 x.
Proof. destruct x as [v |]; [| done]. cbn. by destruct (Z.eqb_spec v 0). Qed.

Lemma orArray_default {A : Type} (x : option (list A)) : Js.orArray x = default [] x.
Proof. by destruct x. Qed.

Lemma orNum_Some_default_0 x : Js.orNum (Some (default 0 x)) 0 = default 0 x.
Proof.
  unfold Js.orNum. destruct (Z.eqb_spec (default 0 x) 0) as [E |]; [| done].
  by rewrite E.
Qed.

(** The paths of the built record that depend on the document. *)
Lemma promotedStudent_generation c batch k k' s :
  Student.migrationGeneration (promotedStudent c batch k k' s)
  = Some (default 0 (Student.migrationGeneration s) + 1).
Proof.
  unfold promotedStudent. cbn [Student.migrationGeneration Document.ofRecord].
  by rewrite orNum_Some_default_0.
Qed.

Lemma promotedStudent_history c batch k k' s :
  Student.migrationHistory (promotedStudent c batch k k' s)
  = Some (default [] (Student.migrationHistory s)
            ++ [ {| Hop.fromSemester := k;
                    Hop.toSemester := k';
                    Hop.migratedDate := promotionDate c;
                    Hop.migrationBatch := batch;
                    Hop.generation := default 0 (Student.migrationGeneration s) + 1 |} ]).
Proof.
  unfold promotedStudent. cbn [Student.migrationHistory Student.migrationGeneration
    Document.ofRecord Js.orArray].
  by rewrite orNum_Some_default_0.
Qed.

Lemma promotedStudent_origin c batch k k' s :
  Student.originalSemester (promotedStudent c batch k k' s)
  = Some (match Student.originalSemester s with
          | Some v => if v =? 0 then k else v
          | None => if Student.semester s =? 0 then k else Student.semester s
          end).
Proof. cbn. by destruct (Student.originalSemester s). Qed.




(** ** The guard of a pair *)

(** A bucket without an active student holds inactive records only. *)
Lemma inactives_all d stream k :
  actives d stream k = [] -> inactives d stream k = bucket d stream k.
Proof.
  unfold actives, inactives.
  induction (bucket d stream k) as [| y l IH]; [done |].
  cbn [List.filter]. destruct (matches ActiveStudentQuery y); cbn [negb]; [done |].
  intros H. f_equal. by apply IH.
Qed.

(** C10. A pair inserts and deletes only when it found an active student,
    that is a record of the source whose [isActive] is not [false].  When
    the source holds no active student the pair makes no call but its read
    and the database stays as it is, inactive records included; when it
    holds one, the records built from the active students are appended to
    the target and the source is emptied, inactive records included. *)
Theorem pair_guard plan now stream p s u s' :
  In stream validStreams ->
  In p (promotionPairs stream) ->
  promotePair plan now stream p s = (Ok u, s') ->
  (forall x,
     In x (actives (db s) stream (fromSem p))
     <-> In x (bucket (db s) stream (fromSem p))
         /\ Student.isActive x <> Flag false)
  /\ match actives (db s) stream (fromSem p) with
     | [] =>
         db s' = db s
         /\ events s' = events s ++ [mkEvent Find (collectionOf stream (fromSem p)) None]
         /\ bucket (db s') stream (fromSem p) = inactives (db s) stream (fromSem p)
     | (_ :: _) as found =>
         bucket (db s') stream (fromSem p) = []
         /\ bucket (db s') stream (toSem p)
            = bucket (db s) stream (toSem p)
                ++ map (promotedStudent now (promotionBatch stream now)
                          (fromSem p) (toSem p)) found
         /\ events s'
            = events s
                ++ [mkEvent Find (collectionOf stream (fromSem p)) None;
                    mkEvent InsertMany (collectionOf stream (toSem p)) None;
                    mkEvent DeleteMany (collectionOf stream (fromSem p)) None]
         /\ Forall (fun x => matches ActiveStudentQuery x = true) found
     end.
Proof.
  intros Hs Hp Hrun. split.
  { intros x. unfold actives. rewrite filter_In. cbn [matches].
    destruct (Student.isActive x) as [| | []]; split; intros [H1 H2];
      (split; [exact H1 | done]). }
  apply promotionPairs_shape in Hp as [Hk Hto].
  destruct p as [k k']. cbn [fromSem toSem] in *. subst k'.
  apply promotePair_returns in Hrun as (Hdb & _ & _ & _ & _ & Hev); [| done | lia].
  pose proof (afterPair_source now stream Hs (db s) k) as Hsrc.
  pose proof (afterPair_target now stream Hs (db s) k) as Htgt.
  unfold arrivals in Htgt. replace (k + 1 - 1) with k in Htgt by lia.
  unfold afterPair, stayers, pairEvents in *.
  destruct (actives (db s) stream k) as [| x found] eqn:Hact.
  - rewrite Hdb, Hev. repeat split; try done.
    symmetry. by apply inactives_all.
  - rewrite Hev, <- Hdb in *. rewrite Hsrc, Htgt by lia.
    repeat split; try done.
    rewrite <- Hact. unfold actives. apply Forall_forall. intros y Hy.
    apply list_elem_of_In, filter_In in Hy. tauto.
Qed.

(** In the sample roster semester 3 holds Esha, active, and Farid, who is
    not: the pair from 3 to 4 empties the bucket and semester 4 gets the
    record built for Esha only.  In the roster that holds Farid alone the
    pair leaves the database as it is. *)
Lemma pair_guard_witness :
  (bucket Sample.bca "BCA" 3 = [Sample.esha; Sample.farid]
   /\ actives Sample.bca "BCA" 3 = [Sample.esha]
   /\ bucket (db (snd (promotePair noFaults Sample.clk "BCA" (mkPair 3 4)
                         (initialState Sample.bca)))) "BCA" 3
      = []
   /\ bucket (db (snd (promotePair noFaults Sample.clk "BCA" (mkPair 3 4)
                         (initialState Sample.bca)))) "BCA" 4
      = [Sample.deepa;
         promotedStudent Sample.clk (promotionBatch "BCA" Sample.clk) 3 4
           Sample.esha])
  /\ (In Sample.farid (bucket Sample.bcaDormant "BCA" 3)
      /\ actives Sample.bcaDormant "BCA" 3 = []
      /\ db (snd (promotePair noFaults Sample.clk "BCA" (mkPair 3 4)
                    (initialState Sample.bcaDormant)))
         = Sample.bcaDormant).
Proof.
  assert (H1 : In "BCA" validStreams) by (simpl; auto).
  assert (H2 : In (mkPair 3 4) (promotionPairs "BCA")) by (simpl; auto).
  split.
  - assert (H3 : promotePair noFaults Sample.clk "BCA" (mkPair 3 4)
                   (initialState Sample.bca)
                 = (Ok tt, snd (promotePair noFaults Sample.clk "BCA" (mkPair 3 4)
                                  (initialState Sample.bca))))
      by (vm_compute; reflexivity).
    split; [vm_compute; reflexivity |]. split; [vm_compute; reflexivity |].
    pose proof (proj2 (pair_guard noFaults Sample.clk "BCA" (mkPair 3 4)
                         (initialState Sample.bca) tt _ H1 H2 H3)) as H.
    change (actives (db (initialState Sample.bca)) "BCA" (fromSem (mkPair 3 4)))
      with [Sample.esha] in H.
    exact (conj (proj1 H) (proj1 (proj2 H))).
  - assert (H3 : promotePair noFaults Sample.clk "BCA" (mkPair 3 4)
                   (initialState Sample.bcaDormant)
                 = (Ok tt, snd (promotePair noFaults Sample.clk "BCA" (mkPair 3 4)
                                  (initialState Sample.bcaDormant))))
      by (vm_compute; reflexivity).
    split; [vm_compute; auto |]. split; [vm_compute; reflexivity |].
    pose proof (proj2 (pair_guard noFaults Sample.clk "BCA" (mkPair 3 4)
                         (initialState Sample.bcaDormant) tt _ H1 H2 H3)) as H.
    change (actives (db (initialState Sample.bcaDormant)) "BCA" (fromSem (mkPair 3 4)))
      with (@nil Student.t) in H.
    exact (proj1 H).
Defined.

(** ** Failure of a pair *)

(** C1, as the code has it.  When the insert or the delete of a pair fails
    during a request, the request fails with the error of that call, the
    database is the one before the request (every bucket of the stream is
    what it was), and the last line of the console names the semesters of
    the pair; the error handed to the caller is the store's own. *)
Theorem failed_pair_aborts_run plan now stream d p e ev :
  In stream validStreams ->
  In p (promotionPairs stream) ->
  ev = mkEvent InsertMany (collectionOf stream (toSem p)) (Some e)
  \/ ev = mkEvent DeleteMany (collectionOf stream (fromSem p)) (Some e) ->
  In ev (events (snd (simplePromotion plan now stream d))) ->
  fst (simplePromotion plan now stream d) = Failed e
  /\ databaseAfter plan now stream d = d
  /\ Forall (fun k => bucket (databaseAfter plan now stream d) stream k
                      = bucket d stream k) semesters
  /\ last (console (snd (simplePromotion plan now stream d)))
     = Some (ErrPromoting (fromSem p) (toSem p) e).
Proof.
  intros Hs Hp Hev Hin.
  pose proof (promotionPairs_shape _ _ Hp) as Hshape.
  assert (Hraised : raised ev = Some e) by (by destruct Hev as [-> | ->]).
  assert (Hnot : ~ graduationCall stream ev).
  { apply (failedCallOf_not_graduation stream Hs p e); [done |].
    unfold failedCallOf. tauto. }
  unfold databaseAfter.
  destruct (simplePromotion plan now stream d) as [r s'] eqn:Hrun.
  cbn [fst snd] in *.
  destruct r as [valid | report | e'].
  - exfalso. eapply (simplePromotion_not_rejected plan now stream Hs d).
    by rewrite Hrun.
  - exfalso.
    apply simplePromotion_commits in Hrun
      as (_ & _ & _ & _ & _ & (gevs & pevs & Hevs & Hg & Hok) & _); [| done].
    rewrite Hevs in Hin. apply in_app_or in Hin as [Hin | Hin].
    + rewrite Forall_forall in Hg. apply list_elem_of_In, Hg in Hin. tauto.
    + rewrite Forall_forall in Hok. apply list_elem_of_In, Hok in Hin.
      unfold succeeded in Hin. congruence.
  - apply simplePromotion_aborts in Hrun
      as (Hdb & p' & gevs & evs & ev' & Hp' & Hevs & Hg & Hok & Hf & Hlast);
      [| done].
    assert (Hsame : ev = ev').
    { rewrite Hevs in Hin. apply in_app_or in Hin as [Hin | Hin].
      - rewrite Forall_forall in Hg. apply list_elem_of_In, Hg in Hin. tauto.
      - apply in_app_or in Hin as [Hin | [<- | []]]; [| done].
        rewrite Forall_forall in Hok. apply list_elem_of_In, Hok in Hin.
        unfold succeeded in Hin. congruence. }
    subst ev'.
    pose proof (promotionPairs_shape _ _ Hp') as Hshape'.
    assert (Heq : p' = p /\ e' = e).
    { destruct Hshape as [Hk Hto], Hshape' as [Hk' Hto'].
      destruct p as [k k1], p' as [k' k1']. cbn [fromSem toSem] in *. subst k1 k1'.
      destruct Hev as [-> | ->], Hf as [Hf | [Hf | Hf]];
        injection Hf as Hc He; try discriminate;
        apply collectionOf_inj in Hc; try (done || lia);
        (split; [f_equal; lia | congruence]). }
    destruct Heq as [-> ->].
    repeat split; try done.
    rewrite Hdb. unfold semesters. by repeat constructor.
Qed.

Lemma failed_pair_aborts_run_witness :
  In (mkEvent InsertMany "bca_sem4_students" (Some Sample.writeConflict))
    (events (snd (simplePromotion (Sample.insertFails "bca_sem4_students")
                    Sample.clk "BCA" Sample.bca)))
  /\ fst (simplePromotion (Sample.insertFails "bca_sem4_students")
            Sample.clk "BCA" Sample.bca)
     = Failed Sample.writeConflict
  /\ databaseAfter (Sample.insertFails "bca_sem4_students") Sample.clk "BCA"
       Sample.bca
     = Sample.bca.
Proof.
  assert (H1 : In "BCA" validStreams) by (simpl; auto).
  assert (H2 : In (mkPair 3 4) (promotionPairs "BCA")) by (simpl; auto).
  assert (H3 : In (mkEvent InsertMany "bca_sem4_students" (Some Sample.writeConflict))
                 (events (snd (simplePromotion (Sample.insertFails "bca_sem4_students")
                                 Sample.clk "BCA" Sample.bca))))
    by (vm_compute; auto 20).
  split; [exact H3 |].
  destruct (failed_pair_aborts_run (Sample.insertFails "bca_sem4_students")
              Sample.clk "BCA" Sample.bca (mkPair 3 4) Sample.writeConflict _
              H1 H2 (or_introl eq_refl) H3) as (Ha & Hb & _).
  split; [exact Ha | exact Hb].
Defined.

(** C1, as worded: the error that reaches the caller would tell which pair
    failed.  It does not: the handler throws the error of the store
    unchanged, and the same error from the inserts of two different pairs
    gives the same response. *)
Lemma thrown_error_does_not_name_the_pair :
  ~ exists identify : response -> promotionPair,
      forall plan now stream d p e ev,
        In stream validStreams ->
        In p (promotionPairs stream) ->
        ev = mkEvent InsertMany (collectionOf stream (toSem p)) (Some e)
        \/ ev = mkEvent DeleteMany (collectionOf stream (fromSem p)) (Some e) ->
        In ev (events (snd (simplePromotion plan now stream d))) ->
        identify (fst (simplePromotion plan now stream d)) = p.
Proof.
  intros [identify H].
  assert (Hs : In "BCA" validStreams) by (simpl; auto).
  pose proof (H (Sample.insertFails "bca_sem4_students") Sample.clk "BCA"
                Sample.bca (mkPair 3 4) Sample.writeConflict _ Hs
                ltac:(simpl; auto) (or_introl eq_refl)
                ltac:(vm_compute; auto 20)) as H34.
  pose proof (H (Sample.insertFails "bca_sem3_students") Sample.clk "BCA"
                Sample.bca (mkPair 2 3) Sample.writeConflict _ Hs
                ltac:(simpl; auto 10) (or_introl eq_refl)
                ltac:(vm_compute; auto 20)) as H23.
  assert (E34 : fst (simplePromotion (Sample.insertFails "bca_sem4_students")
                       Sample.clk "BCA" Sample.bca) = Failed Sample.writeConflict)
    by (vm_compute; reflexivity).
  assert (E23 : fst (simplePromotion (Sample.insertFails "bca_sem3_students")
                       Sample.clk "BCA" Sample.bca) = Failed Sample.writeConflict)
    by (vm_compute; reflexivity).
  rewrite E34 in H34. rewrite E23 in H23. rewrite H34 in H23. discriminate H23.
Qed.

(** ** Failure of the graduation step *)

(** C6. A call of the graduation step that fails does not stop the request:
    the error is logged, nothing is graduated (the count is 0, no bucket
    changed, no detail pushed), and the loop over the pairs runs from there,
    starting with the read of semester 5. *)
Theorem graduation_failure_is_isolated plan now stream d ev e :
  In stream validStreams ->
  In ev (events (snd (simplePromotion plan now stream d))) ->
  graduationCall stream ev ->
  raised ev = Some e ->
  In (ErrGraduation e) (console (snd (simplePromotion plan now stream d)))
  /\ graduatedCount (fst (simplePromotion plan now stream d)) = 0%nat
  /\ (exists s1,
        graduationStep plan stream (startState stream d) = (Ok tt, s1)
        /\ db s1 = d
        /\ totalGraduated s1 = 0%nat
        /\ promotionDetails s1 = []
        /\ transactionBody plan now stream (startState stream d)
           = forOf (promotionPairs stream) (promotePair plan now stream) s1)
  /\ In (mkEvent Find (collectionOf stream 5) (plan Find (collectionOf stream 5)))
       (events (snd (simplePromotion plan now stream d)))
  /\ match fst (simplePromotion plan now stream d) with
     | Success _ =>
         bucket (databaseAfter plan now stream d) stream 6
         = bucket d stream 6 ++ arrivals now d stream 6
     | _ => databaseAfter plan now stream d = d
     end.
Proof.
  intros Hs Hin Hcall Hraised.
  pose proof (graduation_event_fault plan now stream Hs d ev e Hin Hcall Hraised)
    as Hfault.
  pose proof (graduationFault_no_graduation _ _ _ _ Hfault) as Hno.
  split; [by apply simplePromotion_logs_graduation_fault |].
  split.
  { destruct (simplePromotion plan now stream d) as [r s'] eqn:Hrun.
    destruct r as [| report |]; try done.
    apply simplePromotion_commits in Hrun as (_ & _ & Hg & _); [| done].
    cbn. by rewrite Hg, Hno. }
  split.
  { destruct (graduationStep_run plan stream Hs (startState stream d))
      as (s1 & Hg & Gdb & Gtg & _ & _ & Gdet & _).
    change (db (startState stream d)) with d in *.
    unfold afterGraduation in Gdb. rewrite Hno in Gdb, Gtg, Gdet.
    exists s1. repeat split; try done.
    unfold transactionBody. rewrite semesterRange_includes_6.
    unfold bind at 1. by rewrite Hg. }
  split; [by apply simplePromotion_reads_semester_5 |].
  unfold databaseAfter.
  destruct (simplePromotion plan now stream d) as [r s'] eqn:Hrun.
  destruct r as [valid | report | e'].
  - exfalso. eapply (simplePromotion_not_rejected plan now stream Hs d).
    by rewrite Hrun.
  - apply simplePromotion_commits in Hrun as (Hb & _); [| done].
    cbn [fst snd]. rewrite Hb. unfold promotedBucket, afterGraduation.
    rewrite Hno.
    assert (Hsrc : isSource stream 6 = false).
    { unfold isSource, promotionPairs.
      by destruct (String.eqb stream "BCom Section B"). }
    assert (Htgt : isTarget stream 6 = true).
    { unfold isTarget, promotionPairs.
      by destruct (String.eqb stream "BCom Section B"). }
    by rewrite Hsrc, Htgt.
  - by apply simplePromotion_aborts in Hrun as (Hdb & _).
Qed.

Lemma graduation_failure_is_isolated_witness :
  In (mkEvent DeleteMany "bca_sem6_students" (Some Sample.writeConflict))
    (events (snd (simplePromotion (Sample.deleteFails "bca_sem6_students")
                    Sample.clk "BCA" Sample.bca)))
  /\ graduatedCount (fst (simplePromotion (Sample.deleteFails "bca_sem6_students")
                            Sample.clk "BCA" Sample.bca)) = 0%nat
  /\ In (mkEvent Find "bca_sem5_students" None)
       (events (snd (simplePromotion (Sample.deleteFails "bca_sem6_students")
                       Sample.clk "BCA" Sample.bca))).
Proof.
  assert (H1 : In "BCA" validStreams) by (simpl; auto).
  assert (H2 : In (mkEvent DeleteMany "bca_sem6_students" (Some Sample.writeConflict))
                 (events (snd (simplePromotion (Sample.deleteFails "bca_sem6_students")
                                 Sample.clk "BCA" Sample.bca))))
    by (vm_compute; auto 20).
  assert (H3 : graduationCall "BCA"
                 (mkEvent DeleteMany "bca_sem6_students" (Some Sample.writeConflict)))
    by (split; [vm_compute; reflexivity | discriminate]).
  split; [exact H2 |].
  destruct (graduation_failure_is_isolated (Sample.deleteFails "bca_sem6_students")
              Sample.clk "BCA" Sample.bca _ Sample.writeConflict H1 H2 H3 eq_refl)
    as (_ & Hb & _ & Hd & _).
  split; [exact Hb | exact Hd].
Defined.

(** ** Where the records of the buckets come from *)

Lemma isSource_range stream k : isSource stream k = true -> 1 <= k <= 5.
Proof.
  unfold isSource. intros H. apply existsb_exists in H as (p & Hp & Hk).
  apply promotionPairs_shape in Hp as [Hr _]. lia.
Qed.

Lemma isTarget_range stream k : isTarget stream k = true -> 2 <= k <= 6.
Proof.
  unfold isTarget. intros H. apply existsb_exists in H as (p & Hp & Hk).
  apply promotionPairs_shape in Hp as [Hr Hto]. lia.
Qed.


Lemma isTarget_pair stream p :
  In p (promotionPairs stream) -> isTarget stream (toSem p) = true.
Proof.
  intros Hp. unfold isTarget. apply existsb_exists. exists p. split; [done | lia].
Qed.

Lemma stayers_subset d stream k x :
  In x (stayers d stream k) -> In x (bucket d stream k).
Proof. unfold stayers. by destruct (actives d stream k). Qed.

Lemma actives_subset d stream k x :
  In x (actives d stream k) -> In x (bucket d stream k).
Proof. unfold actives. intros H. by apply filter_In in H as [H _]. Qed.

Section Origin.

Variable plan : faultPlan.
Variable now : clock.
Variable stream : string.
Hypothesis stream_valid : In stream validStreams.

Let graduated (d : database) := afterGraduation plan d stream.

Lemma afterGraduation_subset d k x :
  In x (bucket (graduated d) stream k) -> In x (bucket d stream k).
Proof.
  unfold graduated. destruct (decide (k = 6)) as [-> | Hk].
  - rewrite afterGraduation_six by done. by destruct (graduates plan d stream).
  - by rewrite afterGraduation_other.
Qed.


Lemma afterGraduation_stayers d k :
  k <> 6 -> stayers (graduated d) stream k = stayers d stream k.
Proof.
  intros Hk. apply stayers_ext. by apply afterGraduation_other.
Qed.

Lemma afterGraduation_arrivals d k :
  k <> 7 -> arrivals now (graduated d) stream k = arrivals now d stream k.
Proof.
  intros Hk. apply arrivals_ext. apply afterGraduation_other; (done || lia).
Qed.

(** The bucket of a target semester after the pairs, from the database
    before the request. *)
Lemma promotedBucket_target d p :
  In p (promotionPairs stream) ->
  exists kept,
    promotedBucket now (graduated d) stream (toSem p)
    = kept ++ map (promotedStudent now (promotionBatch stream now)
                     (fromSem p) (toSem p))
                (actives d stream (fromSem p))
    /\ forall x, In x kept -> In x (bucket d stream (toSem p)).
Proof.
  intros Hp. unfold promotedBucket. rewrite (isTarget_pair _ _ Hp).
  apply promotionPairs_shape in Hp as [Hk Hto].
  rewrite afterGraduation_arrivals by lia.
  unfold arrivals. rewrite Hto. replace (fromSem p + 1 - 1) with (fromSem p) by lia.
  eexists. split; [reflexivity |].
  intros x Hx. destruct (isSource stream (fromSem p + 1)).
  - by apply afterGraduation_subset, stayers_subset.
  - by apply afterGraduation_subset.
Qed.

(** Every record of a bucket after the pairs was in the bucket before the
    request or is one hop of a student who was active in the semester
    below: no record is the hop of a hop. *)
Lemma promotedBucket_origin d k x :
  In x (promotedBucket now (graduated d) stream k) ->
  In x (bucket d stream k)
  \/ exists s, In s (actives d stream (k - 1)) /\ promotedInto now stream k s x.
Proof.
  unfold promotedBucket. intros H. apply in_app_or in H as [H | H].
  - left. destruct (isSource stream k).
    + by apply afterGraduation_subset, stayers_subset.
    + by apply afterGraduation_subset.
  - right. destruct (isTarget stream k) eqn:Ht; [| done].
    apply isTarget_range in Ht.
    rewrite afterGraduation_arrivals in H by lia.
    unfold arrivals in H. apply in_map_iff in H as (s & <- & Hs).
    by exists s.
Qed.

End Origin.

(** ** A request that commits *)

Section Committed.

Variable plan : faultPlan.
Variable now : clock.
Variable stream : string.
Variable d : database.
Hypothesis stream_valid : In stream validStreams.
Hypothesis run_committed : committed (fst (simplePromotion plan now stream d)).

(** The buckets after the request, from the database before it. *)
Lemma committed_buckets k :
  bucket (databaseAfter plan now stream d) stream k
  = promotedBucket now (afterGraduation plan d stream) stream k.
Proof.
  unfold databaseAfter. revert run_committed.
  destruct (simplePromotion plan now stream d) as [r s'] eqn:Hrun.
  destruct r as [| report |]; try done. intros _.
  by apply simplePromotion_commits in Hrun as (Hb & _).
Qed.

(** The details of the report list, for each pair that found one, the
    students who were active in its source before the request. *)
Lemma committed_details :
  reportedDetails (fst (simplePromotion plan now stream d))
  = (if graduates plan d stream
     then [GraduationDetail 6 (length (bucket d stream 6))
             (map idAndName (bucket d stream 6))]
     else [])
      ++ pairsDetails d stream (promotionPairs stream).
Proof.
  revert run_committed.
  destruct (simplePromotion plan now stream d) as [r s'] eqn:Hrun.
  destruct r as [| report |]; try done. intros _.
  by apply simplePromotion_commits in Hrun as (_ & _ & _ & _ & Hdet & _).
Qed.

Lemma committed_target p :
  In p (promotionPairs stream) ->
  exists kept,
    bucket (databaseAfter plan now stream d) stream (toSem p)
    = kept ++ map (promotedStudent now (promotionBatch stream now)
                     (fromSem p) (toSem p))
                (actives d stream (fromSem p))
    /\ forall x, In x kept -> In x (bucket d stream (toSem p)).
Proof. intros Hp. rewrite committed_buckets. by apply promotedBucket_target. Qed.

Lemma committed_origin k x :
  In x (bucket (databaseAfter plan now stream d) stream k) ->
  In x (bucket d stream k)
  \/ exists s, In s (actives d stream (k - 1)) /\ promotedInto now stream k s x.
Proof. rewrite committed_buckets. by apply promotedBucket_origin. Qed.

End Committed.

(** ** One hop per run *)

(** C2, as the code has it.  In a request that commits, bucket [k] holds
    what stayed in it and what the pair into [k] built from the bucket
    below as it was before the request.  Each pair of the stream (sources 5
    to 1 for a full stream, only 5 for BCom Section B) has read the students
    who were active in its source before the request, as the details of the
    report record; the target bucket ends with the records built from
    exactly those students, after records that were in it before; and
    every record of every bucket was there before the request or is one hop
    of a student active before the request in the semester below, never
    the hop of a hop. *)
Theorem one_hop_per_run plan now stream d :
  In stream validStreams ->
  committed (fst (simplePromotion plan now stream d)) ->
  (forall k,
     bucket (databaseAfter plan now stream d) stream k
     = promotedBucket now (afterGraduation plan d stream) stream k)
  /\ reportedDetails (fst (simplePromotion plan now stream d))
     = (if graduates plan d stream
        then [GraduationDetail 6 (length (bucket d stream 6))
                (map idAndName (bucket d stream 6))]
        else [])
         ++ pairsDetails d stream (promotionPairs stream)
  /\ Forall
       (fun p =>
          exists kept,
            bucket (databaseAfter plan now stream d) stream (toSem p)
            = kept ++ map (promotedStudent now (promotionBatch stream now)
                             (fromSem p) (toSem p))
                        (actives d stream (fromSem p))
            /\ forall x, In x kept -> In x (bucket d stream (toSem p)))
       (promotionPairs stream)
  /\ forall k x,
       In x (bucket (databaseAfter plan now stream d) stream k) ->
       In x (bucket d stream k)
       \/ exists s, In s (actives d stream (k - 1)) /\ promotedInto now stream k s x.
Proof.
  intros Hs Hc.
  split; [intros k; by apply committed_buckets |].
  split; [by apply committed_details |]. split.
  - apply Forall_forall. intros p Hp. apply list_elem_of_In in Hp.
    by apply committed_target.
  - intros k x. by apply committed_origin.
Qed.

Lemma one_hop_per_run_witness :
  committed (fst (simplePromotion noFaults Sample.clk "BCA" Sample.bca))
  /\ forall k x,
       In x (bucket (databaseAfter noFaults Sample.clk "BCA" Sample.bca) "BCA" k) ->
       In x (bucket Sample.bca "BCA" k)
       \/ exists s, In s (actives Sample.bca "BCA" (k - 1))
                    /\ promotedInto Sample.clk "BCA" k s x.
Proof.
  assert (H1 : In "BCA" validStreams) by (simpl; auto).
  assert (H2 : committed (fst (simplePromotion noFaults Sample.clk "BCA" Sample.bca)))
    by (vm_compute; exact I).
  split; [exact H2 |].
  exact (proj2 (proj2 (proj2 (one_hop_per_run noFaults Sample.clk "BCA" Sample.bca
                                H1 H2)))).
Defined.

(** C2, as worded, promises a hop to every active student of semesters 1 to
    5.  A student of BCom Section B in semester 3 is not promoted: the
    stream has the pair from 5 to 6 only. *)
Lemma section_b_semester_3_is_not_promoted :
  committed (fst (simplePromotion noFaults Sample.clk "BCom Section B"
                    Sample.sectionB))
  /\ In Sample.indu (actives Sample.sectionB "BCom Section B" 3)
  /\ bucket (databaseAfter noFaults Sample.clk "BCom Section B" Sample.sectionB)
       "BCom Section B" 3
     = [Sample.indu]
  /\ bucket (databaseAfter noFaults Sample.clk "BCom Section B" Sample.sectionB)
       "BCom Section B" 4
     = [].
Proof. vm_compute. auto. Qed.

(** ** The student of semester 4 *)




(** ** The constrained stream *)

Lemma isSource_sectionB k : isSource "BCom Section B" k = (5 =? k).
Proof. unfold isSource. cbn. apply orb_false_r. Qed.

Lemma isTarget_sectionB k : isTarget "BCom Section B" k = (6 =? k).
Proof. unfold isTarget. cbn. apply orb_false_r. Qed.

Lemma sectionB_valid : In "BCom Section B" validStreams.
Proof. simpl. auto. Qed.

(** Whatever the plan, a request for BCom Section B leaves the buckets of
    semesters 1 to 4 as they were. *)
Lemma section_b_lower_semesters_untouched plan now d :
  Forall (fun k => bucket (databaseAfter plan now "BCom Section B" d)
                     "BCom Section B" k
                   = bucket d "BCom Section B" k) [1; 2; 3; 4].
Proof.
  apply Forall_forall. intros k Hk. apply list_elem_of_In in Hk.
  assert (Hr : 1 <= k <= 4) by (simpl in Hk; lia).
  unfold databaseAfter.
  destruct (simplePromotion plan now "BCom Section B" d) as [r s'] eqn:Hrun.
  destruct r as [valid | report | e]; cbn [snd].
  - exfalso.
    eapply (simplePromotion_not_rejected plan now _ sectionB_valid d).
    by rewrite Hrun.
  - apply simplePromotion_commits in Hrun as (Hb & _); [| apply sectionB_valid].
    rewrite Hb. unfold promotedBucket.
    rewrite isSource_sectionB, isTarget_sectionB.
    replace (5 =? k) with false by lia. replace (6 =? k) with false by lia.
    rewrite app_nil_r. apply afterGraduation_other; [apply sectionB_valid | lia].
  - apply simplePromotion_aborts in Hrun as (-> & _); [done | apply sectionB_valid].
Qed.

(** C7, as the code has it.  A request for BCom Section B in which no call
    fails commits; semester 6 then holds the records built from the active
    students of semester 5 and none of its former records; semester 5 is
    empty if it held an active student and is unchanged otherwise (it then
    held inactive records only); semesters 1 to 4 are unchanged. *)
Theorem section_b_run now d :
  committed (fst (simplePromotion noFaults now "BCom Section B" d))
  /\ bucket (databaseAfter noFaults now "BCom Section B" d) "BCom Section B" 6
     = map (promotedStudent now (promotionBatch "BCom Section B" now) 5 6)
         (actives d "BCom Section B" 5)
  /\ bucket (databaseAfter noFaults now "BCom Section B" d) "BCom Section B" 5
     = match actives d "BCom Section B" 5 with
       | [] => bucket d "BCom Section B" 5
       | _ :: _ => []
       end
  /\ Forall (fun k => bucket (databaseAfter noFaults now "BCom Section B" d)
                        "BCom Section B" k
                      = bucket d "BCom Section B" k) [1; 2; 3; 4].
Proof.
  pose proof sectionB_valid as Hs.
  pose proof (simplePromotion_noFaults now _ d Hs) as Hc.
  split; [exact Hc |].
  split; [| split; [| apply section_b_lower_semesters_untouched]];
    unfold databaseAfter;
    destruct (simplePromotion noFaults now "BCom Section B" d) as [r s'] eqn:Hrun;
    destruct r as [| report |]; try done;
    apply simplePromotion_commits in Hrun as (Hb & _); try done;
    cbn [snd]; rewrite Hb; unfold promotedBucket;
    rewrite isSource_sectionB, isTarget_sectionB.
  - change (5 =? 6) with false. change (6 =? 6) with true. cbv iota.
    rewrite afterGraduation_six, afterGraduation_arrivals by (done || lia).
    unfold arrivals. change (6 - 1) with 5.
    unfold graduates, noFaults.
    destruct (bucket d "BCom Section B" 6); by cbn.
  - change (5 =? 5) with true. change (6 =? 5) with false. cbv iota.
    rewrite app_nil_r, afterGraduation_stayers by (done || lia). done.
Qed.

(** C7, as worded, leaves semester 5 empty.  A semester 5 that holds inactive
    records only is not emptied. *)
Lemma section_b_semester_5_is_not_emptied :
  committed (fst (simplePromotion noFaults Sample.clk "BCom Section B"
                    Sample.sectionB))
  /\ bucket Sample.sectionB "BCom Section B" 5 = [Sample.hari]
  /\ bucket (databaseAfter noFaults Sample.clk "BCom Section B" Sample.sectionB)
       "BCom Section B" 5
     = [Sample.hari]
  /\ bucket (databaseAfter noFaults Sample.clk "BCom Section B" Sample.sectionB)
       "BCom Section B" 6
     = [].
Proof. vm_compute. auto. Qed.

(** ** The history of a record *)

Lemma promotedStudent_counts_history now batch fromSem toSem s :
  generationCountsHistory s ->
  generationCountsHistory (promotedStudent now batch fromSem toSem s).
Proof.
  unfold generationCountsHistory.
  rewrite promotedStudent_generation, promotedStudent_history.
  rewrite orNum_default_0, orArray_default. intros H.
  cbn [Js.orNum Js.orArray]. rewrite length_app, Nat2Z.inj_add, <- H. cbn [length].
  destruct (Z.eqb_spec (default 0 (Student.migrationGeneration s) + 1) 0); lia.
Qed.

Lemma semesters_Forall (P : Z -> Prop) :
  Forall P semesters <-> forall k, 1 <= k <= 6 -> P k.
Proof.
  unfold semesters. split.
  - intros H k Hk. rewrite Forall_forall in H. apply H, list_elem_of_In.
    simpl. lia.
  - intros H. repeat constructor; apply H; lia.
Qed.

(** C5, as the code has it.  A request that commits keeps the invariant of
    the records: if the generation of every record of the stream counted
    its history before, it does so after; the record built for a promoted
    student has the student's history with one entry appended, nothing
    removed or changed; and it keeps the student's original semester where
    the student had one that is not 0. *)
Theorem history_invariant_preserved plan now stream d :
  In stream validStreams ->
  committed (fst (simplePromotion plan now stream d)) ->
  Forall (fun k => Forall generationCountsHistory (bucket d stream k)) semesters ->
  Forall (fun k => Forall generationCountsHistory
                     (bucket (databaseAfter plan now stream d) stream k))
    semesters
  /\ Forall
       (fun p =>
          Forall
            (fun s =>
               let r := promotedStudent now (promotionBatch stream now)
                          (fromSem p) (toSem p) s in
               In r (bucket (databaseAfter plan now stream d) stream (toSem p))
               /\ Js.orArray (Student.migrationHistory r)
                  = Js.orArray (Student.migrationHistory s)
                      ++ [hopEntry now stream (fromSem p) (toSem p) s]
               /\ forall v,
                    Student.originalSemester s = Some v -> v <> 0 ->
                    Student.originalSemester r = Some v)
            (actives d stream (fromSem p)))
       (promotionPairs stream).
Proof.
  intros Hs Hc Hinv.
  rewrite semesters_Forall in Hinv.
  split.
  - apply semesters_Forall. intros k Hk.
    apply Forall_forall. intros x Hx. apply list_elem_of_In in Hx.
    apply (committed_origin plan now stream d Hs Hc) in Hx as [Hx | (s & Hin & ->)].
    + specialize (Hinv k Hk). rewrite Forall_forall in Hinv.
      by apply Hinv, list_elem_of_In.
    + apply promotedStudent_counts_history.
      destruct (decide (k = 1)) as [-> | Hne].
      { unfold actives in Hin. by rewrite bucket_out_of_range in Hin by lia. }
      specialize (Hinv (k - 1) ltac:(lia)). rewrite Forall_forall in Hinv.
      by apply Hinv, list_elem_of_In, actives_subset.
  - apply Forall_forall. intros p Hp. apply list_elem_of_In in Hp.
    destruct (committed_target plan now stream d Hs Hc _ Hp) as (kept & Hb & _).
    apply Forall_forall. intros s Hin. apply list_elem_of_In in Hin.
    split. { rewrite Hb. apply in_or_app. right. by apply in_map. }
    split.
    { rewrite promotedStudent_history, orArray_default. done. }
    intros v Hv Hne. rewrite promotedStudent_origin, Hv.
    by destruct (Z.eqb_spec v 0).
Qed.

Lemma history_invariant_preserved_witness :
  committed (fst (simplePromotion noFaults Sample.clk "BCA" Sample.bca))
  /\ Forall (fun k => Forall generationCountsHistory (bucket Sample.bca "BCA" k))
       semesters
  /\ Forall (fun k => Forall generationCountsHistory
                        (bucket (databaseAfter noFaults Sample.clk "BCA" Sample.bca)
                           "BCA" k))
       semesters.
Proof.
  assert (H1 : In "BCA" validStreams) by (simpl; auto).
  assert (H2 : committed (fst (simplePromotion noFaults Sample.clk "BCA" Sample.bca)))
    by (vm_compute; exact I).
  assert (H3 : Forall (fun k => Forall generationCountsHistory
                                  (bucket Sample.bca "BCA" k)) semesters)
    by (unfold semesters;
        repeat (constructor; [vm_compute; repeat constructor |]); constructor).
  split; [exact H2 |]. split; [exact H3 |].
  exact (proj1 (history_invariant_preserved noFaults Sample.clk "BCA" Sample.bca
                  H1 H2 H3)).
Defined.

(** C5, as worded: the original semester would never change once set.
    Priya's is stored as 0, which the handler takes for a missing one: the
    record built for her in semester 4 has the original semester 3. *)
Lemma original_semester_zero_is_replaced :
  committed (fst (simplePromotion noFaults Sample.clk "BCA" Sample.bcaFromZero))
  /\ actives Sample.bcaFromZero "BCA" 3 = [Sample.priya]
  /\ Student.originalSemester Sample.priya = Some 0
  /\ map (fun r => (Student.studentID r, Student.semester r,
                    Student.originalSemester r))
       (bucket (databaseAfter noFaults Sample.clk "BCA" Sample.bcaFromZero)
          "BCA" 4)
     = [("BCA009", 4, Some 3)].
Proof. vm_compute. auto. Qed.

(** ** Counting the records *)






Section Counting.

Variable plan : faultPlan.
Variable now : clock.
Variable stream : string.
Hypothesis stream_valid : In stream validStreams.

Let graduated (d : database) := afterGraduation plan d stream.



End Counting.



(** *** Records with one ID *)






Section Occurrences.

Variable plan : faultPlan.
Variable now : clock.
Variable stream : string.
Hypothesis stream_valid : In stream validStreams.

Let graduated (d : database) := afterGraduation plan d stream.




End Occurrences.




(** * Further properties *)

(** ** Strings *)

Lemma append_cons c r t : String c r +:+ t = String c (r +:+ t).
Proof. reflexivity. Qed.

Lemma append_nil t : "" +:+ t = t.
Proof. reflexivity. Qed.

Lemma keep_all p s : Text.all p s = true -> Text.keep p s = s.
Proof.
  induction s as [| c r IH]; [done |]. cbn.
  destruct (p c); [| done]. cbn. intros H. by rewrite IH.
Qed.

Lemma all_keep p s : Text.all p (Text.keep p s) = true.
Proof.
  induction s as [| c r IH]; [done |]. cbn.
  destruct (p c) eqn:E; [| done]. cbn. by rewrite E.
Qed.

Lemma all_append p s t :
  Text.all p (s +:+ t) = Text.all p s && Text.all p t.
Proof.
  induction s as [| c r IH]; [done |].
  rewrite append_cons. cbn. rewrite IH. by destruct (p c).
Qed.

Lemma length_append s t :
  String.length (s +:+ t) = (String.length s + String.length t)%nat.
Proof.
  induction s as [| c r IH]; [done |]. rewrite append_cons. cbn. by rewrite IH.
Qed.

Lemma prefix_append_drop p s :
  String.prefix p s = true -> s = p +:+ Text.dropChars (String.length p) s.
Proof.
  revert s. induction p as [| c r IH]; intros s; [by destruct s |].
  destruct s as [| d t]; [done |]. cbn.
  destruct (ascii_dec c d) as [-> | ne]; [| done].
  intros H. rewrite append_cons. f_equal. by apply IH.
Qed.

Lemma all_dropChars p n s :
  Text.all p s = true -> Text.all p (Text.dropChars n s) = true.
Proof.
  revert s. induction n as [| n IH]; intros s; [done |].
  destruct s as [| c r]; [done |]. cbn.
  intros [_ H]%andb_prop. by apply IH.
Qed.

Lemma length_dropChars n s :
  String.length (Text.dropChars n s) = (String.length s - n)%nat.
Proof.
  revert s. induction n as [| n IH]; intros s; [cbn; lia |].
  destruct s as [| c r]; [done |]. cbn. apply IH.
Qed.

(** ** Parent phone numbers *)

Lemma is6to9_isDigit c : Phone.is6to9 c = true -> Text.isDigit c = true.
Proof.
  unfold Phone.is6to9, Text.isDigit.
  intros [H1 H2]%andb_prop. apply andb_true_intro. split; [| done].
  apply N.leb_le. apply N.leb_le in H1. lia.
Qed.

Lemma isDigit_not_separator c :
  Text.isDigit c = true -> Phone.isSeparator c = false.
Proof.
  destruct c as [[] [] [] [] [] [] [] []]; vm_compute; congruence.
Qed.

Lemma cleaned_digits s : Text.all Text.isDigit s = true -> Phone.cleaned s = s.
Proof.
  intros H. apply keep_all. induction s as [| c r IH]; [done |].
  cbn in *. apply andb_prop in H as [H1 H2].
  rewrite (isDigit_not_separator c H1). cbn. by apply IH.
Qed.

Lemma isMobile_spec m :
  Phone.isMobile m = true ->
  String.length m = 10%nat /\ Text.firstIs Phone.is6to9 m = true
  /\ Text.all Text.isDigit m = true.
Proof.
  unfold Phone.isMobile.
  intros [[H1 H2]%andb_prop H3]%andb_prop. by apply Nat.eqb_eq in H1.
Qed.

(** The two shapes of a number the validator accepts. *)
Lemma isIndianNumber_cases c :
  Phone.isIndianNumber c = true ->
  Phone.isMobile c = true
  \/ exists m, c = "91" +:+ m /\ Phone.isMobile m = true.
Proof.
  unfold Phone.isIndianNumber. intros [H | [H1 H2]%andb_prop]%orb_prop; [by left |].
  right. exists (Text.dropChars 2 c). split; [| done].
  by apply (prefix_append_drop "91").
Qed.

Lemma formatPhoneNumber_mobile m :
  Phone.isMobile m = true ->
  Phone.formatPhoneNumber (Some m) = Some ("91" +:+ m).
Proof.
  intros (L & F & D)%isMobile_spec.
  unfold Phone.formatPhoneNumber, Text.truthy. cbn [default from_option id].
  destruct (String.eqb_spec m "") as [-> | _]; [done |]. cbn [negb].
  rewrite (keep_all _ _ D), L, F. cbn [Nat.eqb andb].
  by rewrite andb_false_r.
Qed.

Lemma formatPhoneNumber_with_code m :
  Phone.isMobile m = true ->
  Phone.formatPhoneNumber (Some ("91" +:+ m)) = Some ("91" +:+ m).
Proof.
  intros (L & F & D)%isMobile_spec.
  unfold Phone.formatPhoneNumber, Text.truthy. cbn [default from_option id].
  rewrite keep_all by (by rewrite all_append, D).
  rewrite length_append, L.
  change ("91" +:+ m) with (String "9" (String "1" m)). cbn.
  by destruct (String.prefix "" m).
Qed.

Lemma cleaned_idempotent v : Phone.cleaned (Phone.cleaned v) = Phone.cleaned v.
Proof. apply keep_all, all_keep. Qed.

Lemma cleaned_with_code c :
  Phone.cleaned c = c -> Phone.cleaned ("91" +:+ c) = "91" +:+ c.
Proof.
  intros H. change ("91" +:+ c) with (String "9" (String "1" c)).
  unfold Phone.cleaned in *. cbn. by rewrite H.
Qed.

Lemma prefix_with_code c : String.prefix "91" ("91" +:+ c) = true.
Proof.
  change ("91" +:+ c) with (String "9" (String "1" c)). cbn. by destruct c.
Qed.

(** X1: the setter of [parentPhone] is idempotent, and a value passes the
    validator after the setter exactly when it passes it before: it does
    not matter that the schema validates the value the setter returned. *)
Theorem setter_is_stable v :
  Phone.setter (Phone.setter v) = Phone.setter v
  /\ Phone.validator (Phone.setter v) = Phone.validator v.
Proof.
  unfold Phone.setter, Phone.validator.
  pose proof (cleaned_idempotent v) as I.
  set (c := Phone.cleaned v) in *.
  destruct ((String.length c =? 10)%nat && negb (String.prefix "91" c)) eqn:E.
  - apply andb_prop in E as [L P]. apply Nat.eqb_eq in L.
    apply negb_true_iff in P.
    rewrite (cleaned_with_code c I), length_append, L. cbn [andb Nat.eqb String.length Nat.add].
    split; [done |].
    unfold Phone.isIndianNumber. rewrite P, prefix_with_code.
    change (Text.dropChars 2 ("91" +:+ c)) with c.
    unfold Phone.isMobile at 1. rewrite length_append, L. cbn [andb Nat.eqb String.length Nat.add orb].
    by rewrite orb_false_r.
  - by rewrite I, E.
Qed.

(** X2: a value the validator accepts is sent to its ten-digit mobile
    number with the country code in front, whatever the setter stored: the
    twelve digits as they are, and the ten digits the setter left alone
    because they start with 91 with the code added by
    [formatPhoneNumber]. *)
Theorem accepted_phone_is_sent_with_country_code v :
  Phone.validator v = true ->
  exists m,
    Phone.isMobile m = true
    /\ (Phone.cleaned v = m \/ Phone.cleaned v = "91" +:+ m)
    /\ Phone.formatPhoneNumber (Some (Phone.setter v)) = Some ("91" +:+ m).
Proof.
  unfold Phone.validator, Phone.setter. set (c := Phone.cleaned v).
  intros [M | (m & -> & M)]%isIndianNumber_cases.
  - exists c. split; [done |]. split; [by left |].
    destruct (isMobile_spec c M) as (L & _ & _). rewrite L. cbn [Nat.eqb andb].
    destruct (String.prefix "91" c); cbn [negb].
    + by apply formatPhoneNumber_mobile.
    + by apply formatPhoneNumber_with_code.
  - exists m. split; [done |]. split; [by right |].
    destruct (isMobile_spec m M) as (L & _ & _).
    rewrite length_append, L. cbn [andb Nat.eqb String.length Nat.add].
    by apply formatPhoneNumber_with_code.
Qed.

Lemma accepted_phone_is_sent_with_country_code_witness :
  Phone.validator "+91 98765-43210" = true
  /\ exists m,
    Phone.isMobile m = true
    /\ (Phone.cleaned "+91 98765-43210" = m
        \/ Phone.cleaned "+91 98765-43210" = "91" +:+ m)
    /\ Phone.formatPhoneNumber (Some (Phone.setter "+91 98765-43210"))
       = Some ("91" +:+ m).
Proof.
  assert (H : Phone.validator "+91 98765-43210" = true) by reflexivity.
  exact (conj H (accepted_phone_is_sent_with_country_code _ H)).
Defined.

(** X3: the stored value of an accepted number has twelve digits, except
    for a ten-digit number that starts with 91, which the setter stores as
    it is, with ten digits. *)
Theorem stored_phone_length v :
  Phone.validator v = true ->
  String.length (Phone.setter v)
  = if Phone.isMobile (Phone.cleaned v) && String.prefix "91" (Phone.cleaned v)
    then 10%nat else 12%nat.
Proof.
  unfold Phone.validator, Phone.setter. set (c := Phone.cleaned v).
  intros [M | (m & E & M)]%isIndianNumber_cases.
  - destruct (isMobile_spec c M) as (L & _ & _). rewrite M, L.
    cbn [Nat.eqb andb].
    destruct (String.prefix "91" c); cbn [negb]; [done |].
    by rewrite length_append, L.
  - destruct (isMobile_spec m M) as (L & _ & _).
    assert (L12 : String.length c = 12%nat) by (by rewrite E, length_append, L).
    unfold Phone.isMobile. by rewrite L12.
Qed.

Lemma stored_phone_length_witness :
  Phone.validator "91987 65432" = true
  /\ String.length (Phone.setter "91987 65432") = 10%nat.
Proof.
  assert (H : Phone.validator "91987 65432" = true) by reflexivity.
  exact (conj H (stored_phone_length _ H)).
Defined.

Lemma prefix_head a p b s :
  String.prefix (String a p) (String b s) = true -> a = b.
Proof. cbn. by destruct (ascii_dec a b). Qed.

(** The branch of [formatPhoneNumber] for a leading [+] is never taken:
    the plus sign was removed with the other characters that are no
    digit. *)
Lemma plus_prefix_dead c :
  Text.all Text.isDigit c = true -> String.prefix "+91" c = false.
Proof.
  destruct c as [| a r]; [done |]. intros D.
  destruct (String.prefix "+91" (String a r)) eqn:P; [| done].
  apply prefix_head in P as <-. cbn in D. by apply andb_prop in D as [D _].
Qed.

Lemma keep_nonempty_input p s : Text.keep p s <> "" -> s <> "".
Proof. by destruct s. Qed.

Lemma formatPhoneNumber_cases phone q :
  Phone.formatPhoneNumber phone = Some q ->
  let c := Text.keep Text.isDigit (default "" phone) in
  (q = c
   /\ (String.prefix "91" c && (String.length c =? 12)%nat = true
       \/ ((String.length c =? 10)%nat && Text.firstIs Phone.is6to9 c = false
           /\ String.prefix "0" c && (String.length c =? 11)%nat = false)))
  \/ (q = "91" +:+ c /\ String.length c = 10%nat)
  \/ (q = "91" +:+ Text.dropChars 1 c /\ String.length c = 11%nat).
Proof.
  unfold Phone.formatPhoneNumber.
  destruct (Text.truthy phone); [| done]. cbn [negb].
  set (c := Text.keep Text.isDigit (default "" phone)). cbn zeta.
  assert (D : Text.all Text.isDigit c = true) by apply all_keep.
  destruct (String.prefix "91" c && (String.length c =? 12)%nat);
    [intros [= <-]; auto |].
  destruct ((String.length c =? 10)%nat && Text.firstIs Phone.is6to9 c) eqn:E2.
  { apply andb_prop in E2 as [L%Nat.eqb_eq _]. intros [= <-]; auto. }
  destruct (String.prefix "0" c && (String.length c =? 11)%nat) eqn:E3.
  { apply andb_prop in E3 as [_ L%Nat.eqb_eq]. intros [= <-]; auto. }
  rewrite (plus_prefix_dead c D). intros [= <-]; auto.
Qed.

Lemma formatPhoneNumber_with_code_12 c :
  Text.all Text.isDigit c = true -> String.length c = 10%nat ->
  Phone.formatPhoneNumber (Some ("91" +:+ c)) = Some ("91" +:+ c).
Proof.
  intros D L. unfold Phone.formatPhoneNumber, Text.truthy. cbn [default from_option id].
  rewrite keep_all by (by rewrite all_append, D).
  by rewrite prefix_with_code, length_append, L.
Qed.

Lemma formatPhoneNumber_digits phone q :
  Phone.formatPhoneNumber phone = Some q ->
  Text.all Text.isDigit q = true
  /\ (q = "" <-> Text.keep Text.isDigit (default "" phone) = "").
Proof.
  intros H. pose proof (formatPhoneNumber_cases phone q H) as C.
  cbn zeta in C. set (c := Text.keep Text.isDigit (default "" phone)) in *.
  assert (D : Text.all Text.isDigit c = true) by apply all_keep.
  destruct C as [[-> C] | [[-> L] | [-> L]]].
  - done.
  - split; [by rewrite all_append, D |].
    split; [done |]. intros E. by rewrite E in L.
  - split; [by rewrite all_append, all_dropChars |].
    split; [done |]. intros E. by rewrite E in L.
Qed.

(** X4: what [formatPhoneNumber] returns holds digits only, it is empty
    only when the phone has no digit, and formatting it again changes
    nothing. *)
Theorem formatPhoneNumber_normal_form phone q :
  Phone.formatPhoneNumber phone = Some q ->
  Text.all Text.isDigit q = true
  /\ (q = "" <-> Text.keep Text.isDigit (default "" phone) = "")
  /\ (q <> "" -> Phone.formatPhoneNumber (Some q) = Some q).
Proof.
  intros H. destruct (formatPhoneNumber_digits phone q H) as [Dq Eq].
  split; [done |]. split; [done |]. intros ne.
  pose proof (formatPhoneNumber_cases phone q H) as C.
  cbn zeta in C. set (c := Text.keep Text.isDigit (default "" phone)) in *.
  assert (D : Text.all Text.isDigit c = true) by apply all_keep.
  destruct C as [[-> C] | [[-> L] | [-> L]]].
  - unfold Phone.formatPhoneNumber, Text.truthy. cbn [default from_option id].
    destruct (String.eqb_spec c "") as [E | _]; [done |]. cbn [negb].
    rewrite (keep_all _ _ D).
    destruct C as [-> | [-> ->]]; [done |].
    destruct (String.prefix "91" c && (String.length c =? 12)%nat); [done |].
    by rewrite (plus_prefix_dead c D).
  - by apply formatPhoneNumber_with_code_12.
  - apply formatPhoneNumber_with_code_12; [by apply all_dropChars |].
    rewrite length_dropChars, L. reflexivity.
Qed.

Lemma formatPhoneNumber_normal_form_witness :
  Phone.formatPhoneNumber (Some "098765 43210") = Some "919876543210"
  /\ Text.all Text.isDigit "919876543210" = true
  /\ ("919876543210" = ""
      <-> Text.keep Text.isDigit (default "" (Some "098765 43210")) = "")
  /\ ("919876543210" <> "" ->
      Phone.formatPhoneNumber (Some "919876543210") = Some "919876543210").
Proof.
  assert (H : Phone.formatPhoneNumber (Some "098765 43210")
              = Some "919876543210") by reflexivity.
  exact (conj H (formatPhoneNumber_normal_form _ _ H)).
Defined.

(** X5: [sendTextMessage] makes no request when the phone is missing or
    has no digit, and otherwise exactly one, whose recipient is what
    [formatPhoneNumber] returns: a phone that is no Indian number is not
    turned down. *)
Theorem sendTextMessage_requests api sent phone message :
  let digits := Text.keep Text.isDigit (default "" phone) in
  let '(result, sent') := Phone.sendTextMessage api sent phone message in
  if String.eqb digits ""
  then sent' = sent /\ Phone.success result = false
       /\ Phone.error result = Some "Invalid phone number format"
  else exists recipient,
         Phone.formatPhoneNumber phone = Some recipient
         /\ recipient <> ""
         /\ Text.all Text.isDigit recipient = true
         /\ sent' = sent ++ [(recipient, message)]
         /\ Phone.recipientPhone result = Some recipient.
Proof.
  cbn zeta. unfold Phone.sendTextMessage.
  destruct (Phone.formatPhoneNumber phone) as [q |] eqn:F.
  - destruct (formatPhoneNumber_digits phone q F) as (D & E).
    unfold Text.truthy.
    destruct (String.eqb_spec q "") as [-> | ne]; cbn [negb].
    + rewrite (proj1 E eq_refl). cbn. done.
    + destruct (String.eqb_spec (Text.keep Text.isDigit (default "" phone)) "")
        as [E' | _]; [by apply E in E' |].
      exists q. cbn [default from_option id].
      by destruct (api sent (q, message)) as [? ? | ? [[? ?] |]].
  - cbn.
    assert (E : Text.keep Text.isDigit (default "" phone) = "").
    { revert F. unfold Phone.formatPhoneNumber, Text.truthy.
      destruct phone as [p |]; [| done]. cbn [default from_option id].
      destruct (String.eqb_spec p "") as [-> | _]; [done |]. cbn [negb].
      repeat match goal with |- context [if ?b then _ else _] => destruct b end;
        done. }
    by rewrite E.
Qed.

(** ** Absences of a day *)

Lemma partition_length {A} (p q : A -> bool) (l : list A) :
  (length (List.filter (fun x => p x && negb (q x)) l)
   + length (List.filter (fun x => p x && q x) l)
   = length (List.filter p l))%nat.
Proof.
  induction l as [| x l IH]; [done |]. cbn.
  destruct (p x), (q x); cbn; lia.
Qed.

Lemma filter_nil_existsb {A} (p : A -> bool) (l : list A) :
  (0 <? Z.of_nat (length (List.filter p l))) = existsb p l.
Proof.
  induction l as [| x l IH]; [done |]. cbn.
  destruct (p x); cbn; [| done]. apply Z.ltb_lt. lia.
Qed.

Section Tally.

Variable attendanceMap : gmap string (gset string).
Variable student : Student.t.

Let missed := Day.missedRecords attendanceMap student.
Let attended := Day.attendedRecords attendanceMap student.
Let applicable := Day.applicableRecords student.

(** The counters of a student after the loop over the records. *)
Lemma countRecord_fold records t P :
  (foldl (Absence.countRecord attendanceMap student) (t, P) records).1
  = Absence.mkTally
      (Absence.absentSubjects t ++ map Attendance.subject (missed records))
      (Absence.presentSubjectCount t + Z.of_nat (length (attended records)))
      (Absence.applicableSubjectCount t + Z.of_nat (length (applicable records))).
Proof.
  revert t P. induction records as [| r l IH]; intros t P.
  - cbn. destruct t. cbn. rewrite app_nil_r. f_equal; lia.
  - cbn [foldl]. unfold Absence.countRecord at 2.
    unfold missed, attended, applicable, Day.missedRecords,
      Day.attendedRecords, Day.applicableRecords, Day.isPresent in *.
    cbn [List.filter].
    destruct (Absence.shouldAttend student r); cbn [andb negb]; [| apply IH].
    destruct (Absence.has attendanceMap (Attendance.subject r)
                (Student.studentID student)); cbn [negb];
      rewrite IH; cbn [Absence.absentSubjects Absence.presentSubjectCount
                          Absence.applicableSubjectCount map length].
    + f_equal; lia.
    + rewrite <- app_assoc. cbn [app]. f_equal; lia.
Qed.

Lemma listRecord_fold records acc :
  foldl (Absence.listRecord attendanceMap student) acc records
  = Absence.mkLists
      (Absence.absent acc ++ map Attendance.subject (missed records))
      (Absence.attended acc ++ map Attendance.subject (attended records))
      (Absence.applicable acc + Z.of_nat (length (applicable records))).
Proof.
  revert acc. induction records as [| r l IH]; intros acc.
  - cbn. destruct acc. cbn. rewrite !app_nil_r. f_equal; lia.
  - cbn [foldl]. unfold Absence.listRecord at 2.
    unfold missed, attended, applicable, Day.missedRecords,
      Day.attendedRecords, Day.applicableRecords, Day.isPresent in *.
    cbn [List.filter].
    destruct (Absence.shouldAttend student r); cbn [andb negb]; [| apply IH].
    destruct (Absence.has attendanceMap (Attendance.subject r)
                (Student.studentID student)); cbn [negb];
      rewrite IH; cbn [Absence.absent Absence.attended Absence.applicable
                          map length];
      rewrite <- ?app_assoc; cbn [app]; f_equal; lia.
Qed.

Lemma missed_attended_applicable records :
  Z.of_nat (length (missed records)) + Z.of_nat (length (attended records))
  = Z.of_nat (length (applicable records)).
Proof.
  unfold missed, attended, applicable, Day.missedRecords,
    Day.attendedRecords, Day.applicableRecords.
  pose proof (partition_length (Absence.shouldAttend student)
                (Day.isPresent attendanceMap student) records). lia.
Qed.

End Tally.

Section Notify.

Variable records : list Attendance.t.
Variable attendanceMap : gmap string (gset string).

Lemma countStudent_step acc student :
  (Absence.countStudent attendanceMap records acc student).1
  = acc.1 ++
    (if Day.isNotified attendanceMap student records
     then [Day.notificationOf attendanceMap student records] else []).
Proof.
  destruct acc as [N P]. unfold Absence.countStudent.
  pose proof (countRecord_fold attendanceMap student records
                (Absence.mkTally [] 0 0) P) as F.
  destruct (foldl _ _ records) as [t P'].
  cbn [fst Absence.absentSubjects Absence.presentSubjectCount
         Absence.applicableSubjectCount app] in F. subst t.
  cbn [Absence.absentSubjects Absence.presentSubjectCount
         Absence.applicableSubjectCount].
  pose proof (missed_attended_applicable attendanceMap student records) as L.
  rewrite !Z.add_0_l, length_map.
  unfold Day.isNotified.
  rewrite <- (filter_nil_existsb _ records).
  fold (Day.missedRecords attendanceMap student records).
  destruct (Text.truthy (Student.parentPhone student)); cbn [andb];
    [| by rewrite andb_false_r, app_nil_r].
  rewrite andb_true_r.
  destruct (Z.ltb_spec 0 (Z.of_nat (length (Day.missedRecords attendanceMap
                                              student records)))) as [lt | ge];
    cbn [andb fst]; [| by rewrite app_nil_r].
  destruct (Z.ltb_spec 0 (Z.of_nat (length (Day.applicableRecords student
                                              records)))) as [_ | ge]; [| lia].
  cbn [fst]. unfold Day.notificationOf. by rewrite length_map.
Qed.

Lemma countStudent_fold students acc :
  (foldl (Absence.countStudent attendanceMap records) acc students).1
  = acc.1 ++
    map (fun s => Day.notificationOf attendanceMap s records)
      (List.filter (fun s => Day.isNotified attendanceMap s records) students).
Proof.
  revert acc. induction students as [| s l IH]; intros acc.
  - cbn. by rewrite app_nil_r.
  - cbn [foldl List.filter]. rewrite IH, countStudent_step.
    destruct (Day.isNotified attendanceMap s records); cbn [map].
    + by rewrite <- app_assoc.
    + by rewrite app_nil_r.
Qed.

End Notify.

(** The notifications in closed form. *)
Lemma studentsToNotify_closed allStudents allAttendanceRecords :
  let records := Day.subjectsWithAttendance allAttendanceRecords in
  let m := Absence.attendanceMap records in
  Absence.studentsToNotify allStudents allAttendanceRecords
  = map (fun s => Day.notificationOf m s records)
      (List.filter (fun s => Day.isNotified m s records) allStudents).
Proof.
  cbn zeta. unfold Absence.studentsToNotify, Absence.absences.
  fold (Day.subjectsWithAttendance allAttendanceRecords).
  by rewrite countStudent_fold.
Qed.

(** *** The map of the present students *)

Lemma attendanceMap_keeps (m : gmap string (gset string)) records key :
  Forall (fun r => Attendance.subject r <> key) records ->
  foldl (fun m record =>
           <[Attendance.subject record :=
               list_to_set (Attendance.studentsPresent record)]> m)
        m records !! key
  = m !! key.
Proof.
  revert m. induction records as [| r l IH]; intros m H; [done |].
  inversion H as [| ? ? ne Hl]; subst. cbn [foldl].
  rewrite (IH _ Hl). by apply lookup_insert_ne.
Qed.

Lemma attendanceMap_last before record after :
  Forall (fun r => Attendance.subject r <> Attendance.subject record) after ->
  Absence.attendanceMap (before ++ record :: after)
    !! Attendance.subject record
  = Some (list_to_set (Attendance.studentsPresent record)).
Proof.
  intros H. unfold Absence.attendanceMap. rewrite foldl_app. cbn [foldl].
  rewrite (attendanceMap_keeps _ after _ H). apply lookup_insert_eq.
Qed.

Lemma has_last before record after studentID :
  Forall (fun r => Attendance.subject r <> Attendance.subject record) after ->
  Absence.has (Absence.attendanceMap (before ++ record :: after))
    (Attendance.subject record) studentID
  = bool_decide (studentID ∈ Attendance.studentsPresent record).
Proof.
  intros H. unfold Absence.has. rewrite (attendanceMap_last _ _ _ H).
  apply bool_decide_ext. apply elem_of_list_to_set.
Qed.

Lemma has_distinct records record studentID :
  NoDup (map Attendance.subject records) ->
  In record records ->
  Absence.has (Absence.attendanceMap records)
    (Attendance.subject record) studentID
  = bool_decide (studentID ∈ Attendance.studentsPresent record).
Proof.
  intros D [before [after ->]]%in_split.
  apply has_last. rewrite map_app in D. cbn [map] in D.
  apply NoDup_app in D as (_ & _ & D). apply NoDup_cons in D as [D _].
  apply Forall_forall. intros r Hr E. apply D. rewrite <- E.
  apply list_elem_of_In, in_map. by apply list_elem_of_In.
Qed.

(** X6: when several records of a day carry the same subject name, the
    present list of the last of them decides for all of them: a student
    the earlier record lists as present counts as absent there when the
    last record does not list them. *)
Theorem last_record_of_a_subject_decides before record after student earlier :
  Forall (fun r => Attendance.subject r <> Attendance.subject record) after ->
  Attendance.subject earlier = Attendance.subject record ->
  Absence.attendanceMap (before ++ record :: after)
    !! Attendance.subject earlier
  = Some (list_to_set (Attendance.studentsPresent record))
  /\ Day.isPresent (Absence.attendanceMap (before ++ record :: after)) student
       earlier
     = bool_decide
         (Student.studentID student ∈ Attendance.studentsPresent record).
Proof.
  intros H E. unfold Day.isPresent. rewrite E. split.
  - by apply attendanceMap_last.
  - by apply has_last.
Qed.

Lemma last_record_of_a_subject_decides_witness :
  let first := Attendance.mk "Maths" ["BCA101"] true false None in
  let second := Attendance.mk "Maths" [] true false None in
  Day.isPresent (Absence.attendanceMap ([first] ++ second :: []))
    Classroom.jaya first
  = false.
Proof.
  cbn zeta.
  set (first := Attendance.mk "Maths" ["BCA101"] true false None).
  set (second := Attendance.mk "Maths" [] true false None).
  assert (H1 : Forall (fun r => Attendance.subject r <> Attendance.subject second)
                 []) by constructor.
  assert (H2 : Attendance.subject first = Attendance.subject second)
    by reflexivity.
  exact (proj2 (last_record_of_a_subject_decides [first] second []
                  Classroom.jaya first H1 H2)).
Defined.

Lemma existsb_ext_in {A} (p q : A -> bool) (l : list A) :
  (forall x, In x l -> p x = q x) -> existsb p l = existsb q l.
Proof.
  induction l as [| x l IH]; intros H; [done |]. cbn.
  rewrite (H x) by (by left). rewrite IH; [done |].
  intros y Hy. apply H. by right.
Qed.

(** X7: with distinct subject names, the students the route notifies are,
    in the order of the roster, those with a parent phone who are missing
    from the present list of a record they should attend; nobody else
    gets a message, and nobody gets two. *)
Theorem notified_students allStudents allAttendanceRecords :
  let records := Day.subjectsWithAttendance allAttendanceRecords in
  NoDup (map Attendance.subject records) ->
  map Absence.student
    (Absence.studentsToNotify allStudents allAttendanceRecords)
  = List.filter
      (fun s =>
         Text.truthy (Student.parentPhone s)
         && existsb
              (fun r =>
                 Absence.shouldAttend s r
                 && negb (bool_decide
                            (Student.studentID s ∈ Attendance.studentsPresent r)))
              records)
      allStudents.
Proof.
  cbn zeta. intros D. rewrite studentsToNotify_closed. cbn zeta.
  rewrite map_map. cbn [Day.notificationOf Absence.student]. rewrite map_id.
  apply List.filter_ext. intros s. unfold Day.isNotified. f_equal.
  apply existsb_ext_in. intros r Hr. unfold Day.isPresent.
  by rewrite (has_distinct _ _ _ D Hr).
Qed.

Lemma notified_students_witness :
  NoDup (map Attendance.subject (Day.subjectsWithAttendance Classroom.records))
  /\ map Absence.student
       (Absence.studentsToNotify Classroom.students Classroom.records)
     = [Classroom.kiran; Classroom.lata; Classroom.nisha].
Proof.
  assert (D : NoDup (map Attendance.subject
                       (Day.subjectsWithAttendance Classroom.records)))
    by (by apply (bool_decide_unpack _)).
  exact (conj D (notified_students Classroom.students Classroom.records D)).
Defined.

(** X8: the numbers of a notification add up: the subjects missed and the
    subjects attended are the subjects the student should attend among
    those with attendance, at least one subject was missed, the student
    is on the roster and has a phone, and the day counts as a full day of
    absence exactly when no subject was attended. *)
Theorem notification_counts allStudents allAttendanceRecords n :
  In n (Absence.studentsToNotify allStudents allAttendanceRecords) ->
  In (Absence.student n) allStudents
  /\ Text.truthy (Student.parentPhone (Absence.student n)) = true
  /\ Absence.notifiedSubjects n <> []
  /\ 0 <= Absence.presentSubjects n
  /\ Z.of_nat (length (Absence.notifiedSubjects n)) + Absence.presentSubjects n
     = Absence.applicableSubjects n
  /\ Absence.applicableSubjects n
     <= Z.of_nat (length (Day.subjectsWithAttendance allAttendanceRecords))
  /\ (Absence.isFullDayAbsent n = true <-> Absence.presentSubjects n = 0)
  /\ Absence.notificationType n
     = (if Absence.presentSubjects n =? 0
        then Absence.full_day else Absence.partial_day).
Proof.
  rewrite studentsToNotify_closed. cbn zeta.
  set (records := Day.subjectsWithAttendance allAttendanceRecords).
  set (m := Absence.attendanceMap records).
  intros (s & <- & [Hs N]%filter_In)%in_map_iff.
  unfold Day.isNotified in N. apply andb_prop in N as [P E].
  pose proof (missed_attended_applicable m s records) as L.
  pose proof (List.filter_length_le (Absence.shouldAttend s) records) as B.
  fold (Day.applicableRecords s records) in B.
  rewrite <- filter_nil_existsb in E.
  fold (Day.missedRecords m s records) in E. apply Z.ltb_lt in E.
  cbn [Day.notificationOf Absence.student Absence.notifiedSubjects
         Absence.presentSubjects Absence.applicableSubjects
         Absence.isFullDayAbsent Absence.notificationType].
  rewrite length_map.
  split; [done |]. split; [done |]. split.
  { destruct (Day.missedRecords m s records); [cbn in E; lia | done]. }
  split; [lia |]. split; [lia |]. split; [lia |].
  split.
  - rewrite Z.eqb_eq. lia.
  - destruct (Z.eqb_spec (Z.of_nat (length (Day.missedRecords m s records)))
                (Z.of_nat (length (Day.applicableRecords s records))));
      destruct (Z.eqb_spec (Z.of_nat (length (Day.attendedRecords m s records))) 0);
      first [reflexivity | lia].
Qed.

Lemma notification_counts_witness :
  let n :=
    Absence.mkNotification Classroom.nisha ["Maths"; "Kannada"] 0 2 true
      Absence.full_day in
  In n (Absence.studentsToNotify Classroom.students Classroom.records)
  /\ Z.of_nat (length (Absence.notifiedSubjects n)) + Absence.presentSubjects n
     = Absence.applicableSubjects n.
Proof.
  cbn zeta.
  set (n := Absence.mkNotification Classroom.nisha ["Maths"; "Kannada"] 0 2
              true Absence.full_day).
  assert (H : In n (Absence.studentsToNotify Classroom.students
                      Classroom.records))
    by (vm_compute; auto).
  exact (conj H (proj1 (proj2 (proj2 (proj2 (proj2
           (notification_counts Classroom.students Classroom.records n H))))))).
Defined.

(** *** The batches *)

Lemma batchesFrom_concat {A} (l : list A) turns i :
  (length l - i <= turns)%nat ->
  concat (Absence.batchesFrom turns i l) = drop i l.
Proof.
  unfold Absence.BATCH_SIZE.
  revert i. induction turns as [| turns IH]; intros i H.
  - cbn. rewrite drop_ge; [done | lia].
  - cbn [Absence.batchesFrom].
    destruct (Nat.ltb_spec i (length l)) as [lt | ge].
    + cbn [concat]. unfold Absence.BATCH_SIZE. rewrite IH by lia.
      unfold Absence.slice.
      replace (i + 3 - i)%nat with 3%nat by lia.
      rewrite <- (take_drop 3 (drop i l)) at 2.
      by rewrite drop_drop.
    + cbn. rewrite drop_ge; [done | lia].
Qed.

Lemma batchesFrom_lookup {A} (l : list A) turns i k :
  (length l - i <= turns)%nat ->
  Absence.batchesFrom turns i l !! k
  = if (i + Absence.BATCH_SIZE * k <? length l)%nat
    then Some (take Absence.BATCH_SIZE (drop (i + Absence.BATCH_SIZE * k) l))
    else None.
Proof.
  unfold Absence.BATCH_SIZE.
  revert i k. induction turns as [| turns IH]; intros i k H.
  - cbn [Absence.batchesFrom].
    destruct (Nat.ltb_spec (i + 3 * k) (length l)); [lia | done].
  - cbn [Absence.batchesFrom].
    destruct (Nat.ltb_spec i (length l)) as [lt | ge].
    + destruct k as [| k].
      * cbn [lookup list_lookup]. rewrite Nat.mul_0_r, Nat.add_0_r.
        destruct (Nat.ltb_spec i (length l)); [| lia].
        unfold Absence.slice, Absence.BATCH_SIZE. do 2 f_equal. lia.
      * cbn [lookup list_lookup]. unfold Absence.BATCH_SIZE.
        rewrite IH by lia.
        replace (i + 3 + 3 * k)%nat with (i + 3 * S k)%nat by lia.
        done.
    + destruct (Nat.ltb_spec (i + 3 * k) (length l)); [lia |].
      done.
Qed.

Lemma batches_partition_aux {A} (l : list A) :
  concat (Absence.batches l) = l
  /\ forall k,
      Absence.batches l !! k
      = if (Absence.BATCH_SIZE * k <? length l)%nat
        then Some (take Absence.BATCH_SIZE (drop (Absence.BATCH_SIZE * k) l))
        else None.
Proof.
  unfold Absence.batches. split.
  - rewrite batchesFrom_concat by lia. done.
  - intros k. rewrite batchesFrom_lookup by lia. done.
Qed.

(** X9: the batches hold the notifications once each and in order; a batch
    is never empty and never larger than [BATCH_SIZE], and every batch
    before the last is full.  The loop needs no more turns than there are
    notifications. *)
Theorem batches_partition {A} (l : list A) :
  concat (Absence.batches l) = l
  /\ (forall k b,
        Absence.batches l !! k = Some b ->
        (1 <= length b <= Absence.BATCH_SIZE)%nat
        /\ b = Absence.slice (Absence.BATCH_SIZE * k)
                 (Absence.BATCH_SIZE * k + Absence.BATCH_SIZE) l
        /\ (S k < length (Absence.batches l) ->
            length b = Absence.BATCH_SIZE)%nat).
Proof.
  destruct (batches_partition_aux l) as [C L]. split; [done |].
  intros k b. rewrite L.
  destruct (Nat.ltb_spec (Absence.BATCH_SIZE * k) (length l)) as [lt | ge];
    [| done].
  intros [= <-]. split; [| split].
  - rewrite length_take, length_drop. unfold Absence.BATCH_SIZE in *. lia.
  - unfold Absence.slice. do 2 f_equal. lia.
  - intros Hk. apply lookup_lt_is_Some_2 in Hk as [b' Hb'].
    rewrite L in Hb'.
    destruct (Nat.ltb_spec (Absence.BATCH_SIZE * S k) (length l))
      as [lt' | ge']; [| done].
    rewrite length_take, length_drop. unfold Absence.BATCH_SIZE in *. lia.
Qed.

Lemma batches_partition_witness :
  Absence.batches [1; 2; 3; 4; 5; 6; 7] !! 2%nat = Some [7]
  /\ [7] = Absence.slice (Absence.BATCH_SIZE * 2)
             (Absence.BATCH_SIZE * 2 + Absence.BATCH_SIZE) [1; 2; 3; 4; 5; 6; 7].
Proof.
  assert (H : Absence.batches [1; 2; 3; 4; 5; 6; 7] !! 2%nat = Some [7])
    by reflexivity.
  exact (conj H (proj1 (proj2
           (proj2 (batches_partition [1; 2; 3; 4; 5; 6; 7]) 2%nat [7] H)))).
Defined.

(** *** The messages *)

Lemma foldl_concat {A B} (f : A -> B -> A) (a : A) (ls : list (list B)) :
  foldl (fun acc l => foldl f acc l) a ls = foldl f a (concat ls).
Proof.
  revert a. induction ls as [| l ls IH]; intros a; [done |].
  cbn [foldl concat]. by rewrite foldl_app, IH.
Qed.

Section Sending.

Variable api : list Phone.request -> Phone.request -> Phone.apiOutcome.
Variable messageOf : Absence.notification -> string.

Lemma sendTextMessage_recipient sent phone message :
  match Day.recipient phone with
  | Some to =>
      (Phone.sendTextMessage api sent phone message).2 = sent ++ [(to, message)]
  | None =>
      Phone.sendTextMessage api sent phone message
      = (Phone.mkSendResult false (Some "Invalid phone number format") phone
           None None None None, sent)
  end.
Proof.
  unfold Day.recipient, Phone.sendTextMessage, Text.truthy.
  destruct (Phone.formatPhoneNumber phone) as [q |]; [| done].
  destruct (String.eqb_spec q "") as [-> | ne]; [done |].
  cbn [negb default from_option id]. done.
Qed.

Let resultOf := Day.resultOf messageOf.

Lemma sendOne_step results sent n :
  Absence.notificationType n
  = (if Absence.isFullDayAbsent n then Absence.full_day else Absence.partial_day) ->
  exists r,
    Absence.sendOne api messageOf (results, sent) n
    = (results ++ [r],
       sent ++ match Day.requestOf messageOf n with
               | Some request => [request]
               | None => []
               end)
    /\ resultOf r n.
Proof.
  intros T. unfold Absence.sendOne, Absence.sendWhatsAppMessage, Day.requestOf.
  pose proof (sendTextMessage_recipient sent
                (Student.parentPhone (Absence.student n)) (messageOf n)) as S.
  destruct (Phone.sendTextMessage api sent _ _) as [result sent'].
  destruct (Day.recipient (Student.parentPhone (Absence.student n)))
    as [to |] eqn:Rc.
  - cbn [snd] in S. subst sent'. eexists. split; [reflexivity |].
    unfold resultOf, Day.resultOf, Day.resultKey, Day.notificationKey,
      Day.requestOf.
    cbn. rewrite T, Rc. done.
  - injection S as -> ->. eexists. split; [by rewrite app_nil_r |].
    unfold resultOf, Day.resultOf, Day.resultKey, Day.notificationKey.
    cbn. rewrite T. done.
Qed.

Lemma sendOne_fold l results sent :
  Forall (fun n => Absence.notificationType n
                   = (if Absence.isFullDayAbsent n
                      then Absence.full_day else Absence.partial_day)) l ->
  exists rs,
    foldl (Absence.sendOne api messageOf) (results, sent) l
    = (results ++ rs, sent ++ omap (Day.requestOf messageOf) l)
    /\ Forall2 resultOf rs l.
Proof.
  revert results sent. induction l as [| n l IH]; intros results sent T.
  - exists []. cbn. rewrite !app_nil_r. by split; [| constructor].
  - inversion T as [| ? ? Tn Tl]; subst.
    destruct (sendOne_step results sent n Tn) as (r & E & R).
    cbn [foldl]. rewrite E.
    destruct (IH (results ++ [r])
                (sent ++ match Day.requestOf messageOf n with
                         | Some request => [request]
                         | None => []
                         end) Tl) as (rs & E' & Rs).
    exists (r :: rs). rewrite E'. split; [| by constructor].
    rewrite <- !app_assoc. cbn [app omap list_omap].
    by destruct (Day.requestOf messageOf n).
Qed.

Lemma resultOf_counts rs l :
  Forall2 resultOf rs l ->
  length rs = length l
  /\ map Day.resultKey rs = map Day.notificationKey l
  /\ Absence.count Absence.success rs
     <= Z.of_nat (length (omap (Day.requestOf messageOf) l))
  /\ (Forall (fun n => Absence.notificationType n <> Absence.present) l ->
      Absence.count (fun r => Absence.isType Absence.full_day r
                              && Absence.success r) rs
      + Absence.count (fun r => Absence.isType Absence.partial_day r
                                && Absence.success r) rs
      = Absence.count Absence.success rs).
Proof.
  unfold Absence.count.
  induction 1 as [| r n rs l (K & _ & S) _ (L & Ks & C & T)]; [done |].
  cbn [length map List.filter omap list_omap]. split; [by rewrite L |].
  split; [by rewrite K, Ks |]. split.
  - destruct (Absence.success r), (Day.requestOf messageOf n);
      cbn [length]; try lia.
    exfalso. by apply S.
  - intros F. inversion F as [| ? ? Fn Fl]; subst. specialize (T Fl).
    assert (Tr : Absence.resultType r <> Absence.present).
    { unfold Day.resultKey, Day.notificationKey in K. by injection K as _ _ ->. }
    assert (X : Absence.isType Absence.full_day r
                = negb (Absence.isType Absence.partial_day r))
      by (unfold Absence.isType; by destruct (Absence.resultType r)).
    rewrite X.
    destruct (Absence.isType Absence.partial_day r), (Absence.success r);
      cbn [andb negb length]; lia.
Qed.

End Sending.

(** Without a record with attendance nobody is notified. *)
Lemma studentsToNotify_nil allStudents allAttendanceRecords :
  allStudents = [] \/ Day.subjectsWithAttendance allAttendanceRecords = [] ->
  Absence.studentsToNotify allStudents allAttendanceRecords = [].
Proof.
  rewrite studentsToNotify_closed. cbn zeta. intros [-> | ->]; [done |].
  induction allStudents as [| s l IH]; [done |]. cbn [List.filter].
  unfold Day.isNotified at 1. cbn [existsb]. by rewrite andb_false_r.
Qed.

Lemma studentsToNotify_types allStudents allAttendanceRecords :
  Forall (fun n => Absence.notificationType n
                   = (if Absence.isFullDayAbsent n
                      then Absence.full_day else Absence.partial_day))
    (Absence.studentsToNotify allStudents allAttendanceRecords).
Proof.
  rewrite studentsToNotify_closed. cbn zeta. apply List.Forall_forall.
  by intros n (s & <- & _)%in_map_iff.
Qed.

Lemma omap_length_le {A B} (f : A -> option B) (l : list A) :
  (length (omap f l) <= length l)%nat.
Proof.
  induction l as [| x l IH]; [done |]. cbn [omap list_omap length].
  destruct (f x); cbn [length]; lia.
Qed.

Lemma length_zero_nil {A} (l : list A) :
  (Z.of_nat (length l) =? 0) = true -> l = [].
Proof. destruct l; [done |]. rewrite Z.eqb_eq. cbn [length]. lia. Qed.

(** X10: when the route sends, there is one result per notified student, in
    the order of the notifications and with their subjects and type; the
    messages sent and failed add up to the students notified, the
    successful full-day and partial-day messages to the messages sent, and
    no more messages were sent than requests were made. *)
Theorem sent_messages_add_up api messageOf forceResend existingLog
    allStudents allSubjects found whatsappResults summary sent :
  Absence.sendAbsenceMessages api messageOf forceResend existingLog
    allStudents allSubjects found
  = (Absence.MessagesSent whatsappResults summary, sent) ->
  let studentsToNotify :=
    Absence.studentsToNotify allStudents
      (map (fun subject => Absence.attendanceRecord subject (found subject))
         allSubjects) in
  studentsToNotify <> []
  /\ map Day.resultKey whatsappResults
     = map Day.notificationKey studentsToNotify
  /\ Absence.totalStudentsNotified summary
     = Z.of_nat (length studentsToNotify)
  /\ Absence.successCount summary + Absence.failureCount summary
     = Absence.totalStudentsNotified summary
  /\ Absence.fullDayCount summary + Absence.partialDayCount summary
     = Absence.successCount summary
  /\ 0 <= Absence.successCount summary <= Z.of_nat (length sent)
  /\ Z.of_nat (length sent) <= Absence.totalStudentsNotified summary.
Proof.
  unfold Absence.sendAbsenceMessages.
  destruct (negb forceResend && _); [done |].
  destruct (_ || _); [done |].
  set (records := map _ allSubjects).
  destruct (Z.of_nat (length (List.filter _ records)) =? 0); [done |].
  set (N := Absence.studentsToNotify allStudents records).
  destruct (Z.eqb_spec (Z.of_nat (length N)) 0) as [| ne]; [done |].
  unfold Absence.sendBatches. rewrite foldl_concat.
  rewrite (proj1 (batches_partition_aux N)).
  destruct (sendOne_fold api messageOf N [] []
              (studentsToNotify_types allStudents records)) as (rs & -> & R).
  cbn [app]. intros [= <- <- <-]. cbn zeta.
  destruct (resultOf_counts messageOf rs N R) as (L & K & C & T).
  cbn [Absence.totalStudentsNotified Absence.successCount
         Absence.failureCount Absence.fullDayCount Absence.partialDayCount].
  split; [by destruct N |]. split; [done |]. split; [done |].
  split; [lia |]. split.
  - apply T. eapply Forall_impl; [apply studentsToNotify_types |].
    cbn beta. intros n ->. by destruct (Absence.isFullDayAbsent n).
  - pose proof (omap_length_le (Day.requestOf messageOf) N).
    unfold Absence.count in *. lia.
Qed.

Lemma sent_messages_add_up_witness :
  let summary := Absence.mkCounts 1 2 0 1 3 in
  Absence.sendAbsenceMessages Classroom.api Classroom.messageOf
    false None Classroom.students Classroom.subjects Classroom.found
  = (Absence.MessagesSent Classroom.whatsappResults summary, Classroom.requests)
  /\ Absence.successCount summary + Absence.failureCount summary
     = Absence.totalStudentsNotified summary
  /\ Absence.fullDayCount summary + Absence.partialDayCount summary
     = Absence.successCount summary.
Proof.
  cbn zeta.
  assert (H : Absence.sendAbsenceMessages Classroom.api Classroom.messageOf
                false None Classroom.students Classroom.subjects
                Classroom.found
              = (Absence.MessagesSent Classroom.whatsappResults
                   (Absence.mkCounts 1 2 0 1 3), Classroom.requests))
    by (vm_compute; reflexivity).
  pose proof (sent_messages_add_up _ _ _ _ _ _ _ _ _ _ H) as P.
  exact (conj H (conj (proj1 (proj2 (proj2 (proj2 P))))
                      (proj1 (proj2 (proj2 (proj2 (proj2 P))))))).
Defined.

(** X11: the requests of the route are, in order, the request of every
    notified student whose phone has a recipient, and there are none when
    the messages of the day were sent before and the resend is not
    forced; a phone without a digit costs no request. *)
Theorem requests_of_the_route api messageOf forceResend existingLog
    allStudents allSubjects found :
  (Absence.sendAbsenceMessages api messageOf forceResend existingLog
     allStudents allSubjects found).2
  = if negb forceResend
       && match existingLog with
          | Some messagesSent => 0 <? messagesSent
          | None => false
          end
    then []
    else omap (Day.requestOf messageOf)
           (Absence.studentsToNotify allStudents
              (map (fun subject =>
                      Absence.attendanceRecord subject (found subject))
                 allSubjects)).
Proof.
  unfold Absence.sendAbsenceMessages.
  destruct (negb forceResend && _); [done |].
  set (records := map _ allSubjects).
  destruct (_ || _) eqn:G.
  { cbn [snd]. rewrite studentsToNotify_nil; [done |].
    apply orb_prop in G as [G%length_zero_nil | G%length_zero_nil]; [by left |].
    right. subst records. by rewrite G. }
  destruct (Z.of_nat (length (List.filter _ records)) =? 0) eqn:G'.
  { cbn [snd]. rewrite studentsToNotify_nil; [done |].
    right. by apply length_zero_nil. }
  set (N := Absence.studentsToNotify allStudents records).
  destruct (Z.of_nat (length N) =? 0) eqn:G''.
  { cbn [snd]. by rewrite (length_zero_nil _ G''). }
  unfold Absence.sendBatches. rewrite foldl_concat.
  rewrite (proj1 (batches_partition_aux N)).
  destruct (sendOne_fold api messageOf N [] []
              (studentsToNotify_types allStudents records)) as (rs & -> & R).
  done.
Qed.

(** *** The summary of the day *)

Section Summary.

Variable records : list Attendance.t.
Variable attendanceMap : gmap string (gset string).

Lemma summarise_willReceiveMessage student :
  Absence.willReceiveMessage (Absence.summarise attendanceMap records student)
  = Day.isNotified attendanceMap student records.
Proof.
  unfold Absence.summarise. rewrite listRecord_fold.
  cbn [Absence.willReceiveMessage Absence.absent Absence.attended
         Absence.applicable app]. rewrite Z.add_0_l, length_map.
  unfold Day.isNotified. rewrite <- (filter_nil_existsb _ records).
  fold (Day.missedRecords attendanceMap student records).
  pose proof (missed_attended_applicable attendanceMap student records) as L.
  destruct (Text.truthy (Student.parentPhone student));
    [| by rewrite andb_false_r]. rewrite !andb_true_r.
  destruct (Z.ltb_spec 0 (Z.of_nat (length (Day.missedRecords attendanceMap
                                              student records)))) as [lt | ge];
    cbn [andb]; [| done].
  apply Z.ltb_lt. lia.
Qed.

Lemma summarise_key student :
  Day.isNotified attendanceMap student records = true ->
  Day.entryKey (Absence.summarise attendanceMap records student)
  = Day.notificationKey (Day.notificationOf attendanceMap student records).
Proof.
  unfold Day.isNotified. intros [_ E]%andb_prop.
  rewrite <- (filter_nil_existsb _ records) in E.
  fold (Day.missedRecords attendanceMap student records) in E.
  apply Z.ltb_lt in E.
  pose proof (missed_attended_applicable attendanceMap student records) as L.
  unfold Absence.summarise. rewrite listRecord_fold.
  unfold Day.entryKey, Day.notificationKey, Day.notificationOf.
  cbn [Absence.entryStudentID Absence.entryAbsentSubjects
         Absence.entryMessageType Absence.absent Absence.attended
         Absence.applicable app Absence.student Absence.notifiedSubjects
         Absence.notificationType].
  rewrite Z.add_0_l, length_map. f_equal.
  destruct (Z.eqb_spec (Z.of_nat (length (Day.missedRecords attendanceMap
                                            student records)))
              (Z.of_nat (length (Day.applicableRecords student records))))
    as [e | ne]; cbn [andb].
  - destruct (Z.ltb_spec 0 (Z.of_nat (length (Day.applicableRecords student
                                                records)))); [done | lia].
  - destruct (Z.ltb_spec 0 (Z.of_nat (length (Day.missedRecords attendanceMap
                                                student records))));
      [done | lia].
Qed.

(** Every entry of the summary is of exactly one kind. *)
Lemma summarise_kinds student :
  let e := Absence.summarise attendanceMap records student in
  let fullDay := Absence.entryIsFullDayAbsent e in
  let partialDay :=
    (0 <? Absence.absentSubjectCount e) && negb (Absence.entryIsFullDayAbsent e) in
  let fullyPresent := Absence.isFullyPresent e in
  let idle := Absence.entryApplicableSubjectCount e =? 0 in
  match fullDay, partialDay, fullyPresent, idle with
  | true, false, false, false
  | false, true, false, false
  | false, false, true, false
  | false, false, false, true => True
  | _, _, _, _ => False
  end
  /\ (Absence.willReceiveMessage e = true -> fullDay || partialDay = true).
Proof.
  cbn zeta. unfold Absence.summarise. rewrite listRecord_fold.
  cbn [Absence.entryIsFullDayAbsent Absence.absentSubjectCount
         Absence.isFullyPresent Absence.entryApplicableSubjectCount
         Absence.willReceiveMessage Absence.absent Absence.attended
         Absence.applicable app].
  rewrite Z.add_0_l, length_map.
  pose proof (missed_attended_applicable attendanceMap student records) as L.
  fold (Day.missedRecords attendanceMap student records).
  set (a := Z.of_nat (length (Day.missedRecords attendanceMap student records)))
    in *.
  set (b := Z.of_nat (length (Day.applicableRecords student records))) in *.
  assert (0 <= a) by (unfold a; lia).
  assert (0 <= Z.of_nat (length (Day.attendedRecords attendanceMap student
                                   records))) by lia.
  destruct (Z.eqb_spec a b), (Z.ltb_spec 0 b), (Z.ltb_spec 0 a),
    (Z.eqb_spec a 0), (Z.eqb_spec b 0),
    (Text.truthy (Student.parentPhone student));
    cbn [andb negb orb]; first [lia | done].
Qed.

End Summary.

Lemma filter_map_comm {A B} (f : A -> B) (p : B -> bool) (l : list A) :
  List.filter p (map f l) = map f (List.filter (fun x => p (f x)) l).
Proof.
  induction l as [| x l IH]; [done |]. cbn. rewrite IH. by destruct (p (f x)).
Qed.

Lemma summary_announces_the_notifications_aux allStudents allAttendanceRecords :
  map Day.entryKey
    (List.filter Absence.willReceiveMessage
       (Absence.absenceSummary allStudents allAttendanceRecords))
  = map Day.notificationKey
      (Absence.studentsToNotify allStudents allAttendanceRecords).
Proof.
  rewrite studentsToNotify_closed. cbn zeta. unfold Absence.absenceSummary.
  fold (Day.subjectsWithAttendance allAttendanceRecords).
  set (records := Day.subjectsWithAttendance allAttendanceRecords).
  set (m := Absence.attendanceMap records).
  rewrite filter_map_comm, !map_map.
  rewrite (List.filter_ext _ (fun s => Day.isNotified m s records))
    by (intros s; apply summarise_willReceiveMessage).
  apply map_ext_in. intros s [_ N]%filter_In. by apply summarise_key.
Qed.

(** X12: the summary and the route that sends agree: the entries the summary
    marks as receiving a message are, in order, the students the other
    route notifies, with the same missed subjects and the same type of
    message. *)
Theorem summary_announces_the_notifications allStudents allAttendanceRecords :
  map Day.entryKey
    (List.filter Absence.willReceiveMessage
       (Absence.absenceSummary allStudents allAttendanceRecords))
  = map Day.notificationKey
      (Absence.studentsToNotify allStudents allAttendanceRecords)
  /\ Forall
       (fun e =>
          Absence.absentSubjectCount e + Absence.entryPresentSubjectCount e
          = Absence.entryApplicableSubjectCount e
          /\ Absence.absentSubjectCount e
             = Z.of_nat (length (Absence.entryAbsentSubjects e))
          /\ Absence.entryPresentSubjectCount e
             = Z.of_nat (length (Absence.entryPresentSubjects e)))
       (Absence.absenceSummary allStudents allAttendanceRecords).
Proof.
  split; [apply summary_announces_the_notifications_aux |].
  unfold Absence.absenceSummary.
  fold (Day.subjectsWithAttendance allAttendanceRecords).
  set (records := Day.subjectsWithAttendance allAttendanceRecords).
  set (m := Absence.attendanceMap records).
  apply List.Forall_forall. intros e (s & <- & _)%in_map_iff.
  unfold Absence.summarise. rewrite listRecord_fold.
  cbn [Absence.absentSubjectCount Absence.entryPresentSubjectCount
         Absence.entryApplicableSubjectCount Absence.entryAbsentSubjects
         Absence.entryPresentSubjects Absence.absent Absence.attended
         Absence.applicable app].
  rewrite !length_map.
  pose proof (missed_attended_applicable m s records). lia.
Qed.

Lemma count_kinds {A} (p1 p2 p3 p4 : A -> bool) (l : list A) :
  (forall x,
     match p1 x, p2 x, p3 x, p4 x with
     | true, false, false, false
     | false, true, false, false
     | false, false, true, false
     | false, false, false, true => True
     | _, _, _, _ => False
     end) ->
  Absence.count p1 l + Absence.count p2 l + Absence.count p3 l
  + Absence.count p4 l
  = Z.of_nat (length l).
Proof.
  intros H. unfold Absence.count.
  induction l as [| x l IH]; [done |]. cbn [List.filter length].
  specialize (H x).
  destruct (p1 x), (p2 x), (p3 x), (p4 x); cbn [length]; first [done | lia].
Qed.

Lemma count_le {A} (p q : A -> bool) (l : list A) :
  (forall x, p x = true -> q x = true) ->
  Absence.count p l <= Absence.count q l.
Proof.
  intros H. unfold Absence.count.
  induction l as [| x l IH]; [done |]. cbn [List.filter].
  specialize (H x).
  destruct (p x), (q x); cbn [length]; first [lia | by discriminate H].
Qed.

Lemma count_or {A} (p q : A -> bool) (l : list A) :
  (forall x, p x && q x = false) ->
  Absence.count (fun x => p x || q x) l = Absence.count p l + Absence.count q l.
Proof.
  intros H. unfold Absence.count.
  induction l as [| x l IH]; [done |]. cbn [List.filter].
  specialize (H x).
  destruct (p x), (q x); cbn [orb length]; first [lia | done].
Qed.

Lemma count_map {A B} (f : A -> B) (p : B -> bool) (l : list A) :
  Absence.count p (map f l) = Absence.count (fun x => p (f x)) l.
Proof.
  unfold Absence.count. by rewrite filter_map_comm, length_map.
Qed.

(** X13: the counts of the summary sort every student of the roster into
    exactly one of four kinds: absent the full day, absent for a part of
    it, present in every subject, and without a subject to attend among
    those with attendance, which no count of the response shows.  The
    students to notify are among the absent ones, as many as the other
    route notifies. *)
Theorem summary_counts_partition allStudents allSubjects found
    absenceSummary summary :
  Absence.dailyAbsenceSummary allStudents allSubjects found
  = Absence.Summary absenceSummary summary ->
  Absence.fullDayAbsent summary + Absence.partialDayAbsent summary
  + Absence.studentsPresent summary
  + Absence.count (fun e => Absence.entryApplicableSubjectCount e =? 0)
      absenceSummary
  = Absence.totalStudents summary
  /\ Absence.summaryStudentsToNotify summary
     <= Absence.fullDayAbsent summary + Absence.partialDayAbsent summary
  /\ Absence.summaryStudentsToNotify summary
     = Z.of_nat
         (length
            (Absence.studentsToNotify allStudents
               (map (fun subject =>
                       Absence.attendanceRecord subject (found subject))
                  allSubjects))).
Proof.
  unfold Absence.dailyAbsenceSummary.
  destruct (_ || _); [done |]. intros [= <- <-].
  set (R := map _ allSubjects).
  cbn [Absence.fullDayAbsent Absence.partialDayAbsent Absence.studentsPresent
         Absence.totalStudents Absence.summaryStudentsToNotify].
  split; [| split].
  - unfold Absence.absenceSummary. rewrite !count_map.
    apply count_kinds. intros s. apply summarise_kinds.
  - unfold Absence.absenceSummary. rewrite !count_map.
    rewrite <- count_or.
    + apply count_le. intros s. apply summarise_kinds.
    + intros s. destruct (Absence.entryIsFullDayAbsent _); cbn [andb negb];
        [by rewrite andb_false_r | done].
  - pose proof (summary_announces_the_notifications_aux allStudents R) as E.
    apply (f_equal length) in E. rewrite !length_map in E.
    unfold Absence.count. by rewrite E.
Qed.

Lemma summary_counts_partition_witness :
  let summary := Absence.mkSummary 5 3 1 2 2 in
  Absence.dailyAbsenceSummary Classroom.students Classroom.subjects
    Classroom.found
  = Absence.Summary Classroom.absenceSummary summary
  /\ Absence.fullDayAbsent summary + Absence.partialDayAbsent summary
     + Absence.studentsPresent summary
     + Absence.count (fun e => Absence.entryApplicableSubjectCount e =? 0)
         Classroom.absenceSummary
     = Absence.totalStudents summary.
Proof.
  cbn zeta.
  assert (H : Absence.dailyAbsenceSummary Classroom.students Classroom.subjects
                Classroom.found
              = Absence.Summary Classroom.absenceSummary
                  (Absence.mkSummary 5 3 1 2 2))
    by (vm_compute; reflexivity).
  exact (conj H (proj1 (summary_counts_partition _ _ _ _ _ H))).
Defined.

(** ** Attendance collections *)

Lemma all_ext p q s :
  (forall c, p c = q c) -> Text.all p s = Text.all q s.
Proof.
  intros H. induction s as [| c r IH]; [done |]. cbn. by rewrite H, IH.
Qed.

Lemma all_impl p q s :
  (forall c, p c = true -> q c = true) ->
  Text.all p s = true -> Text.all q s = true.
Proof.
  intros H. induction s as [| c r IH]; [done |]. cbn.
  intros [Hc Hr]%andb_prop. by rewrite (H c Hc), IH.
Qed.

(** *** Each step of [cleanSubject] on the letters and digits *)

Section Letters.

(** A class of characters with neither white space nor the underscore. *)
Variable p : ascii -> bool.
Hypothesis p_space : forall c, Js.isSpace c = true -> p c = false.
Hypothesis p_underscore : p "_" = false.

Let none := Text.all (fun c => negb (p c)).

Lemma none_trimStart s : none (Slug.trimStart s) = none s.
Proof.
  induction s as [| c r IH]; [done |]. cbn.
  destruct (Js.isSpace c) eqn:E; [| done].
  rewrite IH. unfold none. cbn. by rewrite (p_space c E).
Qed.

Lemma none_trimEnd s : none (Slug.trimEnd s) = none s.
Proof.
  induction s as [| c r IH]; [done |]. cbn.
  destruct (Js.isSpace c) eqn:E; cbn [andb].
  - destruct (String.eqb_spec (Slug.trimEnd r) "") as [E' | _].
    + unfold none in *. cbn. rewrite (p_space c E), <- IH, E'. done.
    + unfold none in *. cbn. by rewrite IH.
  - unfold none in *. cbn. by rewrite IH.
Qed.

Lemma none_replaceSpaceRuns b s : none (Js.replaceSpaceRuns b s) = none s.
Proof.
  revert b. induction s as [| c r IH]; intros b; [done |]. cbn.
  destruct (Js.isSpace c) eqn:E.
  - destruct b; unfold none in *; cbn; rewrite ?p_underscore, IH, (p_space c E);
      done.
  - unfold none in *. cbn. by rewrite IH.
Qed.

End Letters.

Ltac by_ascii c :=
  destruct c as [[] [] [] [] [] [] [] []]; vm_compute; congruence.

Lemma isLetter_not_space c :
  Js.isSpace c = true -> Slug.isLower c || Text.isDigit c = false.
Proof. by_ascii c. Qed.

Lemma isSlugChar_split c :
  Slug.isSlugChar c = true ->
  Slug.isUnderscore c = negb (Slug.isLower c || Text.isDigit c).
Proof. by_ascii c. Qed.

Lemma not_isSlugChar c :
  Slug.isSlugChar c = false -> Slug.isLower c || Text.isDigit c = false.
Proof. by_ascii c. Qed.

Lemma isSlugChar_not_space c :
  Slug.isSlugChar c = true -> Js.isSpace c = false.
Proof. by_ascii c. Qed.

Lemma isSlugChar_lower c :
  Slug.isSlugChar c = true -> Js.lowerAscii c = c.
Proof. by_ascii c. Qed.

Lemma isAlnum_lower c :
  Slug.isLower (Js.lowerAscii c) || Text.isDigit (Js.lowerAscii c)
  = Clean.isAlnum c.
Proof. by_ascii c. Qed.

Lemma isUnderscore_spec c : Slug.isUnderscore c = true -> c = "_"%char.
Proof. unfold Slug.isUnderscore. by intros ?%Ascii.eqb_eq. Qed.

(** The underscores of the kept characters are what is no letter or
    digit. *)
Lemma underscores_keep s :
  Text.all Slug.isUnderscore (Text.keep Slug.isSlugChar s)
  = Text.all (fun c => negb (Slug.isLower c || Text.isDigit c)) s.
Proof.
  induction s as [| c r IH]; [done |]. cbn.
  destruct (Slug.isSlugChar c) eqn:E.
  - cbn. by rewrite IH, (isSlugChar_split c E).
  - by rewrite IH, (not_isSlugChar c E).
Qed.

Lemma underscores_collapse b s :
  Text.all Slug.isUnderscore (Slug.collapseUnderscores b s)
  = Text.all Slug.isUnderscore s.
Proof.
  revert b. induction s as [| c r IH]; intros b; [done |]. cbn.
  destruct (Slug.isUnderscore c) eqn:E.
  - destruct b; cbn; by rewrite ?E, IH.
  - cbn. by rewrite E.
Qed.

Lemma underscores_stripLeading s :
  Text.all Slug.isUnderscore (Slug.stripLeading s)
  = Text.all Slug.isUnderscore s.
Proof.
  destruct s as [| c r]; [done |]. cbn.
  destruct (Slug.isUnderscore c) eqn:E; [done |]. cbn. by rewrite E.
Qed.

Lemma underscores_stripTrailing s :
  Text.all Slug.isUnderscore (Slug.stripTrailing s)
  = Text.all Slug.isUnderscore s.
Proof.
  induction s as [| c r IH]; [done |]. cbn.
  destruct (Slug.isUnderscore c) eqn:E; cbn [andb].
  - destruct (String.eqb_spec r "") as [-> | _]; [done |]. cbn. by rewrite E, IH.
  - cbn. by rewrite E.
Qed.

Lemma collapse_underscores b s :
  Text.all Slug.isUnderscore s = true ->
  Slug.collapseUnderscores b s
  = if b || String.eqb s "" then "" else "_".
Proof.
  revert b. induction s as [| c r IH]; intros b; [by destruct b |]. cbn.
  intros [E Hr]%andb_prop. rewrite E. rewrite (IH true Hr). cbn [orb].
  rewrite (isUnderscore_spec c E). by destruct b.
Qed.

(** What [cleanSubject] makes of the kept characters is empty exactly when
    they are all underscores. *)
Lemma stripEdges_collapse_empty z :
  Slug.stripEdges (Slug.collapseUnderscores false z) = ""
  <-> Text.all Slug.isUnderscore z = true.
Proof.
  split.
  - intros E. apply (f_equal (Text.all Slug.isUnderscore)) in E.
    unfold Slug.stripEdges in E.
    by rewrite underscores_stripTrailing, underscores_stripLeading,
      underscores_collapse in E.
  - intros U. rewrite (collapse_underscores false z U). cbn [orb].
    by destruct (String.eqb z "").
Qed.

Lemma cleanSubject_empty_iff subject :
  cleanSubject subject = ""
  <-> Text.all (fun c => negb (Clean.isAlnum c)) subject = true.
Proof.
  unfold cleanSubject. rewrite stripEdges_collapse_empty, underscores_keep.
  rewrite (none_replaceSpaceRuns _ isLetter_not_space eq_refl).
  unfold Slug.trim.
  rewrite (none_trimEnd _ isLetter_not_space),
    (none_trimStart _ isLetter_not_space).
  replace (Text.all _ (Js.toLowerCase subject))
    with (Text.all (fun c => negb (Clean.isAlnum c)) subject); [done |].
  induction subject as [| c r IH]; [done |]. cbn.
  by rewrite IH, isAlnum_lower.
Qed.

(** *** The shape of a clean subject *)

Lemma all_collapse p b s :
  Text.all p s = true -> Text.all p (Slug.collapseUnderscores b s) = true.
Proof.
  revert b. induction s as [| c r IH]; intros b; [done |]. cbn.
  intros [Hc Hr]%andb_prop.
  destruct (Slug.isUnderscore c); [destruct b |]; cbn; rewrite ?Hc; by apply IH.
Qed.

Lemma all_stripLeading p s :
  Text.all p s = true -> Text.all p (Slug.stripLeading s) = true.
Proof.
  destruct s as [| c r]; [done |]. cbn. intros [Hc Hr]%andb_prop.
  destruct (Slug.isUnderscore c); [done |]. cbn. by rewrite Hc.
Qed.

Lemma all_stripTrailing p s :
  Text.all p s = true -> Text.all p (Slug.stripTrailing s) = true.
Proof.
  induction s as [| c r IH]; [done |]. cbn. intros [Hc Hr]%andb_prop.
  destruct (Slug.isUnderscore c && String.eqb r ""); [done |]. cbn.
  by rewrite Hc, IH.
Qed.

Lemma noDouble_weaken b s :
  Clean.noDoubleUnderscore b s = true -> Clean.noDoubleUnderscore false s = true.
Proof.
  destruct s as [| c r]; [done |]. cbn.
  destruct (Slug.isUnderscore c); [| done]. by intros [_ ->]%andb_prop.
Qed.

Lemma noDouble_collapse b s :
  Clean.noDoubleUnderscore b (Slug.collapseUnderscores b s) = true.
Proof.
  revert b. induction s as [| c r IH]; intros b; [done |]. cbn.
  destruct (Slug.isUnderscore c) eqn:E.
  - destruct b; [apply IH |]. cbn. rewrite E. apply IH.
  - cbn. rewrite E. apply IH.
Qed.

Lemma noDouble_stripLeading s :
  Clean.noDoubleUnderscore false s = true ->
  Clean.noDoubleUnderscore false (Slug.stripLeading s) = true
  /\ Text.firstIs Slug.isUnderscore (Slug.stripLeading s) = false.
Proof.
  destruct s as [| c r]; [done |]. cbn.
  destruct (Slug.isUnderscore c) eqn:E; cbn.
  - intros H. split; [by apply (noDouble_weaken true) |].
    destruct r as [| d r]; [done |]. cbn in *.
    by destruct (Slug.isUnderscore d).
  - rewrite E. by intros ->.
Qed.

Lemma noDouble_stripTrailing b s :
  Clean.noDoubleUnderscore b s = true ->
  Clean.noDoubleUnderscore b (Slug.stripTrailing s) = true
  /\ Clean.lastIs Slug.isUnderscore (Slug.stripTrailing s) = false.
Proof.
  revert b. induction s as [| c r IH]; intros b; [done |]. cbn.
  destruct (Slug.isUnderscore c) eqn:E; cbn [andb].
  - intros [Hb Hr]%andb_prop.
    destruct (String.eqb_spec r "") as [-> | ne]; [done |].
    destruct (IH true Hr) as [N L]. cbn. rewrite E, Hb, N.
    split; [done |].
    destruct (String.eqb_spec (Slug.stripTrailing r) "") as [E' | _]; [| done].
    exfalso. destruct r as [| d r]; [done |]. cbn in Hr, E'.
    destruct (Slug.isUnderscore d); [done |]. done.
  - intros Hr. destruct (IH false Hr) as [N L]. cbn. rewrite E, N.
    split; [done |].
    by destruct (String.eqb (Slug.stripTrailing r) "").
Qed.

Lemma firstIs_stripTrailing s :
  Text.firstIs Slug.isUnderscore s = false ->
  Text.firstIs Slug.isUnderscore (Slug.stripTrailing s) = false.
Proof.
  destruct s as [| c r]; [done |]. cbn. intros E. rewrite E. cbn.
  by rewrite E.
Qed.

Lemma isClean_cleanSubject subject : Clean.isClean (cleanSubject subject) = true.
Proof.
  unfold cleanSubject.
  set (z := Text.keep Slug.isSlugChar _).
  assert (A : Text.all Slug.isSlugChar z = true) by apply all_keep.
  set (w := Slug.collapseUnderscores false z).
  assert (Aw : Text.all Slug.isSlugChar w = true) by (by apply all_collapse).
  pose proof (noDouble_collapse false z) as Nw. fold w in Nw.
  destruct (noDouble_stripLeading w Nw) as [N1 F1].
  destruct (noDouble_stripTrailing false _ N1) as [N2 L2].
  unfold Clean.isClean, Slug.stripEdges.
  rewrite all_stripTrailing by (by apply all_stripLeading).
  by rewrite N2, L2, (firstIs_stripTrailing _ F1).
Qed.

(** *** A clean subject is left as it is *)

Lemma toLowerCase_slug s :
  Text.all Slug.isSlugChar s = true -> Js.toLowerCase s = s.
Proof.
  induction s as [| c r IH]; [done |]. cbn. intros [Hc Hr]%andb_prop.
  by rewrite (isSlugChar_lower c Hc), IH.
Qed.

Lemma trimStart_slug s :
  Text.all Slug.isSlugChar s = true -> Slug.trimStart s = s.
Proof.
  destruct s as [| c r]; [done |]. cbn. intros [Hc _]%andb_prop.
  by rewrite (isSlugChar_not_space c Hc).
Qed.

Lemma trimEnd_slug s :
  Text.all Slug.isSlugChar s = true -> Slug.trimEnd s = s.
Proof.
  induction s as [| c r IH]; [done |]. cbn. intros [Hc Hr]%andb_prop.
  by rewrite (isSlugChar_not_space c Hc), IH.
Qed.

Lemma replaceSpaceRuns_slug b s :
  Text.all Slug.isSlugChar s = true -> Js.replaceSpaceRuns b s = s.
Proof.
  revert b. induction s as [| c r IH]; intros b; [done |]. cbn.
  intros [Hc Hr]%andb_prop. by rewrite (isSlugChar_not_space c Hc), IH.
Qed.

Lemma collapse_noDouble b s :
  Clean.noDoubleUnderscore b s = true -> Slug.collapseUnderscores b s = s.
Proof.
  revert b. induction s as [| c r IH]; intros b; [done |]. cbn.
  destruct (Slug.isUnderscore c).
  - intros [Hb Hr]%andb_prop. destruct b; [done |]. by rewrite IH.
  - intros Hr. by rewrite IH.
Qed.

Lemma stripLeading_id s :
  Text.firstIs Slug.isUnderscore s = false -> Slug.stripLeading s = s.
Proof. destruct s as [| c r]; [done |]. cbn. by intros ->. Qed.

Lemma stripTrailing_id s :
  Clean.lastIs Slug.isUnderscore s = false -> Slug.stripTrailing s = s.
Proof.
  induction s as [| c r IH]; [done |]. cbn.
  destruct (String.eqb_spec r "") as [-> | ne].
  - intros ->. done.
  - intros H. rewrite andb_false_r. by rewrite IH.
Qed.

Lemma cleanSubject_isClean s : Clean.isClean s = true -> cleanSubject s = s.
Proof.
  unfold Clean.isClean.
  intros [[[A N]%andb_prop F%negb_true_iff]%andb_prop L%negb_true_iff]%andb_prop.
  unfold cleanSubject, Slug.trim, Slug.stripEdges.
  rewrite (toLowerCase_slug s A), (trimStart_slug s A), (trimEnd_slug s A),
    (replaceSpaceRuns_slug false s A), (keep_all _ s A),
    (collapse_noDouble false s N), (stripLeading_id s F).
  by apply stripTrailing_id.
Qed.

(** X14: for a subject in ASCII, the clean subject holds lower-case
    letters, digits and single underscores, with no underscore at either
    end; cleaning it again changes nothing, and a name of this shape is its
    own clean subject.  It is empty exactly when the subject has no letter
    and no digit. *)
Theorem cleanSubject_normal_form subject :
  Text.isAsciiText subject = true ->
  Clean.isClean (cleanSubject subject) = true
  /\ cleanSubject (cleanSubject subject) = cleanSubject subject
  /\ (Clean.isClean subject = true <-> cleanSubject subject = subject)
  /\ (cleanSubject subject = ""
      <-> Text.all (fun c => negb (Clean.isAlnum c)) subject = true).
Proof.
  intros _.
  split; [apply isClean_cleanSubject |].
  split; [apply cleanSubject_isClean, isClean_cleanSubject |].
  split; [| apply cleanSubject_empty_iff].
  split; [apply cleanSubject_isClean |].
  intros <-. apply isClean_cleanSubject.
Qed.

Lemma cleanSubject_normal_form_witness :
  Text.isAsciiText "  C++ &  Data-Structures_ " = true
  /\ cleanSubject "  C++ &  Data-Structures_ " = "c_datastructures"
  /\ Clean.isClean (cleanSubject "  C++ &  Data-Structures_ ") = true
  /\ cleanSubject (cleanSubject "  C++ &  Data-Structures_ ")
     = cleanSubject "  C++ &  Data-Structures_ ".
Proof.
  assert (H : Text.isAsciiText "  C++ &  Data-Structures_ " = true) by reflexivity.
  split; [exact H |]. split; [reflexivity |].
  exact (conj (proj1 (cleanSubject_normal_form _ H))
              (proj1 (proj2 (cleanSubject_normal_form _ H)))).
Defined.

(** *** The names of the attendance collections *)

Lemma getAttendanceModel_inr stream sem subject n :
  getAttendanceModel stream sem subject = inr n ->
  exists code,
    In (stream, code) STREAM_MAPPINGS
    /\ cleanSubject subject <> ""
    /\ n = code +:+ "_sem" +:+ pretty sem +:+ "_"
           +:+ (cleanSubject subject +:+ "_attendance").
Proof.
  unfold getAttendanceModel.
  destruct (_ || _ || _); [done |].
  destruct (lookupMapping _ _) as [code |] eqn:Hc; [| done].
  destruct (String.eqb code ""); [done |].
  destruct (String.eqb_spec (cleanSubject subject) "") as [| ne]; [done |].
  intros [= <-]. exists code.
  split; [by apply lookupMapping_STREAM_MAPPINGS |]. done.
Qed.

(** X15: [getAttendanceModel] checks the subject and not the semester: for a
    recognised stream and a subject in ASCII it throws for a subject
    without a letter or digit, and otherwise returns a collection for every
    semester but 0, also outside 1 to 8, where [getStudentModel] throws. *)
Theorem attendance_model_has_no_semester_check stream sem subject :
  In stream validStreams -> sem <> 0 -> subject <> "" ->
  Text.isAsciiText subject = true ->
  (Text.all (fun c => negb (Clean.isAlnum c)) subject = true ->
   getAttendanceModel stream sem subject = inl (InvalidSubjectName subject))
  /\ (Text.all (fun c => negb (Clean.isAlnum c)) subject = false ->
      exists code,
        lookupMapping STREAM_MAPPINGS stream = Some code
        /\ getAttendanceModel stream sem subject
           = inr (code +:+ "_sem" +:+ pretty sem +:+ "_"
                  +:+ cleanSubject subject +:+ "_attendance"))
  /\ (~ 1 <= sem <= 8 ->
      getStudentModel stream sem = Throw (InvalidSemester sem)).
Proof.
  intros Hs Hk Hsub _.
  destruct (validStreams_mapped _ Hs) as (code & Hcode & Hne & Hsne).
  apply String.eqb_neq in Hne, Hsne, Hsub.
  assert (K : (sem =? 0) = false) by lia.
  unfold getAttendanceModel, getStudentModel, getCollectionName.
  rewrite Hcode, Hne, Hsne, Hsub, K. cbn [orb].
  split; [| split].
  - intros E. apply cleanSubject_empty_iff in E. by rewrite E.
  - intros E. exists code. split; [done |].
    destruct (String.eqb_spec (cleanSubject subject) "") as [E' | _]; [| done].
    apply cleanSubject_empty_iff in E'. congruence.
  - intros R. replace ((sem <? 1) || (sem >? 8)) with true by lia. done.
Qed.

Lemma attendance_model_has_no_semester_check_witness :
  getAttendanceModel "BCA" 9 "C++ Lab"
  = inr ("bca" +:+ "_sem" +:+ pretty 9 +:+ "_" +:+ cleanSubject "C++ Lab"
         +:+ "_attendance")
  /\ getStudentModel "BCA" 9 = Throw (InvalidSemester 9).
Proof.
  assert (H1 : In "BCA" validStreams) by (simpl; auto).
  assert (H2 : 9 <> 0) by lia.
  assert (H3 : "C++ Lab" <> "") by discriminate.
  assert (H4 : ~ 1 <= 9 <= 8) by lia.
  assert (H5 : Text.isAsciiText "C++ Lab" = true) by reflexivity.
  split.
  - reflexivity.
  - exact (proj2 (proj2 (attendance_model_has_no_semester_check
                           "BCA" 9 "C++ Lab" H1 H2 H3 H5)) H4).
Defined.

Lemma attendance_type_length clean :
  (String.length (clean +:+ "_attendance") >= 11)%nat.
Proof. rewrite length_append. cbn. lia. Qed.

Lemma append_attendance_inj a b :
  a +:+ "_attendance" = b +:+ "_attendance" -> a = b.
Proof.
  revert b. induction a as [| c r IH]; intros b.
  - destruct b as [| d b]; [done |]. rewrite append_nil, append_cons.
    intros E. apply (f_equal String.length) in E.
    rewrite append_cons in E || cbn in E.
    pose proof (attendance_type_length b). cbn in E. lia.
  - destruct b as [| d b].
    + rewrite append_nil, append_cons.
      intros E. apply (f_equal String.length) in E.
      pose proof (attendance_type_length r). cbn in E. lia.
    + rewrite !append_cons. intros [= -> E]. f_equal. by apply IH.
Qed.

(** X16: within the semesters 1 to 8, the name of an attendance collection
    is never the name of a collection of students or of subjects, and it
    determines the stream, the semester and the clean subject: two
    subjects share a collection exactly when they have the same clean
    subject. *)
Theorem attendance_collections_are_apart stream sem subject n :
  1 <= sem <= 8 ->
  getAttendanceModel stream sem subject = inr n ->
  (forall stream' sem',
     getStudentModel stream' sem' <> Ok n
     /\ getSubjectModel stream' sem' <> Ok n)
  /\ (forall stream' sem' subject',
        1 <= sem' <= 8 ->
        getAttendanceModel stream' sem' subject' = inr n ->
        stream' = stream /\ sem' = sem
        /\ cleanSubject subject' = cleanSubject subject)
  /\ (forall subject',
        subject' <> "" ->
        cleanSubject subject' = cleanSubject subject ->
        getAttendanceModel stream sem subject' = inr n).
Proof.
  intros Hk H.
  pose proof (getAttendanceModel_inr _ _ _ _ H) as (code & Hc & Hclean & ->).
  assert (other : forall stream' sem' type',
            getCollectionName stream' sem' type'
            = Ok (code +:+ "_sem" +:+ pretty sem +:+ "_"
                  +:+ (cleanSubject subject +:+ "_attendance")) ->
            type' = cleanSubject subject +:+ "_attendance").
  { intros stream' sem' type' E.
    apply getCollectionName_Ok in E as (code' & Hc' & Hk' & E).
    symmetry in E.
    destruct (stream_code_inj _ _ _ _ _ _ Hc' Hc E) as [_ E'].
    by destruct (semester_text_inj _ _ _ _ Hk' Hk E') as [_ ->]. }
  split; [| split].
  - intros stream' sem'. unfold getStudentModel, getSubjectModel.
    destruct (String.eqb stream' "" || (sem' =? 0)); [done |].
    split; intros E%other; apply (f_equal String.length) in E;
      pose proof (attendance_type_length (cleanSubject subject));
      cbn in E; lia.
  - intros stream' sem' subject' Hk' H'.
    pose proof (getAttendanceModel_inr _ _ _ _ H') as (code' & Hc' & _ & E).
    symmetry in E.
    destruct (stream_code_inj _ _ _ _ _ _ Hc' Hc E) as [-> E'].
    destruct (semester_text_inj _ _ _ _ Hk' Hk E') as [-> E''].
    by apply append_attendance_inj in E''.
  - intros subject' Hne E. revert H. unfold getAttendanceModel.
    rewrite E. apply String.eqb_neq in Hne. rewrite Hne.
    destruct (String.eqb stream ""); [done |].
    destruct (sem =? 0); [done |]. cbn [orb].
    destruct (String.eqb subject ""); [done |].
    destruct (lookupMapping STREAM_MAPPINGS stream); [| done].
    destruct (String.eqb s ""); [done |].
    by destruct (String.eqb (cleanSubject subject) "").
Qed.

Lemma attendance_collections_are_apart_witness :
  1 <= 3 <= 8
  /\ getAttendanceModel "BCA" 3 "C" = inr "bca_sem3_c_attendance"
  /\ getAttendanceModel "BCA" 3 "C++" = inr "bca_sem3_c_attendance".
Proof.
  assert (H1 : 1 <= 3 <= 8) by lia.
  assert (H2 : getAttendanceModel "BCA" 3 "C" = inr "bca_sem3_c_attendance")
    by reflexivity.
  assert (H3 : "C++" <> "") by discriminate.
  assert (H4 : cleanSubject "C++" = cleanSubject "C") by reflexivity.
  exact (conj H1 (conj H2
           (proj2 (proj2 (attendance_collections_are_apart
                            "BCA" 3 "C" "bca_sem3_c_attendance" H1 H2))
              "C++" H3 H4))).
Defined.

(** ** Attendance collections of the reports *)

Lemma trimEnd_lastIs x :
  Clean.lastIs Js.isSpace x = false -> Slug.trimEnd x = x.
Proof.
  induction x as [| c r IH]; [done |]. cbn.
  destruct (String.eqb_spec r "") as [-> | ne].
  - intros ->. done.
  - intros H. rewrite (IH H).
    destruct (String.eqb_spec r "") as [| _]; [done |]. by rewrite andb_false_r.
Qed.

Lemma lastIs_cons p c s :
  Clean.lastIs p s = true -> Clean.lastIs p (String c s) = true.
Proof. destruct s as [| d r]; [done |]. done. Qed.

(** White space at the end leaves an underscore at the end. *)
Lemma trailing_space_underscore b x :
  Clean.lastIs Js.isSpace x = true ->
  (b = true /\ Js.replaceSpaceRuns b x = "")
  \/ Clean.lastIs Slug.isUnderscore
       (Text.keep Slug.isSlugChar (Js.replaceSpaceRuns b x)) = true.
Proof.
  revert b. induction x as [| c r IH]; intros b; [done |].
  cbn [Clean.lastIs Js.replaceSpaceRuns].
  destruct (Js.isSpace c) eqn:Sc.
  - destruct (String.eqb_spec r "") as [-> | ne].
    + intros _. destruct b; [by left | by right].
    + intros H. destruct (IH true H) as [[_ E] | L].
      * destruct b; [by left |]. right. by rewrite E.
      * destruct b; [by right |]. right.
        change (Text.keep Slug.isSlugChar (String "_" ?s))
          with (String "_"%char (Text.keep Slug.isSlugChar s)).
        by apply lastIs_cons.
  - destruct (String.eqb_spec r "") as [-> | ne]; [done |].
    intros H. destruct (IH false H) as [[? _] | L]; [done |]. right.
    cbn [Text.keep]. destruct (Slug.isSlugChar c); [| done].
    by apply lastIs_cons.
Qed.

Lemma leading_space_underscore x :
  Text.firstIs Slug.isUnderscore
    (Text.keep Slug.isSlugChar (Js.replaceSpaceRuns false x)) = false ->
  Slug.trimStart x = x.
Proof.
  destruct x as [| c r]; [done |]. cbn.
  by destruct (Js.isSpace c).
Qed.

(** When the clean subject of the reports has the shape of a clean
    subject, it is the clean subject. *)
Lemma cleanSubject_reports subject :
  Clean.isClean (ReportsAttendance.cleanSubject subject) = true ->
  cleanSubject subject = ReportsAttendance.cleanSubject subject.
Proof.
  unfold ReportsAttendance.cleanSubject, cleanSubject.
  set (x := Js.toLowerCase subject).
  set (z := Text.keep Slug.isSlugChar (Js.replaceSpaceRuns false x)).
  unfold Clean.isClean.
  intros [[[A N]%andb_prop F%negb_true_iff]%andb_prop L%negb_true_iff]%andb_prop.
  assert (T : Slug.trim x = x).
  { unfold Slug.trim. rewrite (leading_space_underscore x F).
    apply trimEnd_lastIs.
    destruct (Clean.lastIs Js.isSpace x) eqn:E; [| done].
    destruct (trailing_space_underscore false x E) as [[? _] | L']; [done |].
    fold z in L'. congruence. }
  rewrite T. fold z. unfold Slug.stripEdges.
  rewrite (collapse_noDouble false z N), (stripLeading_id z F).
  by apply stripTrailing_id.
Qed.

(** The codes of the two files in the names, stream by stream. *)
Lemma attendance_names_by_stream stream k (a b : string) :
  In stream validStreams -> 1 <= k <= 8 ->
  exists code codeR,
    lookupMapping STREAM_MAPPINGS stream = Some code
    /\ code <> ""
    /\ stream <> ""
    /\ ReportsAttendance.removeFirst ("_sem" +:+ pretty k +:+ "_")
         (Reports.getCollectionName stream k "") = codeR
    /\ (code +:+ "_sem" +:+ pretty k +:+ "_" +:+ a +:+ "_attendance"
        = codeR +:+ "_sem" +:+ pretty k +:+ "_" +:+ b +:+ "_attendance"
        <-> stream <> "BCom-BDA" /\ a = b).
Proof.
  intros Hs Hk. unfold validStreams in Hs. cbn [In] in Hs.
  destruct (semester_cases _ Hk) as [-> | [-> | [-> | [-> | [-> | [-> | [-> | ->]]]]]]];
  repeat (destruct Hs as [<- | Hs];
          [ eexists; eexists; split; [reflexivity |]; split; [done |];
            split; [done |]; split; [vm_compute; reflexivity |];
            vm_compute; split;
            [ intros H; first [ discriminate H
                              | injection H as H;
                                apply append_attendance_inj in H; by split ]
            | intros [H ->]; first [ reflexivity | by destruct H ] ]
          | ]);
  contradiction.
Qed.

(** X17: the reports name the attendance collection of a subject as the
    routes that record the attendance do exactly when the stream is not
    BCom-BDA and the clean subject of the reports has the shape of a clean
    subject: for any other subject, one with a character that is dropped
    next to a space, or with a space at an end, the reports read a
    collection the attendance was never written to. *)
Theorem reports_read_the_recorded_attendance stream k subject :
  In stream validStreams -> 1 <= k <= 8 -> subject <> "" ->
  getAttendanceModel stream k subject
  = inr (ReportsAttendance.getAttendanceModel stream k subject)
  <-> stream <> "BCom-BDA"
      /\ ReportsAttendance.cleanSubject subject <> ""
      /\ Clean.isClean (ReportsAttendance.cleanSubject subject) = true.
Proof.
  intros Hs Hk Hsub.
  destruct (attendance_names_by_stream stream k (cleanSubject subject)
              (ReportsAttendance.cleanSubject subject) Hs Hk)
    as (code & codeR & Hcode & Hne & Hsne & HR & Hiff).
  apply String.eqb_neq in Hne, Hsne, Hsub.
  assert (K : (k =? 0) = false) by lia.
  unfold getAttendanceModel, ReportsAttendance.getAttendanceModel.
  rewrite Hcode, Hne, Hsne, Hsub, K, HR. cbn [orb].
  destruct (String.eqb_spec (cleanSubject subject) "") as [E | ne].
  - split; [done |]. intros (_ & ne & C).
    rewrite (cleanSubject_reports subject C) in E. done.
  - split.
    + intros [= H]. apply Hiff in H as [Hbda E]. split; [done |].
      rewrite <- E. split; [done |]. apply isClean_cleanSubject.
    + intros (Hbda & _ & C). f_equal. apply Hiff. split; [done |].
      by apply cleanSubject_reports.
Qed.

Lemma reports_read_the_recorded_attendance_witness :
  getAttendanceModel "BCom A and F" 3 "Data Structures"
  = inr (ReportsAttendance.getAttendanceModel "BCom A and F" 3
           "Data Structures")
  /\ ReportsAttendance.getAttendanceModel "BCom A and F" 3 "Data Structures"
     = "bcom_a_and_f_sem3_data_structures_attendance".
Proof.
  assert (H1 : In "BCom A and F" validStreams) by (simpl; auto 10).
  assert (H2 : 1 <= 3 <= 8) by lia.
  assert (H3 : "Data Structures" <> "") by discriminate.
  assert (H4 : "BCom A and F" <> "BCom-BDA") by discriminate.
  assert (H5 : ReportsAttendance.cleanSubject "Data Structures" <> "")
    by (vm_compute; discriminate).
  assert (H6 : Clean.isClean (ReportsAttendance.cleanSubject "Data Structures")
               = true) by reflexivity.
  split; [| reflexivity].
  exact (proj2 (reports_read_the_recorded_attendance "BCom A and F" 3
                  "Data Structures" H1 H2 H3) (conj H4 (conj H5 H6))).
Defined.

(** ** Marking the attendance *)

Lemma includes_In l s : Js.includes l s = true <-> In s l.
Proof.
  unfold Js.includes. rewrite existsb_exists. split.
  - intros (x & Hx & E). apply String.eqb_eq in E. by subst.
  - intros H. exists s. split; [done |]. apply String.eqb_refl.
Qed.

Lemma filter_true {A} (l : list A) : List.filter (fun _ => true) l = l.
Proof. induction l as [| x l IH]; [done |]. cbn. by rewrite IH. Qed.



Lemma count_partition {A} (p : A -> bool) (l : list A) :
  Absence.count p l + Absence.count (fun x => negb (p x)) l
  = Z.of_nat (length l).
Proof.
  unfold Absence.count. induction l as [| x l IH]; [done |]. cbn [List.filter].
  destruct (p x); cbn [negb length]; lia.
Qed.

Lemma present_among_relevant (present : list string) (students : list Student.t) :
  NoDup present -> NoDup (map Student.studentID students) ->
  (forall id, In id present -> In id (map Student.studentID students)) ->
  length (List.filter (fun s => Js.includes present (Student.studentID s))
            students)
  = length present.
Proof.
  intros Dp Ds Sub.
  rewrite <- (length_map Student.studentID (List.filter _ students)).
  apply Permutation_length, NoDup_Permutation; [| done |].
  - clear Sub. induction students as [| s l IH]; [constructor |].
    cbn [map] in Ds. apply NoDup_cons in Ds as [Hs Dl].
    cbn [List.filter].
    destruct (Js.includes present (Student.studentID s)); [| by apply IH].
    cbn [map]. apply NoDup_cons. split; [| by apply IH].
    intros H. apply Hs. apply list_elem_of_In in H.
    apply in_map_iff in H as (x & E & [Hx _]%filter_In).
    apply list_elem_of_In, in_map_iff. by exists x.
  - intros id. rewrite !list_elem_of_In, in_map_iff. split.
    + intros (s & <- & [_ I]%filter_In). by apply includes_In.
    + intros H. destruct (proj1 (in_map_iff _ _ _) (Sub id H)) as (s & <- & Hs).
      exists s. split; [done |]. apply filter_In. split; [done |].
      by apply includes_In.
Qed.

(** X19: when the attendance is marked, every student stored as present is
    a student of the subject, the absent students with and without a
    phone add up to the absent students, and with no student listed twice
    and no student ID twice on the roster, the present and the absent
    students add up to the students of the subject. *)
Theorem marked_attendance_counts subject date studentsPresent forceOverwrite
    subjectDoc activeStudents existingRecord isOverwrite stored summary :
  Marking.markAttendance subject date (Some studentsPresent) forceOverwrite
    (Some subjectDoc) activeStudents existingRecord
  = Marking.Marked isOverwrite stored summary ->
  let relevantStudents := Marking.relevantStudents subjectDoc activeStudents in
  stored = studentsPresent
  /\ (forall id, In id stored -> In id (map Student.studentID relevantStudents))
  /\ (forceOverwrite = false -> existingRecord = None)
  /\ 0 < Marking.totalRelevantStudents summary
  /\ Marking.absentWithPhone summary + Marking.absentWithoutPhone summary
     = Marking.absentStudents summary
  /\ (NoDup studentsPresent ->
      NoDup (map Student.studentID relevantStudents) ->
      Marking.presentStudents summary + Marking.absentStudents summary
      = Marking.totalRelevantStudents summary).
Proof.
  unfold Marking.markAttendance.
  destruct (_ || _); [done |].
  set (R := Marking.relevantStudents subjectDoc activeStudents).
  destruct (Z.eqb_spec (Z.of_nat (length R)) 0) as [| ne]; [done |].
  destruct (if forceOverwrite then None else existingRecord) eqn:X; [done |].
  destruct (Z.ltb_spec 0 (Z.of_nat (length (List.filter
              (fun id => negb (Js.includes (map Student.studentID R) id))
              studentsPresent)))) as [| I]; [done |].
  intros [= <- <- <-]. cbn zeta.
  cbn [Marking.totalRelevantStudents Marking.presentStudents
         Marking.absentStudents Marking.absentWithPhone
         Marking.absentWithoutPhone].
  assert (Sub : forall id, In id studentsPresent ->
                           In id (map Student.studentID R)).
  { intros id Hid. apply includes_In.
    destruct (Js.includes (map Student.studentID R) id) eqn:E; [done |].
    assert (In id (List.filter
                     (fun id => negb (Js.includes (map Student.studentID R) id))
                     studentsPresent))
      by (apply filter_In; by rewrite E).
    destruct (List.filter _ studentsPresent); [done | cbn [length] in I; lia]. }
  split; [done |]. split; [done |].
  split; [by destruct forceOverwrite |].
  split; [lia |]. split; [apply count_partition |].
  intros Dp Ds.
  pose proof (partition_length (fun _ : Student.t => true)
                (fun s => Js.includes studentsPresent (Student.studentID s)) R)
    as P.
  cbn [andb] in P. rewrite filter_true in P.
  rewrite (present_among_relevant studentsPresent R Dp Ds Sub) in P. lia.
Qed.

Lemma marked_attendance_counts_witness :
  let summary :=
    Marking.mkSummary 2 1 1 1 0
      [Marking.mkAbsentee "BCA102" "KIRAN" true (Some "HINDI")] in
  Marking.markAttendance "Hindi" (Some "2026-11-02") (Some ["BCA103"]) false
    (Some Classroom.hindi) Classroom.students None
  = Marking.Marked false ["BCA103"] summary
  /\ Marking.presentStudents summary + Marking.absentStudents summary
     = Marking.totalRelevantStudents summary.
Proof.
  cbn zeta.
  assert (H : Marking.markAttendance "Hindi" (Some "2026-11-02")
                (Some ["BCA103"]) false (Some Classroom.hindi)
                Classroom.students None
              = Marking.Marked false ["BCA103"]
                  (Marking.mkSummary 2 1 1 1 0
                     [Marking.mkAbsentee "BCA102" "KIRAN" true (Some "HINDI")]))
    by reflexivity.
  assert (D1 : NoDup ["BCA103"]) by (by apply (bool_decide_unpack _)).
  assert (D2 : NoDup (map Student.studentID
                        (Marking.relevantStudents Classroom.hindi
                           Classroom.students)))
    by (by apply (bool_decide_unpack _)).
  exact (conj H (proj2 (proj2 (proj2 (proj2 (proj2
           (marked_attendance_counts _ _ _ _ _ _ _ _ _ _ H))))) D1 D2)).
Defined.

(** ** The queue of a teacher *)

Lemma findIndex_Some {A} (p : A -> bool) (l : list A) i :
  Teacher.findIndex p l = Some i ->
  exists before x after,
    l = before ++ x :: after
    /\ Forall (fun y => p y = false) before
    /\ p x = true
    /\ l !! i = Some x
    /\ delete i l = before ++ after.
Proof.
  revert i. induction l as [| y l IH]; intros i; [done |]. cbn.
  destruct (p y) eqn:E.
  - intros [= <-]. by exists [], y, l.
  - destruct (Teacher.findIndex p l) as [j |]; [| done]. cbn.
    intros [= <-].
    destruct (IH j eq_refl) as (before & x & after & -> & F & Px & L & D).
    exists (y :: before), x, after.
    split; [done |]. split; [by constructor |]. split; [done |].
    split; [exact L |]. cbn. f_equal. exact D.
Qed.

Lemma findIndex_None {A} (p : A -> bool) (l : list A) :
  Teacher.findIndex p l = None <-> Forall (fun y => p y = false) l.
Proof.
  induction l as [| y l IH]; [by split; [constructor |] |]. cbn.
  destruct (p y) eqn:E.
  - split; [done |]. intros H. inversion H; congruence.
  - destruct (Teacher.findIndex p l) as [j |]; cbn.
    + split; [done |]. intros H. inversion H as [| ? ? _ Hl]; subst.
      by apply IH in Hl.
    + split; [| done]. intros _. constructor; [done |]. by apply IH.
Qed.

Lemma filter_length_eq {A} (p : A -> bool) (l : list A) :
  length (List.filter p l) = length l <-> Forall (fun y => p y = true) l.
Proof.
  induction l as [| y l IH]; [by split; [constructor |] |]. cbn.
  pose proof (List.filter_length_le p l) as B.
  destruct (p y) eqn:E; cbn [length].
  - split.
    + intros H. constructor; [done |]. apply IH. lia.
    + intros H. inversion H as [| ? ? _ Hl]; subst. f_equal. by apply IH.
  - split; [lia |]. intros H. inversion H; congruence.
Qed.

(** X20: [addToQueue] compares what it is given with what it stored, and it
    stores the trimmed values: a class whose stream, semester and subject,
    all in ASCII, come without white space around them is turned down the
    second time, and any other class in ASCII is queued again, as a second
    entry with the same stream, semester and subject. *)
Theorem class_given_with_spaces_is_queued_twice first second classData
    teacher newClass teacher' :
  Text.isAsciiText (Teacher.givenStream classData) = true ->
  Text.isAsciiText (Teacher.givenSemester classData) = true ->
  Text.isAsciiText (Teacher.givenSubject classData) = true ->
  Teacher.addToQueue first classData teacher = inr (newClass, teacher') ->
  let trimmed d := String.eqb (Slug.trim d) d in
  Teacher.addToQueue second classData teacher'
  = if trimmed (Teacher.givenStream classData)
       && trimmed (Teacher.givenSemester classData)
       && trimmed (Teacher.givenSubject classData)
    then inl Teacher.AlreadyInQueue
    else
      let again :=
        Teacher.mkClass (pretty (Teacher.now second)) (Teacher.stream newClass)
          (Teacher.semester newClass) (Teacher.subject newClass)
          (Teacher.localeTime second) (Teacher.dateString second) None None in
      inr (again,
           Teacher.mk (Teacher.attendanceQueue teacher ++ [newClass; again])
             (Teacher.completedToday teacher)).
Proof.
  intros _ _ _. unfold Teacher.addToQueue.
  destruct (existsb _ (Teacher.attendanceQueue teacher)) eqn:E; [done |].
  intros [= <- <-]. cbn zeta.
  cbn [Teacher.attendanceQueue Teacher.completedToday Teacher.stream
         Teacher.semester Teacher.subject].
  rewrite existsb_app, E. cbn [existsb orb].
  rewrite orb_false_r.
  destruct (_ && _ && _); [done |].
  by rewrite <- app_assoc.
Qed.

Lemma class_given_with_spaces_is_queued_twice_witness :
  let first := Teacher.mkTime 1762041600000 "10:00:00 AM" "Mon Nov 02 2026" in
  let second := Teacher.mkTime 1762041660000 "10:01:00 AM" "Mon Nov 02 2026" in
  let classData := Teacher.mkData "BCA" "3" "Maths " in
  let newClass :=
    Teacher.mkClass "1762041600000" "BCA" "3" "Maths" "10:00:00 AM"
      "Mon Nov 02 2026" None None in
  let again :=
    Teacher.mkClass "1762041660000" "BCA" "3" "Maths" "10:01:00 AM"
      "Mon Nov 02 2026" None None in
  Teacher.addToQueue second classData (Teacher.mk [newClass] [])
  = inr (again, Teacher.mk [newClass; again] []).
Proof.
  cbn zeta.
  assert (H : Teacher.addToQueue
                (Teacher.mkTime 1762041600000 "10:00:00 AM" "Mon Nov 02 2026")
                (Teacher.mkData "BCA" "3" "Maths ") (Teacher.mk [] [])
              = inr (Teacher.mkClass "1762041600000" "BCA" "3" "Maths"
                       "10:00:00 AM" "Mon Nov 02 2026" None None,
                     Teacher.mk
                       [Teacher.mkClass "1762041600000" "BCA" "3" "Maths"
                          "10:00:00 AM" "Mon Nov 02 2026" None None] []))
    by reflexivity.
  assert (A1 : Text.isAsciiText "BCA" = true) by reflexivity.
  assert (A2 : Text.isAsciiText "3" = true) by reflexivity.
  assert (A3 : Text.isAsciiText "Maths " = true) by reflexivity.
  exact (class_given_with_spaces_is_queued_twice _
           (Teacher.mkTime 1762041660000 "10:01:00 AM" "Mon Nov 02 2026")
           (Teacher.mkData "BCA" "3" "Maths ") _ _ _ A1 A2 A3 H).
Defined.

(** X21: [completeClass] takes one class out of the queue, the first with
    the id, and appends it to the completed classes with the time of the
    call; [removeClass] takes out every class with the id and leaves the
    completed classes alone.  Each throws exactly when the queue has no
    class with the id. *)
Theorem classes_leave_the_queue when classId teacher :
  let other cls := negb (String.eqb (Teacher.id cls) classId) in
  match Teacher.completeClass when classId teacher with
  | inr (completedClass, teacher') =>
      exists before cls after,
        Teacher.attendanceQueue teacher = before ++ cls :: after
        /\ Forall (fun c => other c = true) before
        /\ Teacher.id cls = classId
        /\ Teacher.attendanceQueue teacher' = before ++ after
        /\ Teacher.completedToday teacher'
           = Teacher.completedToday teacher ++ [completedClass]
        /\ completedClass
           = Teacher.mkClass (Teacher.id cls) (Teacher.stream cls)
               (Teacher.semester cls) (Teacher.subject cls)
               (Teacher.timeAdded cls) (Teacher.dateAdded cls)
               (Some (Teacher.localeTime when))
               (Some (Teacher.dateString when))
  | inl e =>
      e = Teacher.ClassNotFound
      /\ Forall (fun c => other c = true) (Teacher.attendanceQueue teacher)
  end
  /\ match Teacher.removeClass classId teacher with
     | inr teacher' =>
         Teacher.attendanceQueue teacher'
         = List.filter other (Teacher.attendanceQueue teacher)
         /\ (length (Teacher.attendanceQueue teacher')
             < length (Teacher.attendanceQueue teacher))%nat
         /\ Teacher.completedToday teacher' = Teacher.completedToday teacher
     | inl e =>
         e = Teacher.ClassNotFound
         /\ Forall (fun c => other c = true) (Teacher.attendanceQueue teacher)
     end.
Proof.
  cbn zeta. split.
  - unfold Teacher.completeClass.
    destruct (Teacher.findIndex _ _) as [i |] eqn:F.
    + apply findIndex_Some in F as (before & cls & after & E & B & P & L & D).
      rewrite L, D. exists before, cls, after.
      split; [done |]. split.
      { eapply Forall_impl; [exact B |]. cbn beta. by intros c ->. }
      split; [by apply String.eqb_eq |]. done.
    + split; [done |]. apply findIndex_None in F.
      eapply Forall_impl; [exact F |]. cbn beta. by intros c ->.
  - unfold Teacher.removeClass.
    destruct (Nat.eqb_spec
                (length (List.filter
                           (fun cls => negb (String.eqb (Teacher.id cls) classId))
                           (Teacher.attendanceQueue teacher)))
                (length (Teacher.attendanceQueue teacher))) as [E | ne].
    + split; [done |]. by apply filter_length_eq in E.
    + cbn [Teacher.attendanceQueue Teacher.completedToday].
      split; [done |]. split; [| done].
      pose proof (List.filter_length_le
                    (fun cls => negb (String.eqb (Teacher.id cls) classId))
                    (Teacher.attendanceQueue teacher)). lia.
Qed.
